(** * Voice assistant: speech capture, turn orchestration and cost accumulator

    A shallow embedding of the control logic of [src/app/page.tsx] (the
    [VoiceAssistant] component) and of [src/app/api/chat/route.ts] (the
    [POST] handler).

    - JavaScript numbers are IEEE 754 binary64 values: [PrimFloat.float].
    - Strings are sequences of 8-bit code units ([Stdlib.Strings.String]).
    - A render of the component is a record [State] holding the value of
      every [useState] hook.  A closure created during a render (an event
      handler, a timer callback) reads the record it captured, while the
      [setX] calls write the hook cells of the [World].
    - [useRef] cells, pending timers, pending fetches and the calls made to
      the browser (recognition engine, speech synthesis, network) live in
      the [World].
    - An [async] function is split at its [await]: the part that runs at the
      call, and the part that runs when the fetch settles.
    - The event loop runs one task at a time; React commits the render a
      task caused before the next task starts, and the effect of lines
      100-222 runs again when one of its dependencies changed.  Each run
      of the effect creates a new recognition object with handlers that
      capture that render; its cleanup, which runs before the next run,
      stops that object.  The engine's events belong to the object that
      [start()] was called on, so they reach the handlers of the effect run
      that was the latest one at the time of the call.
    - A commit is taken to succeed.  React cannot render an object as message
      content; properties about replies are stated for content it can render.
    - The totals of the cost accumulator are numbers.  A usage field that
      is a string, an array or an object would turn them into strings; the
      continuation of such a response is left undefined ([Unmodelled]).
    - [speakText] runs on a record of the synthesis engine ([Speech.Synth]):
      its catalog of voices, the utterance objects, the calls made to it,
      and the listeners and timers that wait for the catalog. *)

From Stdlib Require Import String Ascii List Bool Arith PArith Lia.
From Stdlib Require Import PrimFloat.
Import ListNotations.

Local Open Scope list_scope.
Local Open Scope string_scope.

(* ===================================================================== *)
(** ** JavaScript strings *)
(* ===================================================================== *)

Module JsString.

(** White space and line terminators removed by [String.prototype.trim],
    within the 8-bit range: TAB, LF, VT, FF, CR, SPACE, NBSP. *)
Definition isWhiteSpace (c : ascii) : bool :=
  let n := nat_of_ascii c in
  ((9 <=? n)%nat && (n <=? 13)%nat) || (n =? 32)%nat || (n =? 160)%nat.

Fixpoint trimStart (s : string) : string :=
  match s with
  | EmptyString => EmptyString
  | String c s' => if isWhiteSpace c then trimStart s' else s
  end.

Fixpoint trimEnd (s : string) : string :=
  match s with
  | EmptyString => EmptyString
  | String c s' =>
      match trimEnd s' with
      | EmptyString => if isWhiteSpace c then EmptyString else String c EmptyString
      | r => String c r
      end
  end.

(** [s.trim()] *)
Definition trim (s : string) : string := trimEnd (trimStart s).

(** Truthiness of a string: [if (s)] holds unless [s] is empty. *)
Definition truthy (s : string) : bool :=
  match s with EmptyString => false | String _ _ => true end.

(** [s] is empty or starts with a character that is not white space. *)
Definition noLead (s : string) : Prop :=
  match s with
  | EmptyString => True
  | String c _ => isWhiteSpace c = false
  end.

End JsString.

(* ===================================================================== *)
(** ** JavaScript values *)
(* ===================================================================== *)

(** The values that flow through positions typed [any] in the source: the
    parsed JSON bodies and what is read out of them. *)
#[warnings="-register-all"]
Inductive JsValue : Type :=
| JUndefined
| JNull
| JBool (b : bool)
| JNumber (x : float)
| JString (s : string)
| JArray (elems : list JsValue)
| JObject (fields : list (string * JsValue)).

Module Js.

(** ToBoolean *)
Definition truthy (v : JsValue) : bool :=
  match v with
  | JUndefined | JNull => false
  | JBool b => b
  | JNumber x => negb (PrimFloat.is_zero x || PrimFloat.is_nan x)
  | JString s => JsString.truthy s
  | JArray _ | JObject _ => true
  end.

Fixpoint assoc (k : string) (fields : list (string * JsValue)) : JsValue :=
  match fields with
  | [] => JUndefined
  | (k', v) :: rest => if String.eqb k k' then v else assoc k rest
  end.

(** [v.k] for a key [k] that no prototype defines: [None] is the
    [TypeError] raised on [undefined] and [null]. *)
Definition getProp (v : JsValue) (k : string) : option JsValue :=
  match v with
  | JUndefined | JNull => None
  | JObject fields => Some (assoc k fields)
  | _ => Some JUndefined
  end.

(** [v === "s"] *)
Definition strictEqString (v : JsValue) (s : string) : bool :=
  match v with
  | JString s' => String.eqb s' s
  | _ => false
  end.

(** ToNumber on the operands of [/] and of a numeric [+].  Strings,
    arrays and objects are left out ([None]): on them [+] concatenates
    and ToNumber parses text. *)
Definition toNumber (v : JsValue) : option float :=
  match v with
  | JUndefined => Some nan
  | JNull => Some 0%float
  | JBool b => Some (if b then 1%float else 0%float)
  | JNumber x => Some x
  | JString _ | JArray _ | JObject _ => None
  end.

End Js.

(* ===================================================================== *)
(** ** Data model (page.tsx, lines 27-45) *)
(* ===================================================================== *)

Inductive Role := user | assistant.

Record Message := mkMessage {
  role : Role;
  content : JsValue;      (* [string] by its interface; [data.response] is [any] *)
  timestamp : nat         (* [new Date()], a reading of the clock *)
}.

(** [TokenUsage]; its third field is [totalTokens] in the source, a name
    that [CostCalculation] takes here. *)
Record TokenUsage := mkTokenUsage {
  promptTokens : float;
  completionTokens : float;
  totalTokens_ : float
}.

Record CostCalculation := mkCosts {
  totalPromptTokens : float;
  totalCompletionTokens : float;
  totalTokens : float;
  totalCostUSD : float;
  totalCostBDT : float
}.

(* ===================================================================== *)
(** ** Cost accumulator (page.tsx, lines 68-98) *)
(* ===================================================================== *)

Module Cost.

Local Open Scope float_scope.

(** [0.005] and [0.015] denote the nearest binary64 values. *)
Definition PROMPT_TOKEN_COST : float := 0x1.47ae147ae147bp-8.
Definition COMPLETION_TOKEN_COST : float := 0x1.eb851eb851eb8p-7.
Definition USD_TO_BDT_RATE : float := 110.

Definition zero : CostCalculation := mkCosts 0 0 0 0 0.

(** The updater passed to [setCosts] by [calculateCost usage]. *)
Definition calculateCost (usage : TokenUsage) (prev : CostCalculation)
  : CostCalculation :=
  let promptCost := (promptTokens usage / 1000) * PROMPT_TOKEN_COST in
  let completionCost := (completionTokens usage / 1000) * COMPLETION_TOKEN_COST in
  let totalCostUSD_ := promptCost + completionCost in
  let totalCostBDT_ := totalCostUSD_ * USD_TO_BDT_RATE in
  {| totalPromptTokens := totalPromptTokens prev + promptTokens usage;
     totalCompletionTokens := totalCompletionTokens prev + completionTokens usage;
     totalTokens := totalTokens prev + totalTokens_ usage;
     totalCostUSD := totalCostUSD prev + totalCostUSD_;
     totalCostBDT := totalCostBDT prev + totalCostBDT_ |}.

(** The value passed to [setCosts] by [resetCosts]. *)
Definition resetCosts : CostCalculation := zero.

(** The amount one record adds to the USD total, with the rates written
    out. *)
Definition usdOf (usage : TokenUsage) : float :=
  (promptTokens usage / 1000) * 0x1.47ae147ae147bp-8
  + (completionTokens usage / 1000) * 0x1.eb851eb851eb8p-7.

Definition u_100_50_150 : TokenUsage := mkTokenUsage 100 50 150.
Definition u_200_100_300 : TokenUsage := mkTokenUsage 200 100 300.
Definition u_300_150_450 : TokenUsage := mkTokenUsage 300 150 450.

Definition twoCalls : CostCalculation :=
  calculateCost u_200_100_300 (calculateCost u_100_50_150 zero).
Definition oneCall : CostCalculation :=
  calculateCost u_300_150_450 zero.

End Cost.


(* ===================================================================== *)
(** ** Component state, timers, pending requests *)
(* ===================================================================== *)

(** One entry of [event.results]; only the top alternative
    [results[i][0].transcript] is read. *)
Record SpeechRecognitionResult := mkResult {
  isFinal : bool;
  alt0 : string
}.

Record SpeechRecognitionEvent := mkEvent {
  results : list SpeechRecognitionResult;
  resultIndex : nat
}.

(** Handles returned by [setTimeout] in a browser: positive integers. *)
Definition TimerId := positive.

(** The values of the [useState] hooks (page.tsx, lines 48-62). *)
Record State := mkState {
  isListening : bool;
  isProcessing : bool;
  isSpeaking : bool;
  messages : list Message;
  transcript : string;
  error : string;
  silenceTimer : option TimerId;
  hasSpokenContent : bool;
  costs : CostCalculation
}.

(** The JSON body sent to [/api/chat]. *)
Record ChatRequest := mkChatRequest {
  message : string;
  conversationHistory : list Message;
  requestType : string
}.

(** How a pending [fetch] settles.  [json = None]: [response.json()]
    rejects (the body is not JSON). *)
Inductive FetchOutcome :=
| NetworkError
| Responded (status : nat) (json : option JsValue).

(** [response.ok] *)
Definition ok (status : nat) : bool := (200 <=? status)%nat && (status <=? 299)%nat.

(** The async function suspended on a pending [fetch]. *)
Inductive Caller := InHandleUserInput | InRequestIELTSScore.

(** Calls made to the browser. *)
Inductive Effect :=
| Fetch (req : ChatRequest)
| RecognitionStart
| RecognitionStop
| SynthCancel
| SpeakText (text : JsValue).

(** The closures handed to [setTimeout], each with the render it captured. *)
Inductive Callback :=
| SilenceCb (env : State)       (* lines 154-160 *)
| ErrorRestartCb (env : State)  (* lines 184-188 *)
| EndRestartCb (env : State)    (* lines 195-203 *)
| SpeakCb (text : JsValue).     (* lines 307-310 and 362-365 *)

Record Timer := mkTimer {
  tid : TimerId;
  delay : nat;        (* milliseconds given to [setTimeout] *)
  due : nat;          (* clock value from which it may fire *)
  callback : Callback
}.

Record World := mkWorld {
  st : State;                    (* current values of the hooks *)
  installed : State;             (* render captured by the latest effect run *)
  finalTranscriptRef : string;
  recognitionRef : bool;         (* [recognitionRef.current] is not null *)
  recognizing : bool;            (* the current recognition object is started *)
  synthRef : bool;               (* [synthRef.current] is defined *)
  timers : list Timer;           (* pending timers, oldest first *)
  nextTimer : TimerId;
  now : nat;                     (* clock, milliseconds *)
  inflight : list (Caller * ChatRequest);
  log : list Effect;             (* oldest first *)
  active : State                 (* render captured by the handlers of the
                                    recognition object that was started last *)
}.

(** *** Field updates *)

Definition set_isListening (b : bool) (s : State) : State :=
  mkState b (isProcessing s) (isSpeaking s) (messages s) (transcript s)
    (error s) (silenceTimer s) (hasSpokenContent s) (costs s).
Definition set_isProcessing (b : bool) (s : State) : State :=
  mkState (isListening s) b (isSpeaking s) (messages s) (transcript s)
    (error s) (silenceTimer s) (hasSpokenContent s) (costs s).
Definition set_messages (m : list Message) (s : State) : State :=
  mkState (isListening s) (isProcessing s) (isSpeaking s) m (transcript s)
    (error s) (silenceTimer s) (hasSpokenContent s) (costs s).
Definition set_transcript (t : string) (s : State) : State :=
  mkState (isListening s) (isProcessing s) (isSpeaking s) (messages s) t
    (error s) (silenceTimer s) (hasSpokenContent s) (costs s).
Definition set_error (e : string) (s : State) : State :=
  mkState (isListening s) (isProcessing s) (isSpeaking s) (messages s)
    (transcript s) e (silenceTimer s) (hasSpokenContent s) (costs s).
Definition set_silenceTimer (t : option TimerId) (s : State) : State :=
  mkState (isListening s) (isProcessing s) (isSpeaking s) (messages s)
    (transcript s) (error s) t (hasSpokenContent s) (costs s).
Definition set_hasSpokenContent (b : bool) (s : State) : State :=
  mkState (isListening s) (isProcessing s) (isSpeaking s) (messages s)
    (transcript s) (error s) (silenceTimer s) b (costs s).
Definition set_costs (c : CostCalculation) (s : State) : State :=
  mkState (isListening s) (isProcessing s) (isSpeaking s) (messages s)
    (transcript s) (error s) (silenceTimer s) (hasSpokenContent s) c.

Definition with_st (f : State -> State) (w : World) : World :=
  mkWorld (f (st w)) (installed w) (finalTranscriptRef w) (recognitionRef w)
    (recognizing w) (synthRef w) (timers w) (nextTimer w)
    (now w) (inflight w) (log w) (active w).
Definition with_installed (s : State) (w : World) : World :=
  mkWorld (st w) s (finalTranscriptRef w) (recognitionRef w)
    (recognizing w) (synthRef w) (timers w) (nextTimer w)
    (now w) (inflight w) (log w) (active w).
Definition with_ref (r : string) (w : World) : World :=
  mkWorld (st w) (installed w) r (recognitionRef w)
    (recognizing w) (synthRef w) (timers w) (nextTimer w)
    (now w) (inflight w) (log w) (active w).
Definition with_recognizing (b : bool) (w : World) : World :=
  mkWorld (st w) (installed w) (finalTranscriptRef w) (recognitionRef w)
    b (synthRef w) (timers w) (nextTimer w) (now w) (inflight w) (log w) (active w).
Definition with_timers (ts : list Timer) (w : World) : World :=
  mkWorld (st w) (installed w) (finalTranscriptRef w) (recognitionRef w)
    (recognizing w) (synthRef w) ts (nextTimer w)
    (now w) (inflight w) (log w) (active w).
Definition with_nextTimer (n : TimerId) (w : World) : World :=
  mkWorld (st w) (installed w) (finalTranscriptRef w) (recognitionRef w)
    (recognizing w) (synthRef w) (timers w) n (now w) (inflight w) (log w) (active w).
Definition with_now (t : nat) (w : World) : World :=
  mkWorld (st w) (installed w) (finalTranscriptRef w) (recognitionRef w)
    (recognizing w) (synthRef w) (timers w) (nextTimer w)
    t (inflight w) (log w) (active w).
Definition with_inflight (l : list (Caller * ChatRequest)) (w : World) : World :=
  mkWorld (st w) (installed w) (finalTranscriptRef w) (recognitionRef w)
    (recognizing w) (synthRef w) (timers w) (nextTimer w) (now w) l (log w) (active w).
Definition with_log (l : list Effect) (w : World) : World :=
  mkWorld (st w) (installed w) (finalTranscriptRef w) (recognitionRef w)
    (recognizing w) (synthRef w) (timers w) (nextTimer w)
    (now w) (inflight w) l (active w).
Definition with_active (s : State) (w : World) : World :=
  mkWorld (st w) (installed w) (finalTranscriptRef w) (recognitionRef w)
    (recognizing w) (synthRef w) (timers w) (nextTimer w)
    (now w) (inflight w) (log w) s.

(* ===================================================================== *)
(** ** A state monad for the synchronous part of a handler *)
(* ===================================================================== *)

Definition M (A : Type) : Type := World -> A * World.

Definition ret {A : Type} (a : A) : M A := fun w => (a, w).
Definition bind {A B : Type} (m : M A) (k : A -> M B) : M B :=
  fun w => k (fst (m w)) (snd (m w)).
Definition get : M World := fun w => (w, w).
Definition modify (f : World -> World) : M unit := fun w => (tt, f w).
Definition exec {A : Type} (m : M A) (w : World) : World := snd (m w).
Definition skip : M unit := ret tt.

Declare Scope handler_scope.
Delimit Scope handler_scope with handler.
Notation "x <- m ;; k" := (bind m (fun x => k))
  (at level 61, m at next level, right associativity) : handler_scope.
Notation "m ;; k" := (bind m (fun _ => k))
  (at level 61, right associativity) : handler_scope.
Local Open Scope handler_scope.

(** *** Hook setters, ref writes and browser calls *)

Definition setIsListening (b : bool) : M unit := modify (with_st (set_isListening b)).
Definition setIsProcessing (b : bool) : M unit := modify (with_st (set_isProcessing b)).
Definition setMessages (m : list Message) : M unit := modify (with_st (set_messages m)).
Definition setMessagesFn (f : list Message -> list Message) : M unit :=
  modify (with_st (fun s => set_messages (f (messages s)) s)).
Definition setTranscript (t : string) : M unit := modify (with_st (set_transcript t)).
Definition setError (e : string) : M unit := modify (with_st (set_error e)).
Definition setSilenceTimer (t : option TimerId) : M unit :=
  modify (with_st (set_silenceTimer t)).
Definition setHasSpokenContent (b : bool) : M unit :=
  modify (with_st (set_hasSpokenContent b)).
Definition setCostsFn (f : CostCalculation -> CostCalculation) : M unit :=
  modify (with_st (fun s => set_costs (f (costs s)) s)).

Definition setFinalTranscriptRef (r : string) : M unit := modify (with_ref r).
Definition emit (e : Effect) : M unit := modify (fun w => with_log (log w ++ [e])%list w).

(** [setTimeout(cb, ms)] *)
Definition setTimeout (cb : Callback) (ms : nat) : M TimerId :=
  fun w =>
    let id := nextTimer w in
    (id, with_nextTimer (Pos.succ id)
           (with_timers (timers w ++ [mkTimer id ms (now w + ms) cb])%list w)).

(** [clearTimeout(id)] *)
Definition clearTimeout (id : TimerId) : M unit :=
  modify (fun w => with_timers
                     (filter (fun t => negb (Pos.eqb (tid t) id)) (timers w)) w).

(** [recognitionRef.current.start()]; the result tells whether it threw
    (InvalidStateError: the object is already started).  The object is the
    one the latest effect run created, so from now on the engine's events
    reach the handlers of that run. *)
Definition recognition_start : M bool :=
  emit RecognitionStart ;;
  w <- get ;;
  if recognizing w then ret true
  else
    modify (with_recognizing true) ;;
    modify (with_active (installed w)) ;;
    ret false.

(** [recognitionRef.current.stop()] *)
Definition recognition_stop : M unit :=
  emit RecognitionStop ;; modify (with_recognizing false).

(** [fetch("/api/chat", ...)] up to the [await]. *)
Definition fetch (c : Caller) (req : ChatRequest) : M unit :=
  emit (Fetch req) ;;
  modify (fun w => with_inflight (inflight w ++ [(c, req)])%list w).

(* ===================================================================== *)
(** ** Turn orchestrator (page.tsx, lines 258-372) *)
(* ===================================================================== *)

(** [handleUserInput(input)] up to its first [await] (lines 258-284). *)
Definition handleUserInput (env : State) (input : string) : M unit :=
  if negb (JsString.truthy (JsString.trim input)) then skip
  else
    w <- get ;;
    let userMessage := mkMessage user (JString input) (now w) in
    let updatedMessages := (messages env ++ [userMessage])%list in
    setMessages updatedMessages ;;
    setIsProcessing true ;;
    setTranscript "" ;;
    fetch InHandleUserInput
      (mkChatRequest input (removelast updatedMessages) "normal").

(** [requestIELTSScore()] up to its first [await] (lines 319-340). *)
Definition requestIELTSScore (env : State) : M unit :=
  if (length (messages env) =? 0)%nat then
    setError "Please have a conversation first before requesting an IELTS score."
  else
    setIsProcessing true ;;
    fetch InRequestIELTSScore (mkChatRequest "" (messages env) "ielts_score").

(** The operands [calculateCost] reads from [data.usage]. *)
Definition readUsage (u : JsValue) : option TokenUsage :=
  match Js.getProp u "promptTokens", Js.getProp u "completionTokens",
        Js.getProp u "totalTokens" with
  | Some p, Some c, Some t =>
      match Js.toNumber p, Js.toNumber c, Js.toNumber t with
      | Some p', Some c', Some t' => Some (mkTokenUsage p' c' t')
      | _, _, _ => None
      end
  | _, _, _ => None
  end.

(** Outcome of a [try] block. *)
Inductive Try :=
| Completed (w : World)
| Threw                    (* before any hook was written *)
| Unmodelled.              (* [data.usage] holds a string, array or object field *)

(** The [try] block after the [await fetch] (lines 286-310, 342-365). *)
Definition afterFetch (o : FetchOutcome) (w : World) : Try :=
  match o with
  | NetworkError => Threw
  | Responded status json =>
      if negb (ok status) then Threw
      else
        match json with
        | None => Threw
        | Some data =>
            match Js.getProp data "response", Js.getProp data "usage" with
            | Some response, Some usage =>
                let assistantMessage := mkMessage assistant response (now w) in
                let w1 := exec (setMessagesFn (fun prev => prev ++ [assistantMessage])%list) w in
                let speakLater := setTimeout (SpeakCb response) 100 in
                if Js.truthy usage then
                  match readUsage usage with
                  | Some u =>
                      Completed (exec (setCostsFn (Cost.calculateCost u) ;; speakLater) w1)
                  | None => Unmodelled
                  end
                else Completed (exec speakLater w1)
            | _, _ => Threw
            end
        end
  end.

(** [catch] and [finally] (lines 311-316 and 366-371). *)
Definition settle (failure : string) (r : Try) (w : World) : option World :=
  match r with
  | Completed w' => Some (exec (setIsProcessing false) w')
  | Threw => Some (exec (setError failure ;; setIsProcessing false) w)
  | Unmodelled => None
  end.

(** The rest of [handleUserInput] once its [fetch] settles. *)
Definition handleUserInput_resume (o : FetchOutcome) (w : World) : option World :=
  settle "Failed to process your request. Please try again." (afterFetch o w) w.

(** The rest of [requestIELTSScore] once its [fetch] settles. *)
Definition requestIELTSScore_resume (o : FetchOutcome) (w : World) : option World :=
  settle "Failed to get IELTS score. Please try again." (afterFetch o w) w.

(* ===================================================================== *)
(** ** Speech capture (page.tsx, lines 118-256) *)
(* ===================================================================== *)

(** [recognition.onstart] *)
Definition onstart : M unit :=
  setIsListening true ;;
  setError "" ;;
  setFinalTranscriptRef "" ;;
  setHasSpokenContent false.

(** The loop of [onresult]: the interim and the final text of the results
    from [resultIndex] on, as [(interimTranscript, finalTranscript)]. *)
Fixpoint scanResults (rs : list SpeechRecognitionResult) (acc : string * string)
  : string * string :=
  match rs with
  | [] => acc
  | r :: rest =>
      scanResults rest
        (if isFinal r then (fst acc, snd acc ++ alt0 r)
         else (fst acc ++ alt0 r, snd acc))
  end.

(** The callback of the silence timer (lines 154-160). *)
Definition silenceCallback (env : State) : M unit :=
  w <- get ;;
  if JsString.truthy (JsString.trim (finalTranscriptRef w)) && hasSpokenContent env then
    handleUserInput env (JsString.trim (finalTranscriptRef w)) ;;
    setFinalTranscriptRef "" ;;
    setHasSpokenContent false
  else skip.

(** [interimTranscript] and [finalTranscript] after the loop. *)
Definition interimText (event : SpeechRecognitionEvent) : string :=
  fst (scanResults (skipn (resultIndex event) (results event)) ("", "")).
Definition finalText (event : SpeechRecognitionEvent) : string :=
  snd (scanResults (skipn (resultIndex event) (results event)) ("", "")).

(** [recognition.onresult] *)
Definition onresult (env : State) (event : SpeechRecognitionEvent) : M unit :=
  let interimTranscript := interimText event in
  let finalTranscript := finalText event in
  w <- get ;;
  setTranscript (finalTranscriptRef w ++ finalTranscript ++ interimTranscript) ;;
  (if JsString.truthy finalTranscript then
     setFinalTranscriptRef (finalTranscriptRef w ++ finalTranscript) ;;
     setHasSpokenContent true ;;
     match silenceTimer env with
     | Some t => clearTimeout t
     | None => skip
     end ;;
     newTimer <- setTimeout (SilenceCb env) 3000 ;;
     setSilenceTimer (Some newTimer)
   else skip) ;;
  match JsString.truthy interimTranscript, silenceTimer env with
  | true, Some t => clearTimeout t ;; setSilenceTimer None
  | _, _ => skip
  end.

(** [startListening] *)
Definition startListening (env : State) : M unit :=
  w <- get ;;
  if recognitionRef w && negb (isListening env) then
    setTranscript "" ;;
    setError "" ;;
    setFinalTranscriptRef "" ;;
    setHasSpokenContent false ;;
    threw <- recognition_start ;;
    if threw then setError "Could not start speech recognition. Please try again."
    else skip
  else skip.

(** [recognition.onerror], given [event.error]. *)
Definition onerror (env : State) (code : string) : M unit :=
  if String.eqb code "network" || String.eqb code "no-speech" then skip
  else if negb (String.eqb code "aborted") then
    setError ("Speech recognition error: " ++ code) ;;
    _ <- setTimeout (ErrorRestartCb env) 1000 ;;
    skip
  else skip.

(** The callback of the restart timer of [onerror] (lines 184-188). *)
Definition errorRestartCallback (env : State) : M unit :=
  if isListening env then startListening env else skip.

(** [recognition.onend] *)
Definition onend (env : State) : M unit :=
  if isListening env && negb (isProcessing env) then
    _ <- setTimeout (EndRestartCb env) 100 ;; skip
  else skip.

(** The callback of the restart timer of [onend] (lines 195-203); an
    exception of [start()] is only logged to the console. *)
Definition endRestartCallback (env : State) : M unit :=
  w <- get ;;
  if recognitionRef w && isListening env then
    _ <- recognition_start ;; skip
  else skip.

(** [stopListening] *)
Definition stopListening (env : State) : M unit :=
  setIsListening false ;;
  w0 <- get ;;
  (if recognitionRef w0 then recognition_stop else skip) ;;
  match silenceTimer env with
  | Some t => clearTimeout t ;; setSilenceTimer None
  | None => skip
  end ;;
  w <- get ;;
  (if JsString.truthy (JsString.trim (finalTranscriptRef w)) then
     handleUserInput env (JsString.trim (finalTranscriptRef w)) ;;
     setFinalTranscriptRef ""
   else skip) ;;
  setHasSpokenContent false.

(** What runs when a timer fires. *)
Definition runCallback (cb : Callback) : M unit :=
  match cb with
  | SilenceCb env => silenceCallback env
  | ErrorRestartCb env => errorRestartCallback env
  | EndRestartCb env => endRestartCallback env
  | SpeakCb text => emit (SpeakText text)
  end.

(* ===================================================================== *)
(** ** The effect and the event loop (page.tsx, lines 100-222) *)
(* ===================================================================== *)

Definition eqb_timer (a b : option TimerId) : bool :=
  match a, b with
  | Some x, Some y => Pos.eqb x y
  | None, None => true
  | _, _ => false
  end.

(** The dependency array
    [[isListening, isProcessing, silenceTimer, hasSpokenContent]]. *)
Definition depsChanged (prev next : State) : bool :=
  negb (Bool.eqb (isListening prev) (isListening next)
        && Bool.eqb (isProcessing prev) (isProcessing next)
        && eqb_timer (silenceTimer prev) (silenceTimer next)
        && Bool.eqb (hasSpokenContent prev) (hasSpokenContent next)).

(** The cleanup returned by the effect (lines 215-221), with the render it
    captured. *)
Definition effectCleanup (env : State) : M unit :=
  match silenceTimer env with
  | Some t => clearTimeout t
  | None => skip
  end ;;
  w <- get ;;
  (if recognitionRef w then recognition_stop else skip) ;;
  (if synthRef w then emit SynthCancel else skip).

(** The body of the effect for the render [render]: where the browser has a
    recognition constructor, [recognitionRef.current] becomes a new, idle
    recognition object whose handlers capture [render] (line 106).  Nothing
    starts that object here; the object that was started before keeps the
    handlers it was given ([active]). *)
Definition effectBody (render : State) : M unit :=
  w <- get ;;
  modify (with_installed render) ;;
  if recognitionRef w then modify (with_recognizing false)
  else setError "Sorry, your browser doesn't support Speech Recognition.".

(** Commit of a render: the effect runs again when a dependency changed. *)
Definition rerender : M unit :=
  w <- get ;;
  if depsChanged (installed w) (st w) then
    effectCleanup (installed w) ;; effectBody (st w)
  else skip.

Definition initialState : State :=
  mkState false false false [] "" "" None false Cost.zero.

(** The component after its first render and effect, in a browser with or
    without speech recognition and synthesis. *)
Definition mount (hasRecognition hasSynthesis : bool) : World :=
  exec (effectBody initialState)
    (mkWorld initialState initialState "" hasRecognition false hasSynthesis
       [] 1%positive 0 [] [] initialState).

(** What the event loop runs.  The recognition engine, the timers' clock,
    the network and the user are outside the component: their events are the
    inputs.  Engine events are events of the recognition object that
    [start()] was last called on and reach the handlers that object was
    given, whatever objects the effect has created since; button handlers
    belong to the latest render.  Which events an engine sends, and when, is
    not restricted: a result may be delivered after [stop()], and before the
    first [start()] the events go to the first object. *)
Inductive Event :=
| EvElapse (ms : nat)
| EvStart
| EvResult (event : SpeechRecognitionEvent)
| EvError (code : string)
| EvEnd
| EvTimer (id : TimerId)
| EvSettle (n : nat) (o : FetchOutcome)   (* the n-th pending fetch settles *)
| EvClickMic
| EvClickClear.

Fixpoint removeNth {A : Type} (n : nat) (l : list A) : list A :=
  match n, l with
  | _, [] => []
  | O, _ :: r => r
  | S n', x :: r => x :: removeNth n' r
  end.

(** One task of the event loop; an event that cannot occur (a timer that is
    not pending or not due, a disabled button) leaves the world as it is.
    [None] only where [settle] is [None]. *)
Definition dispatch (e : Event) (w : World) : option World :=
  match e with
  | EvElapse ms => Some (with_now (now w + ms) w)
  | EvStart =>
      Some (if recognitionRef w then exec onstart w else w)
  | EvResult event =>
      Some (if recognitionRef w then exec (onresult (active w) event) w else w)
  | EvError code =>
      Some (if recognitionRef w then exec (onerror (active w) code) w else w)
  | EvEnd =>
      Some (if recognitionRef w then exec (onend (active w)) w else w)
  | EvTimer id =>
      match find (fun t => Pos.eqb (tid t) id) (timers w) with
      | Some t =>
          if (due t <=? now w)%nat then
            Some (exec (clearTimeout id ;; runCallback (callback t)) w)
          else Some w
      | None => Some w
      end
  | EvSettle n o =>
      match nth_error (inflight w) n with
      | Some (InHandleUserInput, _) =>
          handleUserInput_resume o (with_inflight (removeNth n (inflight w)) w)
      | Some (InRequestIELTSScore, _) =>
          requestIELTSScore_resume o (with_inflight (removeNth n (inflight w)) w)
      | None => Some w
      end
  | EvClickMic =>
      Some (if isProcessing (st w) then w
            else if isListening (st w) then exec (stopListening (st w)) w
            else exec (startListening (st w)) w)
  | EvClickClear =>
      Some (match messages (st w) with
            | [] => w
            | _ :: _ => exec (setMessages [] ;; setCostsFn (fun _ => Cost.resetCosts)) w
            end)
  end.

(** A task followed by the commit of the render it caused. *)
Definition step (e : Event) (w : World) : option World :=
  match dispatch e w with
  | Some w' => Some (exec rerender w')
  | None => None
  end.

Fixpoint run (es : list Event) (w : World) : option World :=
  match es with
  | [] => Some w
  | e :: rest =>
      match step e w with
      | Some w' => run rest w'
      | None => None
      end
  end.

(** *** Observations *)

(** The backend calls issued so far, oldest first. *)
Definition fetches (w : World) : list ChatRequest :=
  flat_map (fun e => match e with Fetch r => [r] | _ => [] end) (log w).

Definition isSilence (t : Timer) : bool :=
  match callback t with SilenceCb _ => true | _ => false end.

(** The pending silence timers. *)
Definition silenceTimers (w : World) : list Timer := filter isSilence (timers w).

Definition pending (id : TimerId) (w : World) : bool :=
  existsb (fun t => Pos.eqb (tid t) id) (timers w).

(* ===================================================================== *)
(** ** The chat route (route.ts) *)
(* ===================================================================== *)

Module Route.

Inductive ChatRole := system | user | assistant.

Record ChatMessage := mkChatMessage {
  role : ChatRole;
  content : JsValue
}.

(** What [generateText] resolves to, as far as the route reads it. *)
Record GenerateTextResult := mkGenerated {
  text : string;
  usage : TokenUsage
}.

Record NextResponse := mkResponse {
  status : nat;
  body : JsValue
}.

Definition SYSTEM_PROMPT : string :=
"You are a professional IELTS speaking tutor and voice assistant. Your primary role is to help users improve their English speaking skills for the IELTS exam.

Core Responsibilities:
- Act as a conversational partner to help improve English fluency
- Provide IELTS speaking scores when requested (Band 1-9 scale)
- Give constructive feedback on grammar, vocabulary, fluency, and pronunciation
- Be patient with pauses, hesitations, and filler words (um, ah, etc.) as these are normal in language learning
- Encourage natural conversation flow
- Reference previous conversation context naturally

IELTS Speaking Assessment Criteria:
1. Fluency and Coherence (0-9): Flow of speech, logical sequencing, appropriate linking
2. Lexical Resource (0-9): Vocabulary range, accuracy, and appropriateness
3. Grammatical Range and Accuracy (0-9): Sentence structures, grammar accuracy
4. Pronunciation (0-9): Individual sounds, word stress, sentence stress, intonation

When providing IELTS scores:
- Give specific band scores for each criterion
- Provide an overall band score
- Give detailed feedback with examples from their speech
- Suggest specific areas for improvement
- Be encouraging but honest

Response Style:
- Be conversational and supportive
- Keep responses concise (1-3 sentences) unless detailed feedback is requested
- Use encouraging language
- Ask follow-up questions to keep conversation flowing
- Acknowledge improvements and effort".

Definition IELTS_PROMPT : string :=
"Please provide my IELTS speaking score based on our recent conversation. Analyze my: 1) Fluency and Coherence, 2) Lexical Resource (vocabulary), 3) Grammatical Range and Accuracy, 4) Pronunciation (based on what you can infer from my word choices and sentence structures). Give me specific band scores (1-9) for each criterion, an overall band score, and detailed feedback with examples from our conversation. Also suggest specific areas for improvement.".

(** The [forEach] over [conversationHistory] (lines 56-63); [None] is the
    [TypeError] of reading [msg.role] on [null] or [undefined]. *)
Fixpoint pushHistory (history : list JsValue) : option (list ChatMessage) :=
  match history with
  | [] => Some []
  | msg :: rest =>
      match Js.getProp msg "role", Js.getProp msg "content", pushHistory rest with
      | Some r, Some c, Some tail =>
          Some (mkChatMessage (if Js.strictEqString r "user" then user else assistant) c
                  :: tail)
      | _, _, _ => None
      end
  end.

Definition historyMessages (conversationHistory : JsValue)
  : option (list ChatMessage) :=
  match conversationHistory with
  | JArray history => pushHistory history
  | _ => Some []
  end.

Definition errorResponse (status : nat) (msg : string) : NextResponse :=
  mkResponse status (JObject [("error", JString msg)]).

Definition successBody (r : GenerateTextResult) : JsValue :=
  JObject
    [("response", JString (text r));
     ("usage",
      JObject [("promptTokens", JNumber (promptTokens (usage r)));
               ("completionTokens", JNumber (completionTokens (usage r)));
               ("totalTokens", JNumber (totalTokens_ (usage r)))])].

Section POST.

(** [generateText] with the model argument fixed; [None]: it rejects. *)
Variable generateText : list ChatMessage -> option GenerateTextResult.

(** [POST(request)], given what [request.json()] resolves to ([None]: it
    rejects).  Every exception ends in the 500 response of the [catch]. *)
Definition POST (requestJson : option JsValue) : NextResponse :=
  let failed := errorResponse 500 "Failed to process your request" in
  match requestJson with
  | None => failed
  | Some parsed =>
      match Js.getProp parsed "message", Js.getProp parsed "conversationHistory",
            Js.getProp parsed "requestType" with
      | Some message, Some conversationHistory, Some requestType =>
          if negb (Js.truthy message)
             && negb (Js.strictEqString requestType "ielts_score")
          then errorResponse 400 "Message is required"
          else
            match historyMessages conversationHistory with
            | None => failed
            | Some history =>
                let messages :=
                  ([mkChatMessage system (JString SYSTEM_PROMPT)] ++ history ++
                   [if Js.strictEqString requestType "ielts_score"
                    then mkChatMessage user (JString IELTS_PROMPT)
                    else mkChatMessage user message])%list in
                match generateText messages with
                | None => failed
                | Some r => mkResponse 200 (successBody r)
                end
            end
      | _, _, _ => failed
      end
  end.

End POST.

(** What [JSON.parse(JSON.stringify(v))] gives for a value inside a body:
    [NaN] and the infinities become [null], [-0] becomes [0], [undefined]
    becomes [null] in an array and drops its key in an object. *)
Fixpoint wire (v : JsValue) : JsValue :=
  match v with
  | JNumber x =>
      if PrimFloat.is_finite x
      then (if PrimFloat.is_zero x then JNumber 0%float else JNumber x)
      else JNull
  | JArray elems =>
      JArray (map (fun e => match e with JUndefined => JNull | _ => wire e end) elems)
  | JObject fields =>
      JObject
        ((fix wireFields (fs : list (string * JsValue)) : list (string * JsValue) :=
            match fs with
            | [] => []
            | (k, e) :: rest =>
                match e with
                | JUndefined => wireFields rest
                | _ => (k, wire e) :: wireFields rest
                end
            end) fields)
  | _ => v
  end.

(** A [TokenUsage] as [calculateCost] reads it after the wire. *)
Definition received (x : float) : float :=
  if PrimFloat.is_finite x
  then (if PrimFloat.is_zero x then 0%float else x)
  else 0%float.

Definition receivedUsage (u : TokenUsage) : TokenUsage :=
  mkTokenUsage (received (promptTokens u)) (received (completionTokens u))
    (received (totalTokens_ u)).

End Route.

(* ===================================================================== *)
(** ** Vocabulary of the statements *)
(* ===================================================================== *)

(** A callback that carries final text and no interim text. *)
Definition finalOnly (event : SpeechRecognitionEvent) : bool :=
  JsString.truthy (finalText event) && negb (JsString.truthy (interimText event)).

(** Result callbacks, each with the time that passed before it. *)
Definition arrivals (evs : list (nat * SpeechRecognitionEvent)) : list Event :=
  flat_map (fun a => [EvElapse (fst a); EvResult (snd a)]) evs.


(** [clearTimeout] of a handle that may be null, on a list of timers. *)
Definition cleared (o : option TimerId) (l : list Timer) : list Timer :=
  match o with
  | Some id => filter (fun t => negb (Pos.eqb (tid t) id)) l
  | None => l
  end.

(** Every pending timer has a handle already handed out, and a pending
    silence timer is the one the handle [o] names. *)
Definition timersTracked (o : option TimerId) (next : TimerId) (l : list Timer) : bool :=
  forallb (fun t => Pos.ltb (tid t) next
                    && implb (isSilence t) (eqb_timer o (Some (tid t)))) l.

(** A world between two tasks in which the component has a recognition
    object, the last render is committed, and the only silence timer that
    may be pending is the one the state records. *)
Definition settled (w : World) : bool :=
  recognitionRef w
  && negb (depsChanged (installed w) (st w))
  && timersTracked (silenceTimer (installed w)) (nextTimer w) (timers w)
  && match silenceTimer (installed w) with
     | Some id => Pos.ltb id (nextTimer w)
     | None => true
     end.

(** The silence timer that a callback handled in world [w] by handlers that
    captured [env] starts. *)
Definition started (env : State) (w : World) : Timer :=
  mkTimer (nextTimer w) 3000 (now w + 3000) (SilenceCb env).

(** The outcomes on which the [try] block throws: the fetch rejects, the
    status is not 2xx, the body is not JSON, or the body is JSON [null]. *)
Definition isFailure (o : FetchOutcome) : bool :=
  match o with
  | NetworkError => true
  | Responded status json =>
      negb (ok status)
      || match json with
         | None | Some JNull | Some JUndefined => true
         | Some _ => false
         end
  end.

(** *** Worlds used as examples *)

Definition afterEvents (es : list Event) : World :=
  match run es (mount true true) with
  | Some w => w
  | None => mount true true
  end.

(** Listening, nothing said yet. *)
Definition listeningIdle : World := afterEvents [EvClickMic; EvStart].

(** Listening, one final segment in the buffer, its silence timer pending. *)
Definition listeningWithBuffer : World :=
  afterEvents [EvClickMic; EvStart; EvResult (mkEvent [mkResult true "good morning "] 0)].

(** A request in flight: two final segments arrived and, three seconds
    later, the user clicked the microphone button to stop. *)
Definition busy : World :=
  afterEvents [EvClickMic; EvStart;
               EvResult (mkEvent [mkResult true "how are"] 0);
               EvResult (mkEvent [mkResult true "how are"; mkResult true " you"] 1);
               EvElapse 3000; EvClickMic].

(** The microphone was stopped, a final result of the stopped session came
    in late, and the microphone was started again.  The object that the last
    click started was created by the render that followed the late result:
    its handlers captured [hasSpokenContent = true] and the handle of the
    late result's silence timer. *)
Definition resumed : World :=
  afterEvents [EvClickMic; EvStart; EvClickMic;
               EvResult (mkEvent [mkResult true "so"] 0);
               EvClickMic; EvStart].


Definition greeting : list (nat * SpeechRecognitionEvent) :=
  [(0, mkEvent [mkResult true "Hello, "] 0);
   (1200, mkEvent [mkResult true "Hello, "; mkResult true "how are you "] 1)].

(** A model that answers every prompt in the same way, and a request. *)
Definition cannedText : list Route.ChatMessage -> option Route.GenerateTextResult :=
  fun _ => Some (Route.mkGenerated "I'm doing well, thanks!" (mkTokenUsage 50 20 70)).

Definition helloRequest : option JsValue :=
  Some (JObject [("message", JString "Hello, how are you");
                 ("conversationHistory", JArray []);
                 ("requestType", JString "normal")]).

(** The world in which the turn ["hello"] has just been submitted. *)
Definition helloSubmitted : World :=
  exec (handleUserInput initialState "hello") (mount true true).

(* ===================================================================== *)
(** ** The request on the wire *)
(* ===================================================================== *)

Module Request.

Definition roleName (r : Role) : string :=
  match r with
  | user => "user"
  | assistant => "assistant"
  end.

Section Body.

(** [Date.prototype.toJSON], which [JSON.stringify] calls on a timestamp. *)
Variable toISOString : nat -> string.

Definition messageJson (m : Message) : JsValue :=
  JObject [("role", JString (roleName (role m)));
           ("content", content m);
           ("timestamp", JString (toISOString (timestamp m)))].

(** The object given to [JSON.stringify] (page.tsx, lines 279-283 and
    335-339). *)
Definition bodyJson (r : ChatRequest) : JsValue :=
  JObject [("message", JString (message r));
           ("conversationHistory", JArray (map messageJson (conversationHistory r)));
           ("requestType", JString (requestType r))].

(** What [request.json()] resolves to in the route. *)
Definition parsed (r : ChatRequest) : option JsValue :=
  Some (Route.wire (bodyJson r)).

End Body.

(** A message of the log as the route pushes it. *)
Definition pushed (m : Message) : Route.ChatMessage :=
  Route.mkChatMessage
    (match role m with user => Route.user | assistant => Route.assistant end)
    (Route.wire (content m)).

End Request.

(* ===================================================================== *)
(** ** More string methods *)
(* ===================================================================== *)

Module JsText.

(** [s.startsWith(prefix)] *)
Fixpoint startsWith (s prefix : string) : bool :=
  match prefix, s with
  | EmptyString, _ => true
  | String a p, String b s' => Ascii.eqb a b && startsWith s' p
  | String _ _, EmptyString => false
  end.

(** [s.includes(sub)] *)
Fixpoint includes (s sub : string) : bool :=
  startsWith s sub
  || match s with
     | EmptyString => false
     | String _ s' => includes s' sub
     end.

(** Lower case of a code unit below 256: A-Z and the capital letters of
    Latin-1 (192-222 without the multiplication sign 215). *)
Definition lowerChar (c : ascii) : ascii :=
  let n := nat_of_ascii c in
  if ((65 <=? n)%nat && (n <=? 90)%nat)
     || ((192 <=? n)%nat && (n <=? 222)%nat && negb (n =? 215)%nat)
  then ascii_of_nat (n + 32)
  else c.

(** [s.toLowerCase()] *)
Fixpoint toLowerCase (s : string) : string :=
  match s with
  | EmptyString => EmptyString
  | String c s' => String (lowerChar c) (toLowerCase s')
  end.

End JsText.

(* ===================================================================== *)
(** ** Utterance playback (page.tsx, lines 374-497) *)
(* ===================================================================== *)

Module Speech.

Record Voice := mkVoice {
  name : string;
  lang : string
}.

Record Utterance := mkUtterance {
  text : string;
  rate : float;
  pitch : float;
  volume : float;
  voice : option Voice        (* [None]: the engine's default voice *)
}.

(** Calls made to [speechSynthesis]; [Speak] carries the utterance object
    (its index in the store) and its fields at the time of the call. *)
Inductive SynthCall :=
| Cancel
| Speak (id : nat) (u : Utterance).

Record Synth := mkSynth {
  available : bool;               (* [synthRef.current] is defined *)
  voices : list Voice;            (* [getVoices()] *)
  utterances : list Utterance;    (* the utterance objects created so far *)
  calls : list SynthCall;         (* oldest first *)
  listeners : list nat;           (* utterances with a [voiceschanged] listener *)
  fallbacks : list nat            (* utterances with a pending 1000 ms timer *)
}.

(** The predicate given to [availableVoices.find] (lines 407-421). *)
Definition preferred (v : Voice) : bool :=
  JsText.includes (name v) "Samantha"
  || JsText.includes (name v) "Alex"
  || JsText.includes (name v) "Karen"
  || JsText.includes (name v) "Daniel"
  || JsText.includes (name v) "Fiona"
  || (JsText.includes (lang v) "en-US"
      && JsText.includes (JsText.toLowerCase (name v)) "female")
  || (JsText.includes (lang v) "en-GB"
      && JsText.includes (JsText.toLowerCase (name v)) "female")
  || JsText.includes (lang v) "en-US"
  || JsText.includes (lang v) "en-GB"
  || JsText.startsWith (lang v) "en".

(** The voice [setVoiceAndSpeak] assigns; [None]: it assigns none. *)
Definition chooseVoice (availableVoices : list Voice) : option Voice :=
  match availableVoices with
  | [] => None
  | first :: _ =>
      match find preferred availableVoices with
      | Some preferredVoice => Some preferredVoice
      | None => Some first
      end
  end.

Definition withVoice (v : option Voice) (u : Utterance) : Utterance :=
  match v with
  | Some _ => mkUtterance (text u) (rate u) (pitch u) (volume u) v
  | None => u
  end.

Fixpoint updateNth {A : Type} (n : nat) (f : A -> A) (l : list A) : list A :=
  match n, l with
  | _, [] => []
  | O, x :: r => f x :: r
  | S n', x :: r => x :: updateNth n' f r
  end.

(** [setVoiceAndSpeak()] of the utterance [id]: the voice is written into
    the utterance object, which is then spoken. *)
Definition setVoiceAndSpeak (id : nat) (s : Synth) : Synth :=
  if negb (available s) then s
  else
    let store := updateNth id (withVoice (chooseVoice (voices s))) (utterances s) in
    match nth_error store id with
    | Some u =>
        mkSynth (available s) (voices s) store (calls s ++ [Speak id u])%list
          (listeners s) (fallbacks s)
    | None => s
    end.

(** [speakText(text)]; [None] is the [TypeError] of calling [trim] on a
    truthy value that is not a string. *)
Definition speakText (text : JsValue) (s : Synth) : option Synth :=
  if negb (Js.truthy text) then Some s
  else
    match text with
    | JString t =>
        if negb (JsString.truthy (JsString.trim t)) then Some s
        else if negb (available s) then Some s
        else
          let id := length (utterances s) in
          let utterance := mkUtterance t 0x1.b333333333333p-1 1 1 None in
          let s1 := mkSynth (available s) (voices s)
                      (utterances s ++ [utterance])%list
                      (calls s ++ [Cancel])%list (listeners s) (fallbacks s) in
          match voices s1 with
          | _ :: _ => Some (setVoiceAndSpeak id s1)
          | [] =>
              Some (mkSynth (available s1) (voices s1) (utterances s1) (calls s1)
                      (listeners s1 ++ [id])%list (fallbacks s1 ++ [id])%list)
          end
    | _ => None
    end.

(** [stopSpeaking()], as far as the engine sees it. *)
Definition stopSpeaking (s : Synth) : Synth :=
  if available s then
    mkSynth (available s) (voices s) (utterances s) (calls s ++ [Cancel])%list
      (listeners s) (fallbacks s)
  else s.

Inductive SynthEvent :=
| VoicesChanged (catalog : list Voice)   (* the catalog changes, the event is sent *)
| FallbackFires.                         (* the oldest pending 1000 ms timer fires *)

(** The listeners of [voiceschanged] run in the order of registration; each
    speaks and removes itself. *)
Definition handleVoicesChanged (s : Synth) : Synth :=
  let s' := fold_left (fun acc id => setVoiceAndSpeak id acc) (listeners s) s in
  mkSynth (available s') (voices s') (utterances s') (calls s')
    (if available s' then [] else listeners s') (fallbacks s').

Definition handle (e : SynthEvent) (s : Synth) : Synth :=
  match e with
  | VoicesChanged catalog =>
      handleVoicesChanged
        (mkSynth (available s) catalog (utterances s) (calls s)
           (listeners s) (fallbacks s))
  | FallbackFires =>
      match fallbacks s with
      | [] => s
      | id :: rest =>
          let s1 := mkSynth (available s) (voices s) (utterances s) (calls s)
                      (listeners s) rest in
          if available s1 then setVoiceAndSpeak id s1 else s1
      end
  end.

Definition handleAll (es : list SynthEvent) (s : Synth) : Synth :=
  fold_left (fun acc e => handle e acc) es s.

(** The [speak] calls made for the utterance [id]. *)
Definition spoken (id : nat) (s : Synth) : list Utterance :=
  flat_map (fun c => match c with
                     | Speak id' u => if Nat.eqb id' id then [u] else []
                     | Cancel => []
                     end) (calls s).

Definition isVoicesChanged (e : SynthEvent) : bool :=
  match e with VoicesChanged _ => true | FallbackFires => false end.

End Speech.


(** *** More worlds used as examples *)

(** A request in flight while results still arrive: after the stop that
    submitted the turn two more final segments came in, and the silence timer
    of the second one is pending. *)
Definition busyWithSpeech : World :=
  afterEvents [EvClickMic; EvStart;
               EvResult (mkEvent [mkResult true "how are"] 0);
               EvResult (mkEvent [mkResult true "how are"; mkResult true " you"] 1);
               EvElapse 3000; EvClickMic;
               EvResult (mkEvent [mkResult true "and"] 0);
               EvResult (mkEvent [mkResult true "and"; mkResult true " the weather"] 1)].

(** A finished turn, then one more final segment. *)
Definition secondTurnBegun : World :=
  afterEvents [EvClickMic; EvStart;
               EvResult (mkEvent [mkResult true "how are"] 0);
               EvResult (mkEvent [mkResult true "how are"; mkResult true " you"] 1);
               EvElapse 3000; EvClickMic;
               EvSettle 0 (Responded 200
                             (Some (JObject [("response", JString "Fine, thanks.")])));
               EvResult (mkEvent [mkResult true "tell me"] 0)].


(** *** Vocabulary of the further properties *)

(** What React can render as the child of an element (line 731): a string
    or a number as text, a boolean, [null] or [undefined] as nothing, an
    array element by element.  An object throws. *)
Fixpoint renderable (v : JsValue) : bool :=
  match v with
  | JObject _ => false
  | JArray elems => forallb renderable elems
  | _ => true
  end.

(** The usage objects whose three fields [calculateCost] adds as numbers. *)
Definition numericUsage (usage : JsValue) : bool :=
  match readUsage usage with Some _ => true | None => false end.

(** The outcomes after which the continuation and the render that follows
    are defined: the reply of a success body is one React can render, and
    its usage, where it is read, adds as numbers. *)
Definition plainOutcome (o : FetchOutcome) : bool :=
  match o with
  | Responded status (Some data) =>
      negb (ok status)
      || match Js.getProp data "response", Js.getProp data "usage" with
         | Some response, Some usage =>
             renderable response && (negb (Js.truthy usage) || numericUsage usage)
         | _, _ => true
         end
  | _ => true
  end.

(** The two ways a settled call leaves the world: the [catch] path and the
    path through the whole [try] block. *)
Definition failedWorld (failure : string) (w : World) : World :=
  mkWorld (set_isProcessing false (set_error failure (st w)))
    (installed w) (finalTranscriptRef w) (recognitionRef w) (recognizing w)
    (synthRef w) (timers w) (nextTimer w) (now w) (inflight w) (log w) (active w).

Definition answeredWorld (response : JsValue) (c : CostCalculation) (w : World) : World :=
  mkWorld
    (set_isProcessing false
       (set_costs c
          (set_messages (messages (st w) ++ [mkMessage assistant response (now w)])%list
             (st w))))
    (installed w) (finalTranscriptRef w) (recognitionRef w) (recognizing w)
    (synthRef w)
    (timers w ++ [mkTimer (nextTimer w) 100 (now w + 100) (SpeakCb response)])%list
    (Pos.succ (nextTimer w)) (now w) (inflight w) (log w) (active w).

(** The answer of the [catch] block of the route. *)
Definition serverError : Route.NextResponse :=
  Route.errorResponse 500 "Failed to process your request".

(** A catalog in which a plain English voice comes before a named one. *)
Definition plainBeforeNamed : list Speech.Voice :=
  [Speech.mkVoice "Zarvox" "en-scotland"; Speech.mkVoice "Samantha" "en-US"].

(** An engine that has done nothing yet, with the given catalog. *)
Definition synthWith (catalog : list Speech.Voice) : Speech.Synth :=
  Speech.mkSynth true catalog [] [] [] [].

Definition count (b : bool) : nat := if b then 1 else 0.

(** The state of an utterance [id] that waits for the catalog: [heard] tells
    whether its [voiceschanged] listener has run, [fired] whether its 1000 ms
    timer has. *)
Definition waiting (id : nat) (heard fired : bool) (s : Speech.Synth) : Prop :=
  Speech.available s = true
  /\ length (Speech.utterances s) = S id
  /\ Speech.listeners s = (if heard then [] else [id])
  /\ Speech.fallbacks s = (if fired then [] else [id])
  /\ length (Speech.spoken id s) = count heard + count fired.

(** The engine after [speakText] of a greeting without a catalog. *)
Definition waitingForCatalog : Speech.Synth :=
  Speech.mkSynth true []
    [Speech.mkUtterance "Good morning." 0x1.b333333333333p-1 1 1 None]
    [Speech.Cancel] [0] [0].

(** A timer set by [onend] to start recognition again. *)
Definition isRestart (t : Timer) : bool :=
  match callback t with EndRestartCb _ => true | _ => false end.

(** Between two tasks of a component with speech recognition: the handlers
    that the engine's events reach captured [isListening = false], the latest
    effect run captured the current dependencies, no restart timer of
    [onend] is pending, and while the state says listening the current
    recognition object is not started. *)
Definition stale (w : World) : bool :=
  recognitionRef w
  && negb (isListening (active w))
  && negb (depsChanged (installed w) (st w))
  && forallb (fun t => negb (isRestart t)) (timers w)
  && implb (isListening (st w)) (negb (recognizing w)).

(** Every pending timer of the second list was pending in the first one or
    is no restart timer. *)
Definition noNewRestart (l l' : list Timer) : Prop :=
  forall t, In t l' -> In t l \/ negb (isRestart t) = true.

(** What a task leaves to the commit. *)
Definition beforeCommit (w w1 : World) : Prop :=
  recognitionRef w1 = true
  /\ isListening (active w1) = false
  /\ noNewRestart (timers w) (timers w1)
  /\ (depsChanged (installed w1) (st w1) = false ->
      isListening (st w1) = true -> recognizing w1 = false).

(* ===================================================================== *)
(** ** Lemmas: strings, logs and timers *)
(* ===================================================================== *)

#[local] Arguments JsString.trim : simpl never.
#[local] Arguments JsString.truthy : simpl never.

(** Unfolds the monad of a handler applied to a world. *)
Ltac handler :=
  unfold exec; cbv beta iota delta [bind get ret skip modify]; cbn.

(** Case analysis on the tests a handler makes on fields of a world or of
    a captured render. *)
Ltac is_field c :=
  lazymatch c with
  | ?f ?x => first [is_var x | lazymatch x with ?g ?y => is_var y end]
  end.

Ltac cases :=
  repeat (cbn;
          match goal with
          | H : ?c = _ |- context [if ?c then _ else _] => rewrite H
          | H : ?c = _ |- context [match ?c with Some _ => _ | None => _ end] => rewrite H
          | |- context [if ?c then _ else _] => is_field c; destruct c eqn:?
          | |- context [match ?c with Some _ => _ | None => _ end] =>
              is_field c; destruct c eqn:?
          end); cbn.

Section StringFacts.

Import JsString.

Lemma trimStart_noLead s : noLead (trimStart s).
Proof.
  induction s as [|c s IH]; simpl; [exact I|].
  destruct (isWhiteSpace c) eqn:E; [exact IH | exact E].
Qed.

Lemma trimStart_id s : noLead s -> trimStart s = s.
Proof. destruct s as [|c s]; simpl; [reflexivity|]. intros ->. reflexivity. Qed.

Lemma trimEnd_noLead s : noLead s -> noLead (trimEnd s).
Proof.
  destruct s as [|c s]; simpl; [trivial|]. intros Hc.
  destruct (trimEnd s); [rewrite Hc|]; simpl; exact Hc.
Qed.

Lemma trimEnd_idem s : trimEnd (trimEnd s) = trimEnd s.
Proof.
  induction s as [|c s IH]; simpl; [reflexivity|].
  destruct (trimEnd s) as [|d r] eqn:E.
  - destruct (isWhiteSpace c) eqn:Ec; simpl; [reflexivity|].
    rewrite Ec. reflexivity.
  - change (trimEnd (String c (String d r))) with
      (match trimEnd (String d r) with
       | EmptyString => if isWhiteSpace c then EmptyString else String c EmptyString
       | r' => String c r'
       end).
    rewrite IH. reflexivity.
Qed.

(** [s.trim().trim()] is [s.trim()]. *)
Lemma trim_idem s : trim (trim s) = trim s.
Proof.
  unfold trim.
  rewrite (trimStart_id _ (trimEnd_noLead _ (trimStart_noLead s))).
  apply trimEnd_idem.
Qed.

Lemma truthy_true_iff s : truthy s = true <-> s <> "".
Proof. destruct s; unfold truthy; split; congruence. Qed.

Lemma truthy_false_iff s : truthy s = false <-> s = "".
Proof. destruct s; unfold truthy; split; congruence. Qed.



End StringFacts.

Lemma removelast_snoc {A : Type} (l : list A) (x : A) : removelast (l ++ [x])%list = l.
Proof. apply removelast_last. Qed.

Lemma flat_fetch_snoc l r :
  flat_map (fun e => match e with Fetch r => [r] | _ => [] end) (l ++ [Fetch r])%list
  = (flat_map (fun e => match e with Fetch r => [r] | _ => [] end) l ++ [r])%list.
Proof. rewrite flat_map_app. reflexivity. Qed.

Lemma existsb_filter_out (id : TimerId) (l : list Timer) :
  existsb (fun t => Pos.eqb (tid t) id)
    (filter (fun t => negb (Pos.eqb (tid t) id)) l) = false.
Proof.
  induction l as [|t l IH]; simpl; [reflexivity|].
  destruct (Pos.eqb (tid t) id) eqn:E; simpl; [exact IH|].
  rewrite E. exact IH.
Qed.

Lemma filter_filter_comm {A : Type} (f g : A -> bool) (l : list A) :
  filter f (filter g l) = filter g (filter f l).
Proof.
  induction l as [|x l IH]; simpl; [reflexivity|].
  destruct (f x) eqn:Ef, (g x) eqn:Eg; simpl; rewrite ?Ef, ?Eg, IH; reflexivity.
Qed.

Lemma filter_idem {A : Type} (f : A -> bool) (l : list A) :
  filter f (filter f l) = filter f l.
Proof.
  induction l as [|x l IH]; simpl; [reflexivity|].
  destruct (f x) eqn:Ef; simpl; rewrite ?Ef, IH; reflexivity.
Qed.

(* ===================================================================== *)
(** ** Theorems: cost accumulator *)
(* ===================================================================== *)

(** C9 (counterexample).  Recording {100,50,150} then {200,100,300} does not
    yield the same five totals as recording {300,150,450} once: the BDT
    totals are 0.41250000000000003 and 0.41249999999999998 (0.4125). *)
Lemma C9_bdt_totals_differ : Cost.twoCalls <> Cost.oneCall.
Proof.
  intro H.
  assert (E : PrimFloat.eqb (totalCostBDT Cost.twoCalls)
                            (totalCostBDT Cost.oneCall) = true)
    by (rewrite H; vm_compute; reflexivity).
  vm_compute in E. discriminate E.
Qed.

(** C9 (amended).  Every record adds its three counts to the three token
    totals, adds (promptTokens/1000)*0.005 + (completionTokens/1000)*0.015
    to the USD total and that amount times 110 to the BDT total.  Recording
    {100,50,150} then {200,100,300} yields the same three token totals and
    the same USD total as recording {300,150,450} once; the two BDT totals
    differ by one rounding step, 2^-54. *)
Theorem C9_cost_accumulation :
  (forall usage prev,
      Cost.calculateCost usage prev =
        {| totalPromptTokens := totalPromptTokens prev + promptTokens usage;
           totalCompletionTokens := totalCompletionTokens prev + completionTokens usage;
           totalTokens := totalTokens prev + totalTokens_ usage;
           totalCostUSD := totalCostUSD prev + Cost.usdOf usage;
           totalCostBDT := totalCostBDT prev + Cost.usdOf usage * 110 |}%float)
  /\ totalPromptTokens Cost.twoCalls = totalPromptTokens Cost.oneCall
  /\ totalCompletionTokens Cost.twoCalls = totalCompletionTokens Cost.oneCall
  /\ totalTokens Cost.twoCalls = totalTokens Cost.oneCall
  /\ totalCostUSD Cost.twoCalls = totalCostUSD Cost.oneCall
  /\ (totalCostBDT Cost.twoCalls - totalCostBDT Cost.oneCall)%float
     = 0x1p-54%float.
Proof.
  split; [intros usage prev; reflexivity|].
  repeat split; vm_compute; reflexivity.
Qed.

(* ===================================================================== *)
(** ** Turn submission *)
(* ===================================================================== *)

(** The world [handleUserInput] leaves when it does not return early. *)
Lemma handleUserInput_submits env input w :
  JsString.trim input <> "" ->
  exec (handleUserInput env input) w =
    with_inflight
      (inflight w ++ [(InHandleUserInput, mkChatRequest input (messages env) "normal")])
      (with_log (log w ++ [Fetch (mkChatRequest input (messages env) "normal")])
         (with_st (set_transcript "")
            (with_st (set_isProcessing true)
               (with_st
                  (set_messages
                     (messages env ++ [mkMessage user (JString input) (now w)]))
                  w)))).
Proof.
  intros H. apply truthy_true_iff in H.
  unfold handleUserInput, exec. rewrite H. cbn.
  rewrite removelast_snoc. reflexivity.
Qed.

Lemma handleUserInput_blank env input w :
  JsString.trim input = "" -> exec (handleUserInput env input) w = w.
Proof.
  intros H. apply truthy_false_iff in H.
  unfold handleUserInput, exec. rewrite H. reflexivity.
Qed.

(** C1 (counterexample).  With a request in flight and the processing flag
    set, both in the current state and in the render the handlers captured,
    a call of [handleUserInput] is not a no-op: it appends a second user
    message and issues a second backend call. *)
Lemma C1_submits_while_processing :
  isProcessing (st busy) = true
  /\ isProcessing (installed busy) = true
  /\ fetches busy = [mkChatRequest "how are you" [] "normal"]
  /\ length (inflight busy) = 1
  /\ fetches (exec (handleUserInput (st busy) "and you") busy)
     = [mkChatRequest "how are you" [] "normal";
        mkChatRequest "and you" [mkMessage user (JString "how are you") 3000] "normal"]
  /\ length (inflight (exec (handleUserInput (st busy) "and you") busy)) = 2
  /\ map content (messages (st (exec (handleUserInput (st busy) "and you") busy)))
     = [JString "how are you"; JString "and you"].
Proof. vm_compute. repeat split; reflexivity. Qed.

(** C1 (amended).  [handleUserInput] returns without effect exactly when its
    input is empty or only white space.  For every other input, whatever the
    processing flag is (in the captured render [env] and in the current
    state), it appends the user message to the captured log, sets the
    processing flag and issues one backend call. *)
Theorem C1_handleUserInput_guard (env : State) (input : string) (w : World) :
  let w' := exec (handleUserInput env input) w in
  if JsString.truthy (JsString.trim input) then
    fetches w' = (fetches w ++ [mkChatRequest input (messages env) "normal"])%list
    /\ inflight w'
       = (inflight w ++ [(InHandleUserInput, mkChatRequest input (messages env) "normal")])%list
    /\ messages (st w')
       = (messages env ++ [mkMessage user (JString input) (now w)])%list
    /\ isProcessing (st w') = true
  else w' = w.
Proof.
  intros w'. subst w'.
  destruct (JsString.truthy (JsString.trim input)) eqn:E.
  - apply truthy_true_iff in E. rewrite (handleUserInput_submits env _ w E).
    repeat split. unfold fetches. simpl. apply flat_fetch_snoc.
  - apply truthy_false_iff in E. apply handleUserInput_blank. exact E.
Qed.

(* ===================================================================== *)
(** ** Flush on stop *)
(* ===================================================================== *)

(** C4 (counterexample).  With the buffer [" hello "], [stopListening]
    submits the turn ["hello"]: the content is not the buffer's content. *)
Lemma C4_stop_submits_trimmed :
  exists w w',
    run [EvClickMic; EvStart; EvResult (mkEvent [mkResult true " hello "] 0)]
      (mount true true) = Some w
    /\ finalTranscriptRef w = " hello "
    /\ exec (stopListening (st w)) w = w'
    /\ map message (fetches w') = ["hello"]
    /\ map message (fetches w') <> [finalTranscriptRef w].
Proof.
  eexists. eexists. split; [vm_compute; reflexivity|].
  split; [reflexivity|]. split; [reflexivity|].
  split; [vm_compute; reflexivity|]. vm_compute. discriminate.
Qed.

(** C4 (amended).  For every state whose transcript buffer is not empty and
    not only white space, [stopListening] cancels the silence timer recorded
    in [silenceTimer], issues exactly one backend call and appends exactly
    one user message, both carrying the buffer's content with the white
    space at its two ends trimmed, and leaves the buffer empty and the
    listening flag false. *)
Theorem C4_stop_flushes (env : State) (w : World) :
  JsString.trim (finalTranscriptRef w) <> "" ->
  let turn := JsString.trim (finalTranscriptRef w) in
  let w' := exec (stopListening env) w in
  fetches w' = (fetches w ++ [mkChatRequest turn (messages env) "normal"])%list
  /\ messages (st w') = (messages env ++ [mkMessage user (JString turn) (now w)])%list
  /\ finalTranscriptRef w' = ""
  /\ isListening (st w') = false
  /\ (forall t, silenceTimer env = Some t ->
        pending t w' = false /\ silenceTimer (st w') = None).
Proof.
  intros H turn w'.
  assert (Ht : JsString.truthy (JsString.trim (finalTranscriptRef w)) = true)
    by (apply truthy_true_iff; exact H).
  assert (Htt : JsString.trim turn <> "")
    by (unfold turn; rewrite trim_idem; exact H).
  subst w'. unfold stopListening, exec.
  destruct (recognitionRef w) eqn:Hr, (silenceTimer env) as [t|] eqn:Hs;
    cbn; rewrite ?Hr; cbn; rewrite Ht; cbn;
    match goal with
    | |- context [handleUserInput env ?i ?x] =>
        change (snd (handleUserInput env i x)) with (exec (handleUserInput env i) x);
        rewrite (handleUserInput_submits env i x Htt)
    end; cbn;
    (split; [unfold fetches; rewrite !flat_map_app; cbn; rewrite ?app_nil_r; reflexivity|]);
    (split; [reflexivity|]); (split; [reflexivity|]); (split; [reflexivity|]);
    intros t' Ht'; try discriminate; injection Ht' as <-;
    (split; [apply existsb_filter_out | reflexivity]).
Qed.

Lemma C4_stop_flushes_witness :
  JsString.trim (finalTranscriptRef listeningWithBuffer) <> ""
  /\ silenceTimer (st listeningWithBuffer) = Some 1%positive
  /\ pending 1%positive listeningWithBuffer = true
  /\ fetches (exec (stopListening (st listeningWithBuffer)) listeningWithBuffer)
     = [mkChatRequest "good morning" [] "normal"]
  /\ finalTranscriptRef (exec (stopListening (st listeningWithBuffer)) listeningWithBuffer) = ""
  /\ pending 1%positive (exec (stopListening (st listeningWithBuffer)) listeningWithBuffer)
     = false.
Proof.
  assert (H : JsString.trim (finalTranscriptRef listeningWithBuffer) <> "")
    by (vm_compute; discriminate).
  pose proof (C4_stop_flushes (st listeningWithBuffer) listeningWithBuffer H) as T.
  cbv zeta in T. destruct T as (Tf & _ & Tr & _ & Tp).
  split; [exact H|]. split; [reflexivity|]. split; [reflexivity|].
  split; [rewrite Tf; vm_compute; reflexivity|].
  split; [exact Tr|].
  exact (proj1 (Tp 1%positive eq_refl)).
Defined.

(* ===================================================================== *)
(** ** Backend failures *)
(* ===================================================================== *)

Lemma afterFetch_failure o w : isFailure o = true -> afterFetch o w = Threw.
Proof.
  destruct o as [|status [data|]]; simpl; intros H; try reflexivity;
    destruct (ok status); simpl in *; try reflexivity;
    destruct data; simpl in *; try reflexivity; discriminate.
Qed.

(** C5 (counterexample).  A 2xx response whose JSON body has an unexpected
    shape (here [{}], no [response] field) is not treated as a failure: an
    assistant message with [undefined] content is appended and no error is
    set. *)
Lemma C5_unexpected_shape_is_not_a_failure :
  exists w2,
    handleUserInput_resume (Responded 200 (Some (JObject []))) helloSubmitted = Some w2
    /\ messages (st w2)
       = [mkMessage user (JString "hello") 0; mkMessage assistant JUndefined 0]
    /\ error (st w2) = ""
    /\ isProcessing (st w2) = false.
Proof. eexists. vm_compute. repeat split; reflexivity. Qed.

(** C5 (amended).  When the backend call of a submitted turn fails by a
    network error, a status outside 2xx, a body that is not JSON or a body
    that is JSON [null], the error hook is set to the single string "Failed
    to process your request. Please try again.", no assistant message is
    appended and no playback is scheduled, the conversation log is what the
    submission left (it ends with the user's message), the costs are
    untouched and the processing flag is false. *)
Theorem C5_backend_failure (o : FetchOutcome) (env : State) (input : string) (w : World) :
  isFailure o = true ->
  JsString.trim input <> "" ->
  let w1 := exec (handleUserInput env input) w in
  exists w2,
    handleUserInput_resume o w1 = Some w2
    /\ error (st w2) = "Failed to process your request. Please try again."
    /\ messages (st w2) = messages (st w1)
    /\ messages (st w2) = (messages env ++ [mkMessage user (JString input) (now w)])%list
    /\ isProcessing (st w2) = false
    /\ timers w2 = timers w
    /\ costs (st w2) = costs (st w)
    /\ fetches w2 = fetches w1.
Proof.
  intros Hf Hin w1. subst w1.
  unfold handleUserInput_resume. rewrite (afterFetch_failure _ _ Hf).
  rewrite (handleUserInput_submits env input w Hin).
  eexists. split; [reflexivity|]. cbn. repeat split.
Qed.

Lemma C5_backend_failure_witness :
  isFailure (Responded 500 (Some (JObject [("error", JString "Failed to process your request")])))
  = true
  /\ exists w2,
      handleUserInput_resume
        (Responded 500 (Some (JObject [("error", JString "Failed to process your request")])))
        helloSubmitted = Some w2
      /\ error (st w2) = "Failed to process your request. Please try again."
      /\ messages (st w2) = [mkMessage user (JString "hello") 0]
      /\ isProcessing (st w2) = false.
Proof.
  split; [reflexivity|].
  destruct (C5_backend_failure
              (Responded 500 (Some (JObject [("error", JString "Failed to process your request")])))
              initialState "hello" (mount true true) eq_refl
              ltac:(vm_compute; discriminate))
    as (w2 & Hr & He & _ & Hm & Hp & _).
  exists w2. split; [exact Hr|]. split; [exact He|]. split; [exact Hm|]. exact Hp.
Defined.

(** The same holds for whatever happened between the submission and the
    failure: the failure path writes the error and the processing flag only. *)
Lemma resume_failure_writes o w :
  isFailure o = true ->
  handleUserInput_resume o w
  = Some (with_st (set_isProcessing false)
            (with_st (set_error "Failed to process your request. Please try again.") w)).
Proof.
  intros Hf. unfold handleUserInput_resume. rewrite (afterFetch_failure _ _ Hf).
  reflexivity.
Qed.

(* ===================================================================== *)
(** ** Engine errors and engine end *)
(* ===================================================================== *)

(** C6 (counterexample).  The error ["aborted"] is neither [no-speech] nor
    [network], yet no message is surfaced and no restart is scheduled. *)
Lemma C6_aborted_is_silent :
  isListening (installed listeningWithBuffer) = true
  /\ exec (onerror (installed listeningWithBuffer) "aborted") listeningWithBuffer
     = listeningWithBuffer
  /\ dispatch (EvError "aborted") listeningWithBuffer = Some listeningWithBuffer
  /\ error (st listeningWithBuffer) = "".
Proof. vm_compute. repeat split; reflexivity. Qed.

(** C6 (amended).  [network] and [no-speech] errors are swallowed: the
    handler changes nothing.  [aborted] is ignored in the same way.  For
    every other error the message "Speech recognition error: <code>" is
    surfaced and one timer of 1000 ms is scheduled for the restart attempt;
    nothing else changes. *)
Theorem C6_engine_error (env : State) (code : string) (w : World) :
  (code = "network" \/ code = "no-speech" \/ code = "aborted" ->
   exec (onerror env code) w = w)
  /\ (code <> "network" -> code <> "no-speech" -> code <> "aborted" ->
      exec (onerror env code) w
      = with_nextTimer (Pos.succ (nextTimer w))
          (with_timers
             (timers w ++ [mkTimer (nextTimer w) 1000 (now w + 1000) (ErrorRestartCb env)])
             (with_st (set_error ("Speech recognition error: " ++ code)) w))).
Proof.
  split.
  - intros [-> | [-> | ->]]; reflexivity.
  - intros H1 H2 H3. unfold onerror, exec.
    apply String.eqb_neq in H1, H2, H3. rewrite H1, H2, H3. reflexivity.
Qed.

Lemma C6_engine_error_witness :
  exec (onerror (installed listeningWithBuffer) "no-speech") listeningWithBuffer
  = listeningWithBuffer
  /\ error (st (exec (onerror (installed listeningWithBuffer) "audio-capture")
                  listeningWithBuffer))
     = "Speech recognition error: audio-capture"
  /\ map delay (timers (exec (onerror (installed listeningWithBuffer) "audio-capture")
                          listeningWithBuffer))
     = [3000; 1000].
Proof.
  destruct (C6_engine_error (installed listeningWithBuffer) "no-speech" listeningWithBuffer)
    as [Hs _].
  destruct (C6_engine_error (installed listeningWithBuffer) "audio-capture" listeningWithBuffer)
    as [_ Ho].
  split; [apply Hs; right; left; reflexivity|].
  rewrite Ho by discriminate.
  split; reflexivity.
Defined.

(** The restart attempt of [onerror] never starts the engine: its callback
    calls [startListening] only when the captured [isListening] is true, and
    [startListening] of the same render returns at once in that case. *)
Lemma errorRestartCallback_noop env w : exec (errorRestartCallback env) w = w.
Proof.
  unfold errorRestartCallback, startListening, exec.
  destruct (isListening env) eqn:E; handler; [|reflexivity].
  rewrite andb_false_r. reflexivity.
Qed.

(** After every task and its commit the latest effect run has captured the
    current value of each dependency. *)
Lemma depsChanged_same a b :
  isListening a = isListening b -> isProcessing a = isProcessing b ->
  silenceTimer a = silenceTimer b -> hasSpokenContent a = hasSpokenContent b ->
  depsChanged a b = false.
Proof.
  intros H1 H2 H3 H4. unfold depsChanged. rewrite H1, H2, H3, H4.
  rewrite !Bool.eqb_reflx. unfold eqb_timer.
  destruct (silenceTimer b); [rewrite Pos.eqb_refl|]; reflexivity.
Qed.

Lemma step_installs_deps e w w' :
  step e w = Some w' -> depsChanged (installed w') (st w') = false.
Proof.
  unfold step. destruct (dispatch e w) as [w1|]; [|discriminate].
  intros H. injection H as <-.
  unfold rerender, effectCleanup, effectBody, recognition_stop, emit, clearTimeout,
    setError.
  handler.
  destruct (depsChanged (installed w1) (st w1)) eqn:E; cbn; [|exact E].
  cases; apply depsChanged_same; reflexivity.
Qed.

(** [onend] decides by the flags its closure captured: with [isListening]
    true and [isProcessing] false it schedules one timer of 100 ms whose
    callback starts recognition again; with [isProcessing] true, or
    [isListening] false, it changes nothing. *)
Lemma onend_by_captured_flags env w :
  (isListening env = true -> isProcessing env = false ->
   exec (onend env) w
   = with_nextTimer (Pos.succ (nextTimer w))
       (with_timers (timers w ++ [mkTimer (nextTimer w) 100 (now w + 100) (EndRestartCb env)])
          w))
  /\ (isProcessing env = true \/ isListening env = false -> exec (onend env) w = w).
Proof.
  unfold onend, exec. split.
  - intros -> ->. reflexivity.
  - intros [-> | ->]; [rewrite andb_false_r|]; reflexivity.
Qed.

(** C7 (the code at the failing input).  The microphone is clicked on the
    mounted component and the engine reports its start: the component is
    listening and not processing.  The commit of that render has stopped the
    object that was started and put a new one, which nothing starts, into
    [recognitionRef.current]; the started object keeps the handlers of the
    render before the start, which captured [isListening = false].  When
    the engine then reports the end of the session, [onend] schedules
    nothing: no timer is pending, no [start()] follows, the world is as it
    was. *)
Theorem C7_end_without_restart :
  exists w,
    run [EvClickMic; EvStart] (mount true true) = Some w
    /\ isListening (st w) = true
    /\ isProcessing (st w) = false
    /\ isListening (active w) = false
    /\ log w = [RecognitionStart; RecognitionStop; SynthCancel]
    /\ recognizing w = false
    /\ step EvEnd w = Some w
    /\ timers w = [].
Proof.
  eexists. split; [vm_compute; reflexivity|].
  split; [reflexivity|]. split; [reflexivity|]. split; [reflexivity|].
  split; [reflexivity|]. split; [reflexivity|].
  split; vm_compute; reflexivity.
Qed.

(* ===================================================================== *)
(** ** IELTS score request *)
(* ===================================================================== *)

(** C8.  With an empty conversation log, [requestIELTSScore] only sets the
    error "Please have a conversation first before requesting an IELTS
    score.": no backend call is issued, nothing is pending, the processing
    flag is not touched. *)
Theorem C8_score_needs_conversation (env : State) (w : World) :
  messages env = [] ->
  exec (requestIELTSScore env) w
  = with_st (set_error "Please have a conversation first before requesting an IELTS score.") w
  /\ fetches (exec (requestIELTSScore env) w) = fetches w
  /\ inflight (exec (requestIELTSScore env) w) = inflight w
  /\ isProcessing (st (exec (requestIELTSScore env) w)) = isProcessing (st w).
Proof.
  intros H. unfold requestIELTSScore, exec. rewrite H. cbn. repeat split.
Qed.

Lemma C8_score_needs_conversation_witness :
  messages (st (mount true true)) = []
  /\ error (st (exec (requestIELTSScore (st (mount true true))) (mount true true)))
     = "Please have a conversation first before requesting an IELTS score."
  /\ fetches (exec (requestIELTSScore (st (mount true true))) (mount true true)) = [].
Proof.
  destruct (C8_score_needs_conversation (st (mount true true)) (mount true true) eq_refl)
    as (He & Hf & _).
  split; [reflexivity|]. split; [rewrite He; reflexivity | rewrite Hf; reflexivity].
Defined.

(* ===================================================================== *)
(** ** The chat route and the usage it returns *)
(* ===================================================================== *)

Lemma POST_success generateText req :
  ok (Route.status (Route.POST generateText req)) = true ->
  exists r, Route.POST generateText req = Route.mkResponse 200 (Route.successBody r).
Proof.
  unfold Route.POST.
  destruct req as [parsed|]; [|discriminate].
  destruct (Js.getProp parsed "message") as [message|]; [|discriminate].
  destruct (Js.getProp parsed "conversationHistory") as [history|]; [|discriminate].
  destruct (Js.getProp parsed "requestType") as [requestType|]; [|discriminate].
  destruct (negb (Js.truthy message) && negb (Js.strictEqString requestType "ielts_score"));
    [discriminate|].
  destruct (Route.historyMessages history) as [h|]; [|discriminate].
  match goal with
  | |- context [generateText ?m] => destruct (generateText m) as [r|]
  end; [|discriminate].
  intros _. exists r. reflexivity.
Qed.

Lemma toNumber_wire x :
  Js.toNumber (Route.wire (JNumber x)) = Some (Route.received x).
Proof.
  unfold Route.received.
  change (Route.wire (JNumber x))
    with (if is_finite x then (if is_zero x then JNumber 0 else JNumber x) else JNull).
  destruct (is_finite x); [destruct (is_zero x)|]; reflexivity.
Qed.

Lemma wire_number_defined x : Route.wire (JNumber x) <> JUndefined.
Proof.
  change (Route.wire (JNumber x))
    with (if is_finite x then (if is_zero x then JNumber 0 else JNumber x) else JNull).
  destruct (is_finite x); [destruct (is_zero x)|]; discriminate.
Qed.

(** What the client parses out of a success body. *)
Lemma wire_successBody r :
  Route.wire (Route.successBody r)
  = JObject
      [("response", JString (Route.text r));
       ("usage",
        JObject [("promptTokens", Route.wire (JNumber (promptTokens (Route.usage r))));
                 ("completionTokens", Route.wire (JNumber (completionTokens (Route.usage r))));
                 ("totalTokens", Route.wire (JNumber (totalTokens_ (Route.usage r))))])].
Proof.
  unfold Route.successBody. cbn [Route.wire]. reflexivity.
Qed.

(** C10.  Every 2xx response of [POST] has the body
    [{response: text, usage: {promptTokens, completionTokens, totalTokens}}]:
    the usage object and its three fields are never omitted.  The client that
    receives this body appends the assistant message and records the usage
    in the cost accumulator. *)
Theorem C10_success_carries_usage
    (generateText : list Route.ChatMessage -> option Route.GenerateTextResult)
    (req : option JsValue) :
  ok (Route.status (Route.POST generateText req)) = true ->
  exists r,
    Route.POST generateText req = Route.mkResponse 200 (Route.successBody r)
    /\ Js.getProp (Route.body (Route.POST generateText req)) "response"
       = Some (JString (Route.text r))
    /\ Js.getProp (Route.body (Route.POST generateText req)) "usage"
       = Some (JObject
                 [("promptTokens", JNumber (promptTokens (Route.usage r)));
                  ("completionTokens", JNumber (completionTokens (Route.usage r)));
                  ("totalTokens", JNumber (totalTokens_ (Route.usage r)))])
    /\ forall w,
        exists w',
          handleUserInput_resume
            (Responded (Route.status (Route.POST generateText req))
               (Some (Route.wire (Route.body (Route.POST generateText req))))) w
          = Some w'
          /\ costs (st w')
             = Cost.calculateCost (Route.receivedUsage (Route.usage r)) (costs (st w))
          /\ messages (st w')
             = (messages (st w) ++ [mkMessage assistant (JString (Route.text r)) (now w)])%list
          /\ error (st w') = error (st w)
          /\ isProcessing (st w') = false.
Proof.
  intros Hok. destruct (POST_success generateText req Hok) as [r Hr].
  exists r. rewrite Hr. split; [reflexivity|]. split; [reflexivity|]. split; [reflexivity|].
  intros w. cbn [Route.status Route.body].
  rewrite wire_successBody.
  unfold handleUserInput_resume, afterFetch.
  change (ok 200) with true. cbn [negb].
  cbn [Js.getProp Js.assoc String.eqb Ascii.eqb Bool.eqb Js.truthy].
  unfold readUsage.
  cbn [Js.getProp Js.assoc String.eqb Ascii.eqb Bool.eqb].
  rewrite !toNumber_wire.
  eexists. split; [reflexivity|]. cbn. repeat split.
Qed.

Lemma C10_success_carries_usage_witness :
  ok (Route.status (Route.POST cannedText helloRequest)) = true
  /\ exists r,
      Route.POST cannedText helloRequest = Route.mkResponse 200 (Route.successBody r)
      /\ forall w, exists w',
          handleUserInput_resume
            (Responded (Route.status (Route.POST cannedText helloRequest))
               (Some (Route.wire (Route.body (Route.POST cannedText helloRequest))))) w
          = Some w'
          /\ costs (st w')
             = Cost.calculateCost (Route.receivedUsage (Route.usage r)) (costs (st w)).
Proof.
  split; [reflexivity|].
  destruct (C10_success_carries_usage cannedText helloRequest eq_refl)
    as (r & Hr & _ & _ & Hc).
  exists r. split; [exact Hr|].
  intros w. destruct (Hc w) as (w' & H1 & H2 & _).
  exists w'. split; [exact H1 | exact H2].
Defined.

(* ===================================================================== *)
(** ** Interim segments and the silence timer *)
(* ===================================================================== *)

(** C3 (the code at the failing input).  The component listens; a final
    segment starts silence timer 1, which the state records.  One second
    later a callback brings interim text only.  The handlers that run are
    those of the recognition object that was started, and their closure
    captured [silenceTimer = null]: the test of line 166 fails, nothing is
    cancelled, and the state still records timer 1.  The timer stays pending
    and fires three seconds after the final segment, interim text or not. *)
Theorem C3_interim_leaves_timer :
  exists w1 w2 w3,
    run [EvClickMic; EvStart; EvResult (mkEvent [mkResult true "hello "] 0)]
      (mount true true) = Some w1
    /\ map tid (silenceTimers w1) = [1%positive]
    /\ silenceTimer (st w1) = Some 1%positive
    /\ silenceTimer (active w1) = None
    /\ finalText (mkEvent [mkResult true "hello "; mkResult false "how"] 1) = ""
    /\ interimText (mkEvent [mkResult true "hello "; mkResult false "how"] 1) = "how"
    /\ run [EvElapse 1000;
            EvResult (mkEvent [mkResult true "hello "; mkResult false "how"] 1)] w1
       = Some w2
    /\ map tid (silenceTimers w2) = [1%positive]
    /\ map due (silenceTimers w2) = [3000]
    /\ silenceTimer (st w2) = Some 1%positive
    /\ run [EvElapse 2000; EvTimer 1%positive] w2 = Some w3
    /\ now w3 = 3000
    /\ timers w3 = [].
Proof.
  do 3 eexists.
  split; [vm_compute; reflexivity|].
  split; [vm_compute; reflexivity|].
  split; [vm_compute; reflexivity|].
  split; [vm_compute; reflexivity|].
  split; [vm_compute; reflexivity|].
  split; [vm_compute; reflexivity|].
  split; [vm_compute; reflexivity|].
  split; [vm_compute; reflexivity|].
  split; [vm_compute; reflexivity|].
  split; [vm_compute; reflexivity|].
  split; [vm_compute; reflexivity|].
  split; vm_compute; reflexivity.
Qed.

(** Where the handler does know the pending timer, an interim segment
    cancels it: nothing is pending under that handle afterwards and the
    state holds no timer. *)
Lemma onresult_interim_cancels env event w t :
  finalText event = "" ->
  interimText event <> "" ->
  silenceTimer env = Some t ->
  let w' := exec (onresult env event) w in
  pending t w' = false
  /\ silenceTimer (st w') = None
  /\ finalTranscriptRef w' = finalTranscriptRef w
  /\ fetches w' = fetches w.
Proof.
  intros Hf Hi Ht w'. subst w'.
  apply truthy_true_iff in Hi.
  unfold onresult, clearTimeout, setSilenceTimer, setTranscript. handler.
  rewrite Hf, Hi, Ht. cbn.
  repeat split. unfold pending. cbn. apply existsb_filter_out.
Qed.

(** A callback that carries final and interim text together, handled by
    handlers that know an earlier timer: the timer it starts is pending
    afterwards and the state records no timer. *)
Lemma onresult_mixed_orphans_timer env event w t :
  finalText event <> "" ->
  interimText event <> "" ->
  silenceTimer env = Some t ->
  (t < nextTimer w)%positive ->
  let w' := exec (onresult env event) w in
  pending (nextTimer w) w' = true
  /\ silenceTimer (st w') = None
  /\ In (mkTimer (nextTimer w) 3000 (now w + 3000) (SilenceCb env)) (timers w').
Proof.
  intros Hf Hi Ht Hlt w'. subst w'.
  apply truthy_true_iff in Hf, Hi.
  assert (Hne : Pos.eqb (nextTimer w) t = false) by (apply Pos.eqb_neq; lia).
  unfold onresult, clearTimeout, setSilenceTimer, setTranscript, setHasSpokenContent,
    setFinalTranscriptRef, setTimeout.
  handler. rewrite Hf, Hi, Ht. cbn.
  rewrite filter_app. cbn. rewrite Hne. cbn.
  split; [|split; [reflexivity|]].
  - unfold pending. cbn. rewrite existsb_app. cbn. rewrite Pos.eqb_refl.
    rewrite orb_true_r. reflexivity.
  - apply in_or_app. right. left. reflexivity.
Qed.

(** The same slip where the handlers did capture a timer: a callback that
    carries final and interim text together leaves its own timer pending and
    unrecorded, the interim segment that follows cannot cancel it, and it
    submits the turn three seconds after the final segment. *)
Lemma mixed_callback_submits_early :
  exists w1 w2,
    silenceTimer (active resumed) = Some 1%positive
    /\ run [EvResult (mkEvent [mkResult true "hello "] 0);
            EvElapse 1000;
            EvResult (mkEvent [mkResult true "hello "; mkResult true "world";
                               mkResult false " how"] 1)] resumed = Some w1
    /\ map tid (silenceTimers w1) = [3%positive]
    /\ silenceTimer (st w1) = None
    /\ run [EvElapse 1000;
            EvResult (mkEvent [mkResult true "hello "; mkResult true "world";
                               mkResult false " how are"] 2);
            EvElapse 2000; EvTimer 3%positive] w1 = Some w2
    /\ map message (fetches w2) = ["hello world"].
Proof.
  do 2 eexists.
  split; [vm_compute; reflexivity|]. split; [vm_compute; reflexivity|].
  split; [vm_compute; reflexivity|]. split; [vm_compute; reflexivity|].
  split; vm_compute; reflexivity.
Qed.

(* ===================================================================== *)
(** ** Final segments and the silence timer *)
(* ===================================================================== *)


(** Two worlds with the same fields are the same world. *)
Lemma world_eq a b :
  st a = st b -> installed a = installed b ->
  finalTranscriptRef a = finalTranscriptRef b ->
  recognitionRef a = recognitionRef b -> recognizing a = recognizing b ->
  synthRef a = synthRef b -> timers a = timers b -> nextTimer a = nextTimer b ->
  now a = now b -> inflight a = inflight b -> log a = log b ->
  active a = active b -> a = b.
Proof. destruct a, b; cbn; intros; subst; reflexivity. Qed.

Ltac same_world :=
  apply world_eq; cbn; rewrite ?app_nil_r;
  first [reflexivity | assumption | symmetry; assumption].

(** *** The commit of a render *)

(** A commit that finds no dependency changed does nothing. *)
Lemma rerender_unchanged w :
  depsChanged (installed w) (st w) = false -> exec rerender w = w.
Proof. intros H. unfold rerender. handler. rewrite H. reflexivity. Qed.

(** A commit that finds a dependency changed, in a browser with speech
    recognition: the cleanup clears the timer the last effect run knew and
    stops the recognition object of that run; the new object's handlers
    capture the new render.  The handlers that the engine's events reach
    stay the same. *)
Lemma rerender_changed w :
  depsChanged (installed w) (st w) = true ->
  recognitionRef w = true ->
  exec rerender w
  = mkWorld (st w) (st w) (finalTranscriptRef w) true false (synthRef w)
      (cleared (silenceTimer (installed w)) (timers w)) (nextTimer w) (now w)
      (inflight w)
      ((log w ++ [RecognitionStop]) ++ (if synthRef w then [SynthCancel] else []))%list
      (active w).
Proof.
  intros H Hr.
  unfold rerender, effectCleanup, effectBody, recognition_stop, emit, clearTimeout.
  handler. rewrite H. cases; same_world.
Qed.

(** *** Timers *)

Lemma tracked_none next l :
  timersTracked None next l = true -> filter isSilence l = [].
Proof.
  induction l as [|t l IH]; cbn; [reflexivity|].
  intros H. apply andb_prop in H as [H Hl]. apply andb_prop in H as [_ H].
  destruct (isSilence t); [discriminate|]. apply IH. exact Hl.
Qed.

Lemma tracked_some id next l :
  timersTracked (Some id) next l = true ->
  filter isSilence (filter (fun t => negb (Pos.eqb (tid t) id)) l) = [].
Proof.
  induction l as [|t l IH]; cbn; [reflexivity|].
  intros H. apply andb_prop in H as [H Hl]. apply andb_prop in H as [_ H].
  destruct (Pos.eqb (tid t) id) eqn:E; cbn.
  - apply IH. exact Hl.
  - destruct (isSilence t); cbn in *.
    + rewrite Pos.eqb_sym, E in H. discriminate.
    + apply IH. exact Hl.
Qed.

(** Once the recorded handle is cleared, no silence timer is pending. *)
Lemma tracked_cleared o next l :
  timersTracked o next l = true -> filter isSilence (cleared o l) = [].
Proof.
  destruct o as [id|]; cbn; [apply tracked_some | apply tracked_none].
Qed.

Lemma tracked_below o next l t :
  timersTracked o next l = true -> In t l -> (tid t < next)%positive.
Proof.
  unfold timersTracked. rewrite forallb_forall. intros H Hin.
  specialize (H t Hin). apply andb_prop in H as [H _].
  apply Pos.ltb_lt. exact H.
Qed.

Lemma cleared_incl o l t : In t (cleared o l) -> In t l.
Proof.
  destruct o; cbn; [|trivial]. intros H. apply filter_In in H. tauto.
Qed.

Lemma cleared_idem o l : cleared o (cleared o l) = cleared o l.
Proof. destruct o; cbn; [apply filter_idem | reflexivity]. Qed.

Lemma cleared_snoc o l t :
  eqb_timer o (Some (tid t)) = false ->
  cleared o (l ++ [t])%list = (cleared o l ++ [t])%list.
Proof.
  destruct o as [id|]; cbn; [|reflexivity].
  intros H. rewrite filter_app. cbn. rewrite Pos.eqb_sym, H. reflexivity.
Qed.

(** A fresh handle names the timer it was given to. *)
Lemma find_fresh l t :
  (forall t', In t' l -> (tid t' < tid t)%positive) ->
  find (fun t' => Pos.eqb (tid t') (tid t)) (l ++ [t])%list = Some t.
Proof.
  induction l as [|a l IH]; cbn; intros H.
  - rewrite Pos.eqb_refl. reflexivity.
  - assert (Ha : (tid a < tid t)%positive) by (apply H; left; reflexivity).
    destruct (Pos.eqb (tid a) (tid t)) eqn:E.
    + apply Pos.eqb_eq in E. lia.
    + apply IH. intros t' Ht'. apply H. right. exact Ht'.
Qed.

Lemma fresh_handle o next :
  match o with Some id => Pos.ltb id next | None => true end = true ->
  eqb_timer o (Some next) = false.
Proof.
  destruct o as [id|]; cbn; [|reflexivity].
  intros H. apply Pos.ltb_lt in H. apply Pos.eqb_neq. lia.
Qed.

(** *** One callback with final text only *)

Lemma onresult_final env event w :
  finalOnly event = true ->
  exec (onresult env event) w
  = mkWorld
      (set_silenceTimer (Some (nextTimer w))
         (set_hasSpokenContent true
            (set_transcript
               (finalTranscriptRef w ++ finalText event ++ interimText event) (st w))))
      (installed w) (finalTranscriptRef w ++ finalText event)
      (recognitionRef w) (recognizing w) (synthRef w)
      (cleared (silenceTimer env) (timers w) ++ [started env w])%list
      (Pos.succ (nextTimer w)) (now w) (inflight w) (log w) (active w).
Proof.
  unfold finalOnly. intros H. apply andb_prop in H as [Hf Hi].
  apply negb_true_iff in Hi.
  unfold onresult, clearTimeout, setSilenceTimer, setTranscript, setHasSpokenContent,
    setFinalTranscriptRef, setTimeout.
  handler. rewrite Hf, Hi. destruct (silenceTimer env); reflexivity.
Qed.

Lemma settled_parts w :
  settled w = true ->
  recognitionRef w = true
  /\ depsChanged (installed w) (st w) = false
  /\ timersTracked (silenceTimer (installed w)) (nextTimer w) (timers w) = true
  /\ match silenceTimer (installed w) with
     | Some id => Pos.ltb id (nextTimer w)
     | None => true
     end = true.
Proof.
  unfold settled. intros H.
  apply andb_prop in H as [H H4]. apply andb_prop in H as [H H3].
  apply andb_prop in H as [H1 H2]. apply negb_true_iff in H2. tauto.
Qed.

Lemma deps_hasSpokenContent a b :
  depsChanged a b = false -> hasSpokenContent a = hasSpokenContent b.
Proof.
  unfold depsChanged. intros H. apply negb_false_iff in H.
  apply andb_prop in H as [_ H]. apply Bool.eqb_prop. exact H.
Qed.

Lemma depsChanged_timer a b :
  eqb_timer (silenceTimer a) (silenceTimer b) = false -> depsChanged a b = true.
Proof.
  intros H. unfold depsChanged. rewrite H, andb_false_r. reflexivity.
Qed.

Lemma depsChanged_spoken a b :
  hasSpokenContent a = negb (hasSpokenContent b) -> depsChanged a b = true.
Proof.
  intros H. unfold depsChanged. rewrite H.
  destruct (hasSpokenContent b); cbn; rewrite andb_false_r; reflexivity.
Qed.

Lemma step_elapse w d :
  depsChanged (installed w) (st w) = false ->
  step (EvElapse d) w = Some (with_now (now w + d) w).
Proof.
  intros H. unfold step, dispatch.
  rewrite rerender_unchanged; [reflexivity | exact H].
Qed.

Lemma filter_cleared (f : Timer -> bool) o l :
  filter f (cleared o l) = cleared o (filter f l).
Proof. destruct o; cbn; [apply filter_filter_comm | reflexivity]. Qed.

Lemma cleared_nil o : cleared o [] = [].
Proof. destruct o; reflexivity. Qed.

Lemma cleared_comm a b l : cleared a (cleared b l) = cleared b (cleared a l).
Proof. destruct a, b; cbn; try reflexivity. apply filter_filter_comm. Qed.

(** What one callback with final text only does to a settled world, the
    commit included.  The handler clears the timer its own closure knows;
    the timer the state records is cleared by the cleanup of the commit. *)
Lemma arrival_step w d event :
  settled w = true ->
  finalOnly event = true ->
  exists w',
    run [EvElapse d; EvResult event] w = Some w'
    /\ settled w' = true
    /\ active w' = active w
    /\ hasSpokenContent (st w') = true
    /\ messages (st w') = messages (st w)
    /\ finalTranscriptRef w' = finalTranscriptRef w ++ finalText event
    /\ fetches w' = fetches w
    /\ now w' = now w + d
    /\ silenceTimers w' = [mkTimer (nextTimer w) 3000 (now w' + 3000) (SilenceCb (active w))]
    /\ find (fun t => Pos.eqb (tid t) (nextTimer w)) (timers w')
       = Some (mkTimer (nextTimer w) 3000 (now w' + 3000) (SilenceCb (active w))).
Proof.
  intros Hs Hf. destruct (settled_parts w Hs) as (Hr & Hd & Ht & Hn).
  set (o := silenceTimer (installed w)) in *.
  set (w1 := with_now (now w + d) w).
  set (w2 := exec (onresult (active w1) event) w1).
  assert (E2 : w2 = exec (onresult (active w1) event) w1) by reflexivity.
  rewrite (onresult_final (active w1) event w1 Hf) in E2.
  assert (Hfresh : eqb_timer o (Some (nextTimer w)) = false) by (apply fresh_handle; exact Hn).
  assert (Hc : depsChanged (installed w2) (st w2) = true).
  { apply depsChanged_timer. rewrite E2. exact Hfresh. }
  assert (Hr2 : recognitionRef w2 = true) by (rewrite E2; exact Hr).
  exists (exec rerender w2). split.
  { cbn [run]. rewrite (step_elapse w d Hd). fold w1.
    unfold step, dispatch. change (recognitionRef w1) with (recognitionRef w).
    rewrite Hr. reflexivity. }
  rewrite (rerender_changed w2 Hc Hr2). rewrite E2.
  cbn [st installed finalTranscriptRef recognitionRef recognizing synthRef timers
         nextTimer now inflight log active with_now w1].
  fold o. change (started (active w) w1)
    with (mkTimer (nextTimer w) 3000 (now w + d + 3000) (SilenceCb (active w))).
  set (T := mkTimer (nextTimer w) 3000 (now w + d + 3000) (SilenceCb (active w))).
  set (L := cleared (silenceTimer (active w)) (timers w)).
  assert (HT : eqb_timer o (Some (tid T)) = false) by exact Hfresh.
  rewrite (cleared_snoc o L T HT).
  assert (Hlow : forall t', In t' (cleared o L) -> (tid t' < tid T)%positive).
  { intros t' Hin. apply (tracked_below o (nextTimer w) (timers w)); [exact Ht|].
    apply (cleared_incl (silenceTimer (active w))). apply (cleared_incl o). exact Hin. }
  assert (Hnil : filter isSilence (cleared o L) = []).
  { unfold L. rewrite cleared_comm, filter_cleared, (tracked_cleared o _ _ Ht).
    apply cleared_nil. }
  split.
  { unfold settled.
    cbn [st installed recognitionRef timers nextTimer silenceTimer set_silenceTimer].
    rewrite depsChanged_same by reflexivity. cbn [negb andb].
    assert (Hlt : (nextTimer w <? Pos.succ (nextTimer w))%positive = true)
      by (apply Pos.ltb_lt; lia).
    rewrite Hlt, andb_true_r.
    unfold timersTracked. rewrite forallb_app. cbn [forallb tid T isSilence callback].
    rewrite Hlt. cbn [eqb_timer]. rewrite Pos.eqb_refl. cbn [implb andb].
    rewrite andb_true_r.
    apply forallb_forall. intros t Hin.
    assert (Hb : (tid t < nextTimer w)%positive) by (apply Hlow; exact Hin).
    assert (Hns : isSilence t = false).
    { destruct (isSilence t) eqn:Es; [|reflexivity].
      assert (Hin' : In t (filter isSilence (cleared o L)))
        by (apply filter_In; split; assumption).
      rewrite Hnil in Hin'. destruct Hin'. }
    rewrite Hns. cbn [implb]. rewrite andb_true_r. apply Pos.ltb_lt. lia. }
  split; [reflexivity|]. split; [reflexivity|]. split; [reflexivity|].
  split; [reflexivity|].
  split.
  { unfold fetches. cbn [log]. rewrite <- app_assoc, flat_map_app.
    destruct (synthRef w); cbn; rewrite app_nil_r; reflexivity. }
  split; [reflexivity|].
  split.
  { unfold silenceTimers. cbn [timers]. rewrite filter_app, Hnil. reflexivity. }
  exact (find_fresh (cleared o L) T Hlow).
Qed.

(** *** The silence timer fires *)



(** *** A sequence of callbacks with final text only *)




(** The callback of a silence timer whose closure captured
    [hasSpokenContent = false] does nothing, whatever the buffer holds. *)
Lemma silenceCallback_stale_flag env w :
  hasSpokenContent env = false -> exec (silenceCallback env) w = w.
Proof.
  intros H. unfold silenceCallback. handler. rewrite H, andb_false_r. reflexivity.
Qed.

(** In the session started on the mounted component the handlers captured
    [hasSpokenContent = false], and so did the callback of every silence
    timer they start: when the timer of the last segment fires, nothing is
    submitted and the buffer stays. *)
Lemma first_session_submits_nothing :
  exists w1 w2,
    run (arrivals greeting) listeningIdle = Some w1
    /\ hasSpokenContent (active w1) = false
    /\ map tid (silenceTimers w1) = [2%positive]
    /\ run [EvElapse 3000; EvTimer 2%positive] w1 = Some w2
    /\ fetches w2 = []
    /\ finalTranscriptRef w2 = "Hello, how are you "
    /\ silenceTimers w2 = [].
Proof.
  do 2 eexists.
  split; [vm_compute; reflexivity|]. split; [vm_compute; reflexivity|].
  split; [vm_compute; reflexivity|]. split; [vm_compute; reflexivity|].
  split; [vm_compute; reflexivity|].
  split; vm_compute; reflexivity.
Qed.



(* ===================================================================== *)
(** ** A whole turn *)
(* ===================================================================== *)

(** The user says "Hello, how are you" in two final segments and, three
    seconds later, clicks the microphone button to stop; the backend answers
    with a usage of 50 + 20 = 70 tokens: the log holds the two messages, the
    token total is 70, the processing flag is false, and 100 ms later
    [speakText] is called with the answer. *)
Example turn_roundtrip :
  exists w,
    run (arrivals greeting
         ++ [EvElapse 3000; EvClickMic;
             EvSettle 0 (Responded 200
                           (Some (Route.wire (Route.body (Route.POST cannedText helloRequest)))));
             EvElapse 100; EvTimer 3%positive])%list
      listeningIdle = Some w
    /\ map content (messages (st w))
       = [JString "Hello, how are you"; JString "I'm doing well, thanks!"]
    /\ totalTokens (costs (st w)) = 70%float
    /\ isProcessing (st w) = false
    /\ error (st w) = ""
    /\ In (SpeakText (JString "I'm doing well, thanks!")) (log w).
Proof.
  eexists. split; [vm_compute; reflexivity|].
  split; [reflexivity|]. split; [reflexivity|]. split; [reflexivity|].
  split; [reflexivity|]. cbn. tauto.
Qed.

(* ===================================================================== *)
(** ** More on the transcript buffer *)
(* ===================================================================== *)

Lemma trim_empty : JsString.trim "" = "".
Proof. reflexivity. Qed.

Lemma fetches_snoc_other l e :
  match e with Fetch _ => False | _ => True end ->
  flat_map (fun e => match e with Fetch r => [r] | _ => [] end) (l ++ [e])%list
  = flat_map (fun e => match e with Fetch r => [r] | _ => [] end) l.
Proof.
  intros H. rewrite flat_map_app. destruct e; cbn; try (destruct H); apply app_nil_r.
Qed.

(** [stopListening] when the buffer has nothing to submit. *)
Lemma stopListening_blank env w :
  JsString.trim (finalTranscriptRef w) = "" ->
  exec (stopListening env) w
  = mkWorld
      (set_hasSpokenContent false
         (match silenceTimer env with
          | Some _ => set_silenceTimer None (set_isListening false (st w))
          | None => set_isListening false (st w)
          end))
      (installed w) (finalTranscriptRef w) (recognitionRef w)
      (if recognitionRef w then false else recognizing w) (synthRef w)
      (cleared (silenceTimer env) (timers w)) (nextTimer w) (now w) (inflight w)
      (if recognitionRef w then log w ++ [RecognitionStop] else log w)%list
      (active w).
Proof.
  intros H. apply truthy_false_iff in H.
  unfold stopListening, recognition_stop, emit, clearTimeout, setSilenceTimer,
    setIsListening, setHasSpokenContent.
  handler.
  destruct (recognitionRef w) eqn:Hr, (silenceTimer env) as [t|] eqn:Hs;
    cbn; rewrite ?Hr; cbn; rewrite H; cbn; same_world.
Qed.

(** [stopListening] when the buffer has text. *)
Lemma stopListening_flush env w :
  JsString.trim (finalTranscriptRef w) <> "" ->
  exec (stopListening env) w
  = mkWorld
      (set_hasSpokenContent false
         (set_transcript ""
            (set_isProcessing true
               (set_messages
                  (messages env
                   ++ [mkMessage user (JString (JsString.trim (finalTranscriptRef w)))
                         (now w)])%list
                  (match silenceTimer env with
                   | Some _ => set_silenceTimer None (set_isListening false (st w))
                   | None => set_isListening false (st w)
                   end)))))
      (installed w) "" (recognitionRef w)
      (if recognitionRef w then false else recognizing w) (synthRef w)
      (cleared (silenceTimer env) (timers w)) (nextTimer w) (now w)
      (inflight w
       ++ [(InHandleUserInput,
            mkChatRequest (JsString.trim (finalTranscriptRef w)) (messages env) "normal")])%list
      ((if recognitionRef w then log w ++ [RecognitionStop] else log w)
       ++ [Fetch (mkChatRequest (JsString.trim (finalTranscriptRef w)) (messages env)
                    "normal")])%list
      (active w).
Proof.
  intros H.
  assert (Ht : JsString.truthy (JsString.trim (finalTranscriptRef w)) = true)
    by (apply truthy_true_iff; exact H).
  assert (Htt : JsString.trim (JsString.trim (finalTranscriptRef w)) <> "")
    by (rewrite trim_idem; exact H).
  unfold stopListening, recognition_stop, emit, clearTimeout, setSilenceTimer,
    setIsListening, setHasSpokenContent, setFinalTranscriptRef.
  handler.
  destruct (recognitionRef w) eqn:Hr, (silenceTimer env) as [t|] eqn:Hs;
    cbn; rewrite ?Hr; cbn; rewrite Ht; cbn;
    match goal with
    | |- context [handleUserInput env ?i ?x] =>
        change (snd (handleUserInput env i x)) with (exec (handleUserInput env i) x);
        rewrite (handleUserInput_submits env i x Htt)
    end; same_world.
Qed.

(** The callback of a silence timer when the buffer has nothing to submit. *)
Lemma silenceCallback_blank env w :
  JsString.trim (finalTranscriptRef w) = "" -> exec (silenceCallback env) w = w.
Proof.
  intros H. apply truthy_false_iff in H.
  unfold silenceCallback. handler. rewrite H. reflexivity.
Qed.

Lemma silenceCallback_skips env w :
  hasSpokenContent env = false -> exec (silenceCallback env) w = w.
Proof.
  intros H. unfold silenceCallback. handler. rewrite H, andb_false_r. reflexivity.
Qed.

(** The callback of a silence timer when it submits. *)
Lemma silenceCallback_submits env w :
  hasSpokenContent env = true ->
  JsString.trim (finalTranscriptRef w) <> "" ->
  exec (silenceCallback env) w
  = mkWorld
      (set_hasSpokenContent false
         (set_transcript ""
            (set_isProcessing true
               (set_messages
                  (messages env
                   ++ [mkMessage user (JString (JsString.trim (finalTranscriptRef w)))
                         (now w)])%list
                  (st w)))))
      (installed w) "" (recognitionRef w) (recognizing w) (synthRef w)
      (timers w) (nextTimer w) (now w)
      (inflight w
       ++ [(InHandleUserInput,
            mkChatRequest (JsString.trim (finalTranscriptRef w)) (messages env) "normal")])%list
      (log w
       ++ [Fetch (mkChatRequest (JsString.trim (finalTranscriptRef w)) (messages env)
                    "normal")])%list
      (active w).
Proof.
  intros He H.
  assert (Ht : JsString.truthy (JsString.trim (finalTranscriptRef w)) = true)
    by (apply truthy_true_iff; exact H).
  assert (Htt : JsString.trim (JsString.trim (finalTranscriptRef w)) <> "")
    by (rewrite trim_idem; exact H).
  unfold silenceCallback, setFinalTranscriptRef, setHasSpokenContent.
  handler. rewrite Ht, He. cbn.
  match goal with
  | |- context [handleUserInput env ?i ?x] =>
      change (snd (handleUserInput env i x)) with (exec (handleUserInput env i) x);
      rewrite (handleUserInput_submits env i x Htt)
  end. same_world.
Qed.

Lemma fetches_stop_prefix w :
  flat_map (fun e => match e with Fetch r => [r] | _ => [] end)
    (if recognitionRef w then log w ++ [RecognitionStop] else log w)%list
  = fetches w.
Proof.
  unfold fetches. destruct (recognitionRef w); [|reflexivity].
  apply fetches_snoc_other. exact I.
Qed.

Lemma pending_cleared t l :
  existsb (fun x => Pos.eqb (tid x) t) (cleared (Some t) l) = false.
Proof. apply existsb_filter_out. Qed.

(** X1.  With an empty or white-space-only buffer, [stopListening] submits
    nothing: no backend call, no message, the processing flag and the buffer
    stay as they are.  It still leaves the listening flag false and cancels
    the recorded silence timer. *)
Theorem stop_with_blank_buffer (env : State) (w : World) :
  JsString.trim (finalTranscriptRef w) = "" ->
  let w' := exec (stopListening env) w in
  fetches w' = fetches w
  /\ inflight w' = inflight w
  /\ messages (st w') = messages (st w)
  /\ isProcessing (st w') = isProcessing (st w)
  /\ finalTranscriptRef w' = finalTranscriptRef w
  /\ isListening (st w') = false
  /\ (forall t, silenceTimer env = Some t -> pending t w' = false).
Proof.
  intros H w'. subst w'. rewrite (stopListening_blank env w H).
  split; [apply fetches_stop_prefix|].
  split; [reflexivity|].
  split; [destruct (silenceTimer env); reflexivity|].
  split; [destruct (silenceTimer env); reflexivity|].
  split; [reflexivity|].
  split; [destruct (silenceTimer env); reflexivity|].
  intros t Ht. unfold pending. cbn. rewrite Ht. apply pending_cleared.
Qed.

Lemma stop_with_blank_buffer_witness :
  JsString.trim (finalTranscriptRef listeningIdle) = ""
  /\ fetches (exec (stopListening (st listeningIdle)) listeningIdle) = []
  /\ isListening (st (exec (stopListening (st listeningIdle)) listeningIdle)) = false.
Proof.
  assert (H : JsString.trim (finalTranscriptRef listeningIdle) = "")
    by (vm_compute; reflexivity).
  destruct (stop_with_blank_buffer (st listeningIdle) listeningIdle H)
    as (Hf & _ & _ & _ & _ & Hl & _).
  split; [exact H|]. split; [rewrite Hf; vm_compute; reflexivity | exact Hl].
Defined.

(** X2.  A buffer with text leads to exactly one request when a stop and
    the callback of a silence timer both run, in either order.  When the
    stop runs first it submits and the callback finds the buffer empty.  When
    the callback runs first and its closure holds [hasSpokenContent = true],
    it submits, with the log it captured, and the stop finds the buffer
    empty; when its closure holds [false] it submits nothing and the stop
    submits.  The request carries the trimmed buffer, and the buffer is
    empty afterwards. *)
Theorem buffer_is_flushed_once (env env' : State) (w : World) :
  JsString.trim (finalTranscriptRef w) <> "" ->
  let turn := JsString.trim (finalTranscriptRef w) in
  fetches (exec (stopListening env) w)
  = (fetches w ++ [mkChatRequest turn (messages env) "normal"])%list
  /\ fetches (exec (silenceCallback env') (exec (stopListening env) w))
     = fetches (exec (stopListening env) w)
  /\ fetches (exec (silenceCallback env') w)
     = (if hasSpokenContent env'
        then (fetches w ++ [mkChatRequest turn (messages env') "normal"])%list
        else fetches w)
  /\ fetches (exec (stopListening env) (exec (silenceCallback env') w))
     = (fetches w
        ++ [mkChatRequest turn
              (if hasSpokenContent env' then messages env' else messages env)
              "normal"])%list
  /\ finalTranscriptRef (exec (silenceCallback env') (exec (stopListening env) w)) = ""
  /\ finalTranscriptRef (exec (stopListening env) (exec (silenceCallback env') w)) = "".
Proof.
  intros H turn.
  assert (E1 : exec (silenceCallback env') (exec (stopListening env) w)
               = exec (stopListening env) w).
  { apply silenceCallback_blank. rewrite (stopListening_flush env w H). exact trim_empty. }
  rewrite E1.
  assert (F1 : fetches (exec (stopListening env) w)
               = (fetches w ++ [mkChatRequest turn (messages env) "normal"])%list).
  { rewrite (stopListening_flush env w H). unfold fetches at 1. cbn.
    rewrite flat_map_app, fetches_stop_prefix. reflexivity. }
  split; [exact F1|]. split; [reflexivity|].
  destruct (hasSpokenContent env') eqn:He.
  - rewrite (silenceCallback_submits env' w He H).
    split; [unfold fetches at 1; cbn; apply flat_fetch_snoc|].
    match goal with
    | |- context [exec (stopListening env) ?x] =>
        rewrite (stopListening_blank env x trim_empty)
    end.
    split; [|split; [rewrite (stopListening_flush env w H)|]; reflexivity].
    unfold fetches at 1. cbn.
    destruct (recognitionRef w); cbn;
      rewrite ?flat_map_app; cbn; rewrite ?app_nil_r; reflexivity.
  - rewrite (silenceCallback_skips env' w He).
    split; [reflexivity|].
    split; [exact F1|]. rewrite (stopListening_flush env w H). split; reflexivity.
Qed.

Lemma buffer_is_flushed_once_witness :
  (JsString.trim (finalTranscriptRef listeningWithBuffer) <> ""
   /\ map callback (silenceTimers listeningWithBuffer)
      = [SilenceCb (active listeningWithBuffer)]
   /\ hasSpokenContent (active listeningWithBuffer) = false)
  /\ fetches (exec (silenceCallback (active listeningWithBuffer))
                (exec (stopListening (st listeningWithBuffer)) listeningWithBuffer))
     = [mkChatRequest "good morning" [] "normal"]
  /\ fetches (exec (silenceCallback (active listeningWithBuffer)) listeningWithBuffer) = []
  /\ fetches (exec (stopListening (st listeningWithBuffer))
                (exec (silenceCallback (active listeningWithBuffer)) listeningWithBuffer))
     = [mkChatRequest "good morning" [] "normal"].
Proof.
  assert (H : JsString.trim (finalTranscriptRef listeningWithBuffer) <> "")
    by (vm_compute; discriminate).
  assert (Hc : map callback (silenceTimers listeningWithBuffer)
               = [SilenceCb (active listeningWithBuffer)]) by (vm_compute; reflexivity).
  assert (He : hasSpokenContent (active listeningWithBuffer) = false)
    by (vm_compute; reflexivity).
  split; [exact (conj H (conj Hc He))|].
  destruct (buffer_is_flushed_once (st listeningWithBuffer) (active listeningWithBuffer)
              listeningWithBuffer H) as (H1 & H2 & H3 & H4 & _).
  split; [rewrite H2, H1; vm_compute; reflexivity|].
  split; [rewrite H3; vm_compute; reflexivity|].
  rewrite H4. vm_compute. reflexivity.
Defined.

(* ===================================================================== *)
(** ** More on the silence timer and the commit of a render *)
(* ===================================================================== *)

Lemma filter_silence_snoc l t :
  isSilence t = false -> filter isSilence (l ++ [t])%list = filter isSilence l.
Proof. intros H. rewrite filter_app. cbn. rewrite H. apply app_nil_r. Qed.

(** The commit that follows a task which changed a dependency: whatever
    silence timer the previous render had recorded is gone. *)
Lemma commit_cancels_tracked w1 next l :
  recognitionRef w1 = true ->
  depsChanged (installed w1) (st w1) = true ->
  timersTracked (silenceTimer (installed w1)) next l = true ->
  filter isSilence (timers w1) = filter isSilence l ->
  silenceTimers (exec rerender w1) = []
  /\ st (exec rerender w1) = st w1
  /\ finalTranscriptRef (exec rerender w1) = finalTranscriptRef w1
  /\ fetches (exec rerender w1) = fetches w1
  /\ inflight (exec rerender w1) = inflight w1.
Proof.
  intros Hr Hc Ht Hs. rewrite (rerender_changed w1 Hc Hr).
  split.
  { unfold silenceTimers. cbn. rewrite filter_cleared, Hs, <- filter_cleared.
    apply (tracked_cleared _ next). exact Ht. }
  split; [reflexivity|]. split; [reflexivity|].
  split; [|reflexivity].
  unfold fetches. cbn. rewrite !flat_map_app. cbn.
  destruct (synthRef w1); cbn; rewrite ?app_nil_r; reflexivity.
Qed.

Lemma deps_isProcessing a b :
  depsChanged a b = false -> isProcessing a = isProcessing b.
Proof.
  unfold depsChanged. intros H. apply negb_false_iff in H.
  apply andb_prop in H as [H _]. apply andb_prop in H as [H _].
  apply andb_prop in H as [_ H]. apply Bool.eqb_prop. exact H.
Qed.

Lemma depsChanged_processing a b :
  isProcessing a = negb (isProcessing b) -> depsChanged a b = true.
Proof.
  intros H. unfold depsChanged. rewrite H.
  destruct (isProcessing b); cbn; rewrite ?andb_false_r; reflexivity.
Qed.

(** X3.  A final segment heard by handlers that captured
    [hasSpokenContent = false] (those of the recognition object started on
    the mounted component did), in a state whose only pending silence timer
    is the recorded one, is never submitted by its own silence timer: when the timer fires three seconds later no backend call
    is made, the segment stays in the buffer and no silence timer is left to
    submit it. *)
Theorem first_segment_waits (w : World) (d : nat) (event : SpeechRecognitionEvent) :
  settled w = true ->
  hasSpokenContent (active w) = false ->
  finalOnly event = true ->
  exists w1 w2,
    run [EvElapse d; EvResult event] w = Some w1
    /\ map tid (silenceTimers w1) = [nextTimer w]
    /\ run [EvElapse 3000; EvTimer (nextTimer w)] w1 = Some w2
    /\ fetches w2 = fetches w
    /\ finalTranscriptRef w2 = finalTranscriptRef w ++ finalText event
    /\ silenceTimers w2 = [].
Proof.
  intros Hs He Hf.
  destruct (arrival_step w d event Hs Hf)
    as (w1 & Hrun & Hs1 & _ & _ & _ & Href & Hfe & _ & Hsil & Hfind).
  destruct (settled_parts w1 Hs1) as (_ & Hd1 & _ & _).
  exists w1, (with_timers (filter (fun t => negb (Pos.eqb (tid t) (nextTimer w))) (timers w1))
                (with_now (now w1 + 3000) w1)).
  split; [exact Hrun|]. split; [rewrite Hsil; reflexivity|].
  split.
  { cbn [run]. rewrite (step_elapse w1 3000 Hd1).
    assert (Hdis : dispatch (EvTimer (nextTimer w)) (with_now (now w1 + 3000) w1)
                   = Some (with_timers
                             (filter (fun t => negb (Pos.eqb (tid t) (nextTimer w)))
                                (timers w1))
                             (with_now (now w1 + 3000) w1))).
    { unfold dispatch. cbn [timers with_now]. rewrite Hfind.
      cbn [due now with_now callback]. rewrite Nat.leb_refl.
      unfold runCallback, clearTimeout. handler.
      match goal with
      | |- context [silenceCallback (active w) ?x] =>
          change (snd (silenceCallback (active w) x))
            with (exec (silenceCallback (active w)) x);
          rewrite (silenceCallback_skips (active w) x He)
      end. reflexivity. }
    unfold step. rewrite Hdis.
    rewrite rerender_unchanged; [reflexivity | exact Hd1]. }
  split; [exact Hfe|]. split; [exact Href|].
  unfold silenceTimers. cbn. rewrite filter_filter_comm.
  unfold silenceTimers in Hsil. rewrite Hsil. cbn. rewrite Pos.eqb_refl. reflexivity.
Qed.

Lemma first_segment_waits_witness :
  (settled listeningIdle = true
   /\ hasSpokenContent (active listeningIdle) = false
   /\ finalOnly (mkEvent [mkResult true "Hello, how are you"] 0) = true)
  /\ exists w1 w2,
      run [EvElapse 500; EvResult (mkEvent [mkResult true "Hello, how are you"] 0)]
        listeningIdle = Some w1
      /\ run [EvElapse 3000; EvTimer (nextTimer listeningIdle)] w1 = Some w2
      /\ fetches w2 = []
      /\ finalTranscriptRef w2 = "Hello, how are you".
Proof.
  assert (H1 : settled listeningIdle = true) by (vm_compute; reflexivity).
  assert (H2 : hasSpokenContent (active listeningIdle) = false)
    by (vm_compute; reflexivity).
  assert (H3 : finalOnly (mkEvent [mkResult true "Hello, how are you"] 0) = true)
    by (vm_compute; reflexivity).
  split; [exact (conj H1 (conj H2 H3))|].
  destruct (first_segment_waits listeningIdle 500 _ H1 H2 H3)
    as (w1 & w2 & Hr1 & _ & Hr2 & Hf & Href & _).
  exists w1, w2. split; [exact Hr1|]. split; [exact Hr2|].
  split; [rewrite Hf | rewrite Href]; vm_compute; reflexivity.
Defined.

(** X4.  A result callback without final text (interim text only), handled
    by handlers whose closure captured [silenceTimer = null] (those of the
    recognition object started on the mounted component did), changes
    nothing but the transcript on display: the test of line 166 fails, so
    every pending timer stays pending, the silence timer the state records
    included, and nothing is submitted. *)
Theorem interim_segment_leaves_timers (w : World) (event : SpeechRecognitionEvent) :
  recognitionRef w = true ->
  depsChanged (installed w) (st w) = false ->
  silenceTimer (active w) = None ->
  finalText event = "" ->
  step (EvResult event) w
  = Some (with_st (set_transcript (finalTranscriptRef w ++ interimText event)) w).
Proof.
  intros Hr Hd Ha Hf.
  assert (E : exec (onresult (active w) event) w
              = with_st (set_transcript (finalTranscriptRef w ++ interimText event)) w).
  { unfold onresult, clearTimeout, setSilenceTimer, setTranscript. handler.
    rewrite Hf, Ha. cbn. destruct (JsString.truthy (interimText event)); reflexivity. }
  unfold step, dispatch. rewrite Hr, E.
  rewrite rerender_unchanged; [reflexivity | exact Hd].
Qed.

Lemma interim_segment_leaves_timers_witness :
  (recognitionRef listeningWithBuffer = true
   /\ depsChanged (installed listeningWithBuffer) (st listeningWithBuffer) = false
   /\ silenceTimer (active listeningWithBuffer) = None
   /\ finalText (mkEvent [mkResult false "and then"] 0) = ""
   /\ map tid (silenceTimers listeningWithBuffer) = [1%positive])
  /\ exists w',
      step (EvResult (mkEvent [mkResult false "and then"] 0)) listeningWithBuffer = Some w'
      /\ map tid (silenceTimers w') = [1%positive]
      /\ silenceTimer (st w') = Some 1%positive
      /\ transcript (st w') = "good morning and then".
Proof.
  assert (H1 : recognitionRef listeningWithBuffer = true) by (vm_compute; reflexivity).
  assert (H2 : depsChanged (installed listeningWithBuffer) (st listeningWithBuffer) = false)
    by (vm_compute; reflexivity).
  assert (H3 : silenceTimer (active listeningWithBuffer) = None)
    by (vm_compute; reflexivity).
  assert (H4 : finalText (mkEvent [mkResult false "and then"] 0) = "") by reflexivity.
  assert (H5 : map tid (silenceTimers listeningWithBuffer) = [1%positive])
    by (vm_compute; reflexivity).
  split; [exact (conj H1 (conj H2 (conj H3 (conj H4 H5))))|].
  eexists. split; [exact (interim_segment_leaves_timers listeningWithBuffer _ H1 H2 H3 H4)|].
  split; [vm_compute; reflexivity|]. split; vm_compute; reflexivity.
Defined.

(** X5.  An engine start event that arrives while final text is buffered
    discards it:
    [onstart] empties the buffer and resets [hasSpokenContent], the commit
    cancels the recorded silence timer, and nothing is submitted. *)
Theorem start_event_discards_buffer (w : World) :
  settled w = true ->
  hasSpokenContent (st w) = true ->
  exists w',
    step EvStart w = Some w'
    /\ finalTranscriptRef w' = ""
    /\ silenceTimers w' = []
    /\ fetches w' = fetches w
    /\ messages (st w') = messages (st w)
    /\ hasSpokenContent (st w') = false
    /\ isListening (st w') = true.
Proof.
  intros Hs Hsp. destruct (settled_parts w Hs) as (Hr & Hd & Ht & _).
  set (w1 := exec onstart w).
  assert (Hc : depsChanged (installed w1) (st w1) = true).
  { apply depsChanged_spoken. cbn. rewrite (deps_hasSpokenContent _ _ Hd). exact Hsp. }
  destruct (commit_cancels_tracked w1 (nextTimer w) (timers w) Hr Hc Ht eq_refl)
    as (H1 & H2 & H3 & H4 & _).
  exists (exec rerender w1).
  split; [unfold step, dispatch; rewrite Hr; reflexivity|].
  split; [rewrite H3; reflexivity|]. split; [exact H1|]. split; [rewrite H4; reflexivity|].
  rewrite H2. repeat split.
Qed.

Lemma start_event_discards_buffer_witness :
  (settled listeningWithBuffer = true
   /\ hasSpokenContent (st listeningWithBuffer) = true
   /\ finalTranscriptRef listeningWithBuffer = "good morning "
   /\ map tid (silenceTimers listeningWithBuffer) = [1%positive])
  /\ exists w',
      step EvStart listeningWithBuffer = Some w'
      /\ finalTranscriptRef w' = ""
      /\ silenceTimers w' = []
      /\ fetches w' = [].
Proof.
  assert (H1 : settled listeningWithBuffer = true) by (vm_compute; reflexivity).
  assert (H2 : hasSpokenContent (st listeningWithBuffer) = true)
    by (vm_compute; reflexivity).
  split.
  { split; [exact H1|]. split; [exact H2|]. split; vm_compute; reflexivity. }
  destruct (start_event_discards_buffer listeningWithBuffer H1 H2)
    as (w' & Hstep & Href & Hsil & Hf & _).
  exists w'. split; [exact Hstep|]. split; [exact Href|]. split; [exact Hsil|].
  rewrite Hf. vm_compute. reflexivity.
Defined.

(* ===================================================================== *)
(** ** When the backend call settles *)
(* ===================================================================== *)

Lemma settle_cases failure o w w' :
  settle failure (afterFetch o w) w = Some w' ->
  w' = failedWorld failure w
  \/ exists response usage,
       (exists status data,
          o = Responded status (Some data) /\ ok status = true
          /\ Js.getProp data "response" = Some response
          /\ Js.getProp data "usage" = Some usage)
       /\ ((Js.truthy usage = false /\ w' = answeredWorld response (costs (st w)) w)
           \/ (exists u, Js.truthy usage = true /\ readUsage usage = Some u
                         /\ w' = answeredWorld response
                                   (Cost.calculateCost u (costs (st w))) w)).
Proof.
  unfold afterFetch.
  destruct o as [|status [data|]]; cbn [settle];
    try (intros H; injection H as <-; left; reflexivity).
  2: { destruct (ok status); cbn [negb settle];
       intros H; injection H as <-; left; reflexivity. }
  destruct (ok status) eqn:Hok; cbn [negb settle];
    try (intros H; injection H as <-; left; reflexivity).
  destruct (Js.getProp data "response") as [response|] eqn:Hresp; cbn [settle];
    try (intros H; injection H as <-; left; reflexivity).
  destruct (Js.getProp data "usage") as [usage|] eqn:Hus; cbn [settle];
    try (intros H; injection H as <-; left; reflexivity).
  destruct (Js.truthy usage) eqn:Htr.
  - destruct (readUsage usage) as [u|] eqn:Hu; cbn [settle]; [|discriminate].
    intros H; injection H as <-. right. exists response, usage.
    split; [exists status, data; repeat split; assumption|].
    right. exists u. split; [exact Htr|]. split; [exact Hu | reflexivity].
  - cbn [settle]. intros H; injection H as <-. right. exists response, usage.
    split; [exists status, data; repeat split; assumption|].
    left. split; [exact Htr | reflexivity].
Qed.

Lemma settle_defined failure o w :
  plainOutcome o = true -> exists w', settle failure (afterFetch o w) w = Some w'.
Proof.
  unfold plainOutcome, afterFetch, numericUsage.
  destruct o as [|status [data|]]; cbn [settle]; try (intros _; eexists; reflexivity).
  2: { destruct (ok status); cbn [negb settle]; intros _; eexists; reflexivity. }
  destruct (ok status); cbn [negb orb settle]; [|intros _; eexists; reflexivity].
  destruct (Js.getProp data "response") as [response|]; cbn [settle];
    [|intros _; eexists; reflexivity].
  destruct (Js.getProp data "usage") as [usage|]; cbn [settle];
    [|intros _; eexists; reflexivity].
  destruct (Js.truthy usage); cbn [negb orb settle];
    [|intros _; eexists; reflexivity].
  destruct (readUsage usage); cbn [settle]; [intros _; eexists; reflexivity|].
  rewrite andb_false_r. discriminate.
Qed.

Lemma plain_reply status data response usage :
  plainOutcome (Responded status (Some data)) = true ->
  ok status = true ->
  Js.getProp data "response" = Some response ->
  Js.getProp data "usage" = Some usage ->
  renderable response = true.
Proof.
  unfold plainOutcome. intros H Hok Hr Hu. rewrite Hok, Hr, Hu in H.
  cbn [negb orb] in H. apply andb_prop in H as [H _]. exact H.
Qed.

(** X6.  Take a backend call that settles with a failure, or with a success
    body whose reply React can render and whose usage, if it is read, holds
    no string, array or object in its three fields.  The rest of either
    async function then runs to its end, releases the processing flag and
    leaves the capture side alone: the transcript buffer, the listening
    flag, [silenceTimer], [hasSpokenContent] and the pending silence timers
    are as before, and no backend call is made.  Either the error hook is
    set, and the log, the costs and the timers are untouched; or the error
    hook is untouched, exactly one assistant message is appended to the log
    as it is at that moment, and its content is scheduled for playback
    100 ms later. *)
Theorem settling_releases_processing (o : FetchOutcome) (w : World) :
  plainOutcome o = true ->
  exists w1 w2,
    handleUserInput_resume o w = Some w1
    /\ requestIELTSScore_resume o w = Some w2
    /\ forall w', w' = w1 \/ w' = w2 ->
         isProcessing (st w') = false
         /\ finalTranscriptRef w' = finalTranscriptRef w
         /\ isListening (st w') = isListening (st w)
         /\ silenceTimer (st w') = silenceTimer (st w)
         /\ hasSpokenContent (st w') = hasSpokenContent (st w)
         /\ silenceTimers w' = silenceTimers w
         /\ fetches w' = fetches w
         /\ ((messages (st w') = messages (st w) /\ timers w' = timers w
              /\ costs (st w') = costs (st w)
              /\ (error (st w') = "Failed to process your request. Please try again."
                  \/ error (st w') = "Failed to get IELTS score. Please try again."))
             \/ (exists response,
                   renderable response = true
                   /\ error (st w') = error (st w)
                   /\ messages (st w')
                      = (messages (st w) ++ [mkMessage assistant response (now w)])%list
                   /\ timers w'
                      = (timers w
                         ++ [mkTimer (nextTimer w) 100 (now w + 100)
                               (SpeakCb response)])%list)).
Proof.
  intros Hplain.
  destruct (settle_defined "Failed to process your request. Please try again." o w Hplain)
    as [w1 H1].
  destruct (settle_defined "Failed to get IELTS score. Please try again." o w Hplain)
    as [w2 H2].
  exists w1, w2. split; [exact H1|]. split; [exact H2|].
  intros w' Hw.
  assert (Hc : exists failure,
             (failure = "Failed to process your request. Please try again."
              \/ failure = "Failed to get IELTS score. Please try again.")
             /\ settle failure (afterFetch o w) w = Some w').
  { destruct Hw as [-> | ->]; eexists; (split; [|eassumption]); [left | right]; reflexivity. }
  destruct Hc as (failure & Hfail & Hs).
  destruct (settle_cases failure o w w' Hs)
    as [-> | (response & usage & (status & data & -> & Hok & Hresp & Hus)
              & [[_ ->] | (u & _ & _ & ->)])].
  - repeat (split; [reflexivity|]).
    left. repeat (split; [reflexivity|]). exact Hfail.
  - repeat (split; [reflexivity|]).
    split; [unfold silenceTimers; cbn; apply filter_silence_snoc; reflexivity|].
    split; [reflexivity|].
    right. exists response.
    split; [exact (plain_reply _ _ _ _ Hplain Hok Hresp Hus)|]. repeat split.
  - repeat (split; [reflexivity|]).
    split; [unfold silenceTimers; cbn; apply filter_silence_snoc; reflexivity|].
    split; [reflexivity|].
    right. exists response.
    split; [exact (plain_reply _ _ _ _ Hplain Hok Hresp Hus)|]. repeat split.
Qed.

Lemma settling_releases_processing_witness :
  plainOutcome NetworkError = true
  /\ exists w1,
      handleUserInput_resume NetworkError helloSubmitted = Some w1
      /\ isProcessing (st w1) = false
      /\ fetches w1 = fetches helloSubmitted.
Proof.
  split; [reflexivity|].
  destruct (settling_releases_processing NetworkError helloSubmitted eq_refl)
    as (w1 & w2 & H1 & _ & H).
  destruct (H w1 (or_introl eq_refl)) as (Hp & _ & _ & _ & _ & _ & Hf & _).
  exists w1. split; [exact H1|]. split; [exact Hp | exact Hf].
Defined.

(** X7.  Take a component with speech recognition between two tasks, whose
    processing flag is set and whose only pending silence timer is the one
    its state records, and let a pending call settle in one of the ways of
    X6.  The commit that follows ([isProcessing] is a dependency of the
    effect) cancels that silence timer: text buffered during the request
    keeps its place in the buffer but no silence timer is left to submit
    it. *)
Theorem settling_cancels_silence_timer
    (n : nat) (o : FetchOutcome) (c : Caller) (req : ChatRequest) (w : World) :
  settled w = true ->
  isProcessing (st w) = true ->
  nth_error (inflight w) n = Some (c, req) ->
  plainOutcome o = true ->
  exists w',
    step (EvSettle n o) w = Some w'
    /\ silenceTimers w' = []
    /\ finalTranscriptRef w' = finalTranscriptRef w
    /\ isProcessing (st w') = false
    /\ fetches w' = fetches w.
Proof.
  intros Hs Hp Hn Hplain. destruct (settled_parts w Hs) as (Hr & Hd & Ht & _).
  set (w0 := with_inflight (removeNth n (inflight w)) w).
  assert (Hres : exists failure w1,
             settle failure (afterFetch o w0) w0 = Some w1
             /\ step (EvSettle n o) w = Some (exec rerender w1)).
  { unfold step, dispatch. rewrite Hn. fold w0.
    destruct c.
    - destruct (settle_defined "Failed to process your request. Please try again."
                  o w0 Hplain) as [w1 E].
      exists "Failed to process your request. Please try again.", w1.
      split; [exact E|]. unfold handleUserInput_resume. rewrite E. reflexivity.
    - destruct (settle_defined "Failed to get IELTS score. Please try again."
                  o w0 Hplain) as [w1 E].
      exists "Failed to get IELTS score. Please try again.", w1.
      split; [exact E|]. unfold requestIELTSScore_resume. rewrite E. reflexivity. }
  destruct Hres as (failure & w1 & Hset & Hstep).
  exists (exec rerender w1). split; [exact Hstep|].
  assert (Hpi : isProcessing (installed w) = true)
    by (rewrite (deps_isProcessing _ _ Hd); exact Hp).
  assert (Hw1 : recognitionRef w1 = true
                /\ depsChanged (installed w1) (st w1) = true
                /\ installed w1 = installed w
                /\ filter isSilence (timers w1) = filter isSilence (timers w)
                /\ finalTranscriptRef w1 = finalTranscriptRef w
                /\ isProcessing (st w1) = false
                /\ fetches w1 = fetches w).
  { destruct (settle_cases failure o w0 w1 Hset)
      as [-> | (response & usage & _ & [[_ ->] | (u & _ & _ & ->)])];
      (split; [exact Hr|]);
      (split; [apply depsChanged_processing; cbn; exact Hpi|]);
      (split; [reflexivity|]);
      (split; [cbn; try apply filter_silence_snoc; reflexivity|]);
      repeat split. }
  destruct Hw1 as (Hr1 & Hc1 & Hi1 & Hf1 & Href1 & Hp1 & Hfe1).
  rewrite <- Hi1 in Ht.
  destruct (commit_cancels_tracked w1 (nextTimer w) (timers w) Hr1 Hc1 Ht Hf1)
    as (H1 & H2 & H3 & H4 & _).
  split; [exact H1|]. split; [rewrite H3; exact Href1|].
  split; [rewrite H2; exact Hp1|]. rewrite H4. exact Hfe1.
Qed.

Lemma settling_cancels_silence_timer_witness :
  (settled busyWithSpeech = true
   /\ isProcessing (st busyWithSpeech) = true
   /\ nth_error (inflight busyWithSpeech) 0
      = Some (InHandleUserInput, mkChatRequest "how are you" [] "normal")
   /\ plainOutcome (Responded 500 None) = true
   /\ map tid (silenceTimers busyWithSpeech) = [4%positive]
   /\ finalTranscriptRef busyWithSpeech = "and the weather")
  /\ exists w',
      step (EvSettle 0 (Responded 500 None)) busyWithSpeech = Some w'
      /\ silenceTimers w' = []
      /\ finalTranscriptRef w' = "and the weather".
Proof.
  assert (H1 : settled busyWithSpeech = true) by (vm_compute; reflexivity).
  assert (H2 : isProcessing (st busyWithSpeech) = true) by (vm_compute; reflexivity).
  assert (H3 : nth_error (inflight busyWithSpeech) 0
               = Some (InHandleUserInput, mkChatRequest "how are you" [] "normal"))
    by (vm_compute; reflexivity).
  assert (H4 : map tid (silenceTimers busyWithSpeech) = [4%positive])
    by (vm_compute; reflexivity).
  assert (H5 : finalTranscriptRef busyWithSpeech = "and the weather")
    by (vm_compute; reflexivity).
  split; [exact (conj H1 (conj H2 (conj H3 (conj eq_refl (conj H4 H5)))))|].
  destruct (settling_cancels_silence_timer 0 (Responded 500 None) _ _ busyWithSpeech
              H1 H2 H3 eq_refl) as (w' & Hstep & Hs & Hr & _).
  exists w'. split; [exact Hstep|].
  split; [exact Hs | rewrite Hr; exact H5].
Defined.

(** X8.  A success response whose reply React can render and whose body
    has no usage (the key is missing, or its value is null, false, 0 or the
    empty string) is still a success: the reply is appended and scheduled
    for playback, the processing flag is released, no error is set, and the
    five cost totals are untouched. *)
Theorem answer_without_usage
    (status : nat) (data response usage : JsValue) (w : World) :
  ok status = true ->
  Js.getProp data "response" = Some response ->
  renderable response = true ->
  Js.getProp data "usage" = Some usage ->
  Js.truthy usage = false ->
  exists w',
    handleUserInput_resume (Responded status (Some data)) w = Some w'
    /\ costs (st w') = costs (st w)
    /\ messages (st w') = (messages (st w) ++ [mkMessage assistant response (now w)])%list
    /\ timers w'
       = (timers w ++ [mkTimer (nextTimer w) 100 (now w + 100) (SpeakCb response)])%list
    /\ error (st w') = error (st w)
    /\ isProcessing (st w') = false.
Proof.
  intros Hok Hr Hrend Hu Ht.
  unfold handleUserInput_resume, afterFetch. rewrite Hok, Hr, Hu, Ht. cbn [negb settle].
  eexists. split; [reflexivity|]. repeat split.
Qed.

Lemma answer_without_usage_witness :
  (ok 200 = true
   /\ Js.getProp (JObject [("response", JString "Fine, thanks.")]) "response"
      = Some (JString "Fine, thanks.")
   /\ renderable (JString "Fine, thanks.") = true
   /\ Js.getProp (JObject [("response", JString "Fine, thanks.")]) "usage"
      = Some JUndefined
   /\ Js.truthy JUndefined = false)
  /\ exists w',
      handleUserInput_resume
        (Responded 200 (Some (JObject [("response", JString "Fine, thanks.")])))
        helloSubmitted = Some w'
      /\ costs (st w') = Cost.zero
      /\ map content (messages (st w')) = [JString "hello"; JString "Fine, thanks."].
Proof.
  split; [repeat split|].
  destruct (answer_without_usage 200 (JObject [("response", JString "Fine, thanks.")])
              (JString "Fine, thanks.") JUndefined helloSubmitted
              eq_refl eq_refl eq_refl eq_refl eq_refl) as (w' & H1 & H2 & H3 & _).
  exists w'. split; [exact H1|]. split; [rewrite H2 | rewrite H3]; reflexivity.
Defined.

(* ===================================================================== *)
(** ** The score request, the restart after an error, a browser without
       recognition *)
(* ===================================================================== *)

(** X10.  With a non-empty log, [requestIELTSScore] issues exactly one
    backend call with an empty message, the captured log as history and the
    type [ielts_score], and adds no user message to the log.  If that call
    fails, the error "Failed to get IELTS score. Please try again." is set,
    the log is still what it was before the request and the processing flag
    is released. *)
Theorem score_request_failure (o : FetchOutcome) (env : State) (w : World) :
  messages env <> [] ->
  isFailure o = true ->
  let w1 := exec (requestIELTSScore env) w in
  fetches w1 = (fetches w ++ [mkChatRequest "" (messages env) "ielts_score"])%list
  /\ inflight w1
     = (inflight w ++ [(InRequestIELTSScore, mkChatRequest "" (messages env) "ielts_score")])%list
  /\ isProcessing (st w1) = true
  /\ messages (st w1) = messages (st w)
  /\ exists w2,
      requestIELTSScore_resume o w1 = Some w2
      /\ error (st w2) = "Failed to get IELTS score. Please try again."
      /\ messages (st w2) = messages (st w)
      /\ isProcessing (st w2) = false
      /\ fetches w2 = fetches w1
      /\ timers w2 = timers w.
Proof.
  intros Hne Hf w1.
  assert (E : w1 = with_inflight
                     (inflight w
                      ++ [(InRequestIELTSScore, mkChatRequest "" (messages env) "ielts_score")])
                     (with_log (log w ++ [Fetch (mkChatRequest "" (messages env) "ielts_score")])
                        (with_st (set_isProcessing true) w))).
  { unfold w1, requestIELTSScore, exec.
    destruct (messages env) eqn:Em; [congruence|]. reflexivity. }
  rewrite E.
  split; [unfold fetches; cbn; apply flat_fetch_snoc|].
  split; [reflexivity|]. split; [reflexivity|]. split; [reflexivity|].
  unfold requestIELTSScore_resume. rewrite (afterFetch_failure _ _ Hf).
  eexists. split; [reflexivity|]. repeat split.
Qed.

Lemma score_request_failure_witness :
  (messages (st secondTurnBegun) <> [] /\ isFailure (Responded 500 None) = true)
  /\ exists w2,
      requestIELTSScore_resume (Responded 500 None)
        (exec (requestIELTSScore (st secondTurnBegun)) secondTurnBegun) = Some w2
      /\ error (st w2) = "Failed to get IELTS score. Please try again."
      /\ messages (st w2) = messages (st secondTurnBegun).
Proof.
  assert (H1 : messages (st secondTurnBegun) <> []) by (vm_compute; discriminate).
  split; [split; [exact H1 | reflexivity]|].
  destruct (score_request_failure (Responded 500 None) (st secondTurnBegun)
              secondTurnBegun H1 eq_refl) as (_ & _ & _ & _ & w2 & Hr & He & Hm & _).
  exists w2. split; [exact Hr|]. split; [exact He | exact Hm].
Defined.

Lemma filter_below (next : TimerId) (l : list Timer) :
  (forall t, In t l -> (tid t < next)%positive) ->
  filter (fun t => negb (Pos.eqb (tid t) next)) l = l.
Proof.
  induction l as [|a l IH]; intros H; [reflexivity|].
  cbn. assert (Ha : (tid a < next)%positive) by (apply H; left; reflexivity).
  replace (Pos.eqb (tid a) next) with false by (symmetry; apply Pos.eqb_neq; lia).
  cbn. f_equal. apply IH. intros t Hin. apply H. right. exact Hin.
Qed.

(** X11.  After an engine error other than [network], [no-speech] and
    [aborted] the message is surfaced and a timer of 1000 ms is pending, but
    when that timer fires the engine is not started: its callback calls
    [startListening] only if the captured [isListening] is true, and
    [startListening] of the same render returns at once in that case.  No
    call reaches the engine and the error stays on display. *)
Theorem error_restart_never_starts (w : World) (code : string) :
  settled w = true ->
  code <> "network" -> code <> "no-speech" -> code <> "aborted" ->
  exists w1 w2,
    step (EvError code) w = Some w1
    /\ error (st w1) = "Speech recognition error: " ++ code
    /\ run [EvElapse 1000; EvTimer (nextTimer w)] w1 = Some w2
    /\ log w2 = log w
    /\ recognizing w2 = recognizing w
    /\ st w2 = st w1
    /\ timers w2 = timers w.
Proof.
  intros Hs H1 H2 H3. destruct (settled_parts w Hs) as (Hr & Hd & Ht & _).
  apply String.eqb_neq in H1, H2, H3.
  set (T := mkTimer (nextTimer w) 1000 (now w + 1000) (ErrorRestartCb (active w))).
  set (w1 := with_nextTimer (Pos.succ (nextTimer w))
               (with_timers (timers w ++ [T])
                  (with_st (set_error ("Speech recognition error: " ++ code)) w))).
  assert (E1 : exec (onerror (active w) code) w = w1).
  { unfold onerror, exec. rewrite H1, H2, H3. reflexivity. }
  assert (Hd1 : depsChanged (installed w1) (st w1) = false) by exact Hd.
  assert (Hfind : find (fun t => Pos.eqb (tid t) (nextTimer w)) (timers w ++ [T]) = Some T).
  { apply (find_fresh (timers w) T). intros t' Hin.
    apply (tracked_below _ _ _ _ Ht Hin). }
  assert (Hkeep : filter (fun t => negb (Pos.eqb (tid t) (nextTimer w))) (timers w ++ [T])
                  = timers w).
  { rewrite filter_app. cbn. rewrite Pos.eqb_refl. cbn. rewrite app_nil_r.
    apply filter_below. intros t' Hin. apply (tracked_below _ _ _ _ Ht Hin). }
  exists w1, (with_timers (timers w) (with_now (now w1 + 1000) w1)).
  split.
  { unfold step, dispatch. rewrite Hr, E1.
    rewrite rerender_unchanged; [reflexivity | exact Hd1]. }
  split; [reflexivity|].
  split.
  { cbn [run]. rewrite (step_elapse w1 1000 Hd1).
    assert (Hdis : dispatch (EvTimer (nextTimer w)) (with_now (now w1 + 1000) w1)
                   = Some (with_timers (timers w) (with_now (now w1 + 1000) w1))).
    { unfold dispatch. cbn [timers with_now w1 with_nextTimer with_timers].
      rewrite Hfind. cbn [due T now with_now callback].
      replace (now w + 1000 <=? now w1 + 1000)%nat with true
        by (symmetry; apply Nat.leb_le; cbn; lia).
      unfold runCallback, clearTimeout. handler.
      match goal with
      | |- context [errorRestartCallback (active w) ?x] =>
          change (snd (errorRestartCallback (active w) x))
            with (exec (errorRestartCallback (active w)) x);
          rewrite (errorRestartCallback_noop (active w) x)
      end.
      f_equal. same_world. }
    unfold step. rewrite Hdis.
    rewrite rerender_unchanged; [reflexivity | exact Hd1]. }
  repeat split.
Qed.

Lemma error_restart_never_starts_witness :
  settled listeningWithBuffer = true
  /\ exists w1 w2,
      step (EvError "audio-capture") listeningWithBuffer = Some w1
      /\ error (st w1) = "Speech recognition error: audio-capture"
      /\ run [EvElapse 1000; EvTimer (nextTimer listeningWithBuffer)] w1 = Some w2
      /\ log w2 = log listeningWithBuffer.
Proof.
  assert (H : settled listeningWithBuffer = true) by (vm_compute; reflexivity).
  split; [exact H|].
  destruct (error_restart_never_starts listeningWithBuffer "audio-capture" H
              ltac:(discriminate) ltac:(discriminate) ltac:(discriminate))
    as (w1 & w2 & Hs & He & Hr & Hl & _).
  exists w1, w2. split; [exact Hs|]. split; [exact He|]. split; [exact Hr | exact Hl].
Defined.

(** One task in a browser without speech recognition. *)
Lemma step_without_recognition (synth : bool) (e : Event) (t : nat) :
  exists t', step e (with_now t (mount false synth)) = Some (with_now t' (mount false synth)).
Proof.
  destruct synth, e as [ms| |event|code| |id|n o| |];
    try (exists t; reflexivity);
    try (exists (t + ms); reflexivity);
    try (exists t; destruct n; reflexivity).
Qed.

(** X12.  In a browser without speech recognition the component degrades
    and stays so: whatever the user, the timers, the engine or the network
    do, the capability error set at mount stays on display, the microphone
    never turns to listening, nothing is logged or scheduled and no backend
    call is made. *)
Theorem without_recognition_nothing_happens (synth : bool) (es : list Event) :
  exists w,
    run es (mount false synth) = Some w
    /\ error (st w) = "Sorry, your browser doesn't support Speech Recognition."
    /\ isListening (st w) = false
    /\ isProcessing (st w) = false
    /\ messages (st w) = []
    /\ timers w = []
    /\ fetches w = []
    /\ log w = [].
Proof.
  assert (G : forall es t, exists t',
             run es (with_now t (mount false synth))
             = Some (with_now t' (mount false synth))).
  { clear es. induction es as [|e es IH]; intros t; [exists t; reflexivity|].
    destruct (step_without_recognition synth e t) as [t1 H1].
    destruct (IH t1) as [t' H']. exists t'. cbn [run]. rewrite H1. exact H'. }
  destruct (G es 0) as [t' H].
  exists (with_now t' (mount false synth)).
  split; [destruct synth; exact H|].
  destruct synth; repeat split.
Qed.

(* ===================================================================== *)
(** ** More on the chat route *)
(* ===================================================================== *)

(** X13.  [POST] has three answers and no other: the success body with
    status 200, the error "Message is required" with status 400, and one
    generic error with status 500 for everything that throws (a body that is
    not JSON or is null, a null entry in the history, a failing model call):
    no detail of the failure reaches the client. *)
Theorem POST_has_three_answers
    (generateText : list Route.ChatMessage -> option Route.GenerateTextResult)
    (req : option JsValue) :
  (exists r, Route.POST generateText req = Route.mkResponse 200 (Route.successBody r))
  \/ Route.POST generateText req = Route.errorResponse 400 "Message is required"
  \/ Route.POST generateText req = serverError.
Proof.
  unfold Route.POST, serverError.
  destruct req as [parsed|]; [|right; right; reflexivity].
  destruct (Js.getProp parsed "message") as [message|]; [|right; right; reflexivity].
  destruct (Js.getProp parsed "conversationHistory") as [history|];
    [|right; right; reflexivity].
  destruct (Js.getProp parsed "requestType") as [requestType|];
    [|right; right; reflexivity].
  destruct (negb (Js.truthy message) && negb (Js.strictEqString requestType "ielts_score"));
    [right; left; reflexivity|].
  destruct (Route.historyMessages history) as [h|]; [|right; right; reflexivity].
  match goal with
  | |- context [generateText ?m] => destruct (generateText m) as [r|]
  end; [left; exists r; reflexivity | right; right; reflexivity].
Qed.

(** X14.  For a body that parses to something other than null, the answer
    is the 400 "Message is required" exactly when the message is missing or
    falsy (empty string, 0, null, false) and the request type is not the
    string [ielts_score]; the model is not consulted for it. *)
Theorem POST_message_required
    (generateText : list Route.ChatMessage -> option Route.GenerateTextResult)
    (parsed message history requestType : JsValue) :
  Js.getProp parsed "message" = Some message ->
  Js.getProp parsed "conversationHistory" = Some history ->
  Js.getProp parsed "requestType" = Some requestType ->
  (Route.status (Route.POST generateText (Some parsed)) = 400
   <-> Js.truthy message = false /\ Js.strictEqString requestType "ielts_score" = false)
  /\ (Js.truthy message = false -> Js.strictEqString requestType "ielts_score" = false ->
      forall g, Route.POST g (Some parsed) = Route.errorResponse 400 "Message is required").
Proof.
  intros Hm Hh Hr. split.
  - unfold Route.POST. rewrite Hm, Hh, Hr.
    destruct (Js.truthy message), (Js.strictEqString requestType "ielts_score");
      cbn [negb andb];
      try (split; [|intros [? ?]; try discriminate; reflexivity]);
      try (destruct (Route.historyMessages history) as [h|];
           [match goal with
            | |- context [generateText ?m] => destruct (generateText m)
            end|]; cbn; intros; discriminate).
    intros _. split; reflexivity.
  - intros Ht Hs g. unfold Route.POST. rewrite Hm, Hh, Hr, Ht, Hs. reflexivity.
Qed.

Lemma POST_message_required_witness :
  (Js.getProp (JObject [("message", JString "")]) "message" = Some (JString "")
   /\ Js.getProp (JObject [("message", JString "")]) "conversationHistory" = Some JUndefined
   /\ Js.getProp (JObject [("message", JString "")]) "requestType" = Some JUndefined)
  /\ Route.status (Route.POST cannedText (Some (JObject [("message", JString "")]))) = 400.
Proof.
  split; [repeat split|].
  destruct (POST_message_required cannedText (JObject [("message", JString "")])
              (JString "") JUndefined JUndefined eq_refl eq_refl eq_refl) as [H _].
  apply H. split; reflexivity.
Defined.

Lemma pushHistory_shape l : forall h,
  Route.pushHistory l = Some h ->
  length h = length l
  /\ Forall (fun m => Route.role m <> Route.system) h
  /\ Forall (fun v => v <> JNull /\ v <> JUndefined) l.
Proof.
  induction l as [|v l IH]; intros h H.
  - injection H as <-. repeat split; constructor.
  - cbn [Route.pushHistory] in H.
    destruct (Js.getProp v "role") as [r|] eqn:Er; [|discriminate].
    destruct (Js.getProp v "content") as [c|]; [|discriminate].
    destruct (Route.pushHistory l) as [tail|]; [|discriminate].
    injection H as <-. destruct (IH tail eq_refl) as (Hl & Hf & Hv).
    split; [cbn; rewrite Hl; reflexivity|].
    split.
    + constructor; [|exact Hf]. cbn. destruct (Js.strictEqString r "user"); discriminate.
    + constructor; [|exact Hv]. split; intros ->; discriminate.
Qed.

(** X15.  Whenever [POST] answers 200, the model was called with the system
    prompt first, then one message per entry of the history array, none of
    them with the role [system] (every role other than the string "user" is
    sent as [assistant]), and last a user message: the fixed scoring prompt
    for [ielts_score], the request's message otherwise.  A history that is
    not an array counts as empty. *)
Theorem POST_prompt_shape
    (generateText : list Route.ChatMessage -> option Route.GenerateTextResult)
    (req : option JsValue) :
  Route.status (Route.POST generateText req) = 200 ->
  exists parsed message history requestType hist r,
    req = Some parsed
    /\ Js.getProp parsed "message" = Some message
    /\ Js.getProp parsed "conversationHistory" = Some history
    /\ Js.getProp parsed "requestType" = Some requestType
    /\ generateText
         (Route.mkChatMessage Route.system (JString Route.SYSTEM_PROMPT)
          :: hist
          ++ [Route.mkChatMessage Route.user
                (if Js.strictEqString requestType "ielts_score"
                 then JString Route.IELTS_PROMPT else message)])%list
       = Some r
    /\ Route.POST generateText req = Route.mkResponse 200 (Route.successBody r)
    /\ Forall (fun m => Route.role m <> Route.system) hist
    /\ length hist = match history with JArray entries => length entries | _ => 0 end.
Proof.
  unfold Route.POST.
  destruct req as [parsed|]; [|discriminate].
  destruct (Js.getProp parsed "message") as [message|] eqn:Hm; [|discriminate].
  destruct (Js.getProp parsed "conversationHistory") as [history|] eqn:Hh; [|discriminate].
  destruct (Js.getProp parsed "requestType") as [requestType|] eqn:Hr; [|discriminate].
  destruct (negb (Js.truthy message) && negb (Js.strictEqString requestType "ielts_score"));
    [discriminate|].
  destruct (Route.historyMessages history) as [h|] eqn:Hhist; [|discriminate].
  match goal with
  | |- context [generateText ?m] => destruct (generateText m) as [r|] eqn:Hg
  end; [|discriminate].
  intros _. exists parsed, message, history, requestType, h, r.
  split; [reflexivity|]. split; [exact Hm|]. split; [exact Hh|]. split; [exact Hr|].
  split.
  { destruct (Js.strictEqString requestType "ielts_score"); exact Hg. }
  split; [reflexivity|].
  unfold Route.historyMessages in Hhist.
  destruct history; try (injection Hhist as <-; split; [constructor | reflexivity]).
  destruct (pushHistory_shape _ _ Hhist) as (Hl & Hf & _). split; assumption.
Qed.

Lemma POST_prompt_shape_witness :
  Route.status (Route.POST cannedText helloRequest) = 200
  /\ exists hist r,
      Route.POST cannedText helloRequest = Route.mkResponse 200 (Route.successBody r)
      /\ length hist = 0
      /\ Forall (fun m => Route.role m <> Route.system) hist.
Proof.
  split; [reflexivity|].
  destruct (POST_prompt_shape cannedText helloRequest eq_refl)
    as (parsed & message & history & requestType & hist & r
        & Hreq & _ & Hh & _ & _ & Hp & Hf & Hlen).
  unfold helloRequest in Hreq. injection Hreq as <-.
  cbn in Hh. injection Hh as <-.
  exists hist, r. split; [exact Hp|]. split; [exact Hlen | exact Hf].
Defined.

(** X16.  A history array with a null entry makes [POST] answer the generic
    500 without calling the model, provided the request passes the message
    check. *)
Theorem POST_null_history_entry
    (generateText : list Route.ChatMessage -> option Route.GenerateTextResult)
    (parsed message requestType : JsValue) (entries : list JsValue) :
  Js.getProp parsed "message" = Some message ->
  Js.getProp parsed "conversationHistory" = Some (JArray entries) ->
  Js.getProp parsed "requestType" = Some requestType ->
  Js.truthy message = true \/ Js.strictEqString requestType "ielts_score" = true ->
  In JNull entries ->
  Route.POST generateText (Some parsed) = serverError.
Proof.
  intros Hm Hh Hr Hpass Hin. unfold Route.POST. rewrite Hm, Hh, Hr.
  assert (Hc : negb (Js.truthy message) && negb (Js.strictEqString requestType "ielts_score")
               = false).
  { destruct Hpass as [-> | ->]; [reflexivity | apply andb_false_r]. }
  rewrite Hc. cbn [Route.historyMessages].
  destruct (Route.pushHistory entries) as [h|] eqn:E; [|reflexivity].
  destruct (pushHistory_shape _ _ E) as (_ & _ & Hv).
  rewrite Forall_forall in Hv. destruct (Hv JNull Hin) as [Hn _]. congruence.
Qed.

Lemma POST_null_history_entry_witness :
  Route.POST cannedText
    (Some (JObject [("message", JString "hi");
                    ("conversationHistory", JArray [JNull]);
                    ("requestType", JString "normal")]))
  = serverError.
Proof.
  apply (POST_null_history_entry cannedText _ (JString "hi") (JString "normal") [JNull]);
    try reflexivity; [left; reflexivity | left; reflexivity].
Defined.

(** *** From the client to the model *)

Lemma pushHistory_of_log toISOString (l : list Message) :
  Route.pushHistory
    (map (fun e => match e with JUndefined => JNull | _ => Route.wire e end)
       (map (Request.messageJson toISOString) l))
  = Some (map Request.pushed l).
Proof.
  induction l as [|m l IH]; [reflexivity|].
  cbn [map]. cbn [Route.pushHistory]. rewrite IH.
  unfold Request.messageJson at 1. unfold Request.pushed at 2.
  destruct m as [r c t]. cbn [role content timestamp].
  destruct r, c; reflexivity.
Qed.

Lemma parsed_request toISOString (r : ChatRequest) :
  Request.parsed toISOString r
  = Some (JObject
            [("message", JString (message r));
             ("conversationHistory",
              JArray (map (fun e => match e with JUndefined => JNull | _ => Route.wire e end)
                        (map (Request.messageJson toISOString) (conversationHistory r))));
             ("requestType", JString (requestType r))]).
Proof. reflexivity. Qed.

(** X17.  The request that [handleUserInput] sends for a turn is never
    refused by the route: once through [JSON.stringify] and [request.json()]
    it passes the message check, its history converts entry by entry with
    the roles kept, and the model is called with the system prompt, the
    captured log and the turn's text.  The answer is 200 when the model call
    resolves and the generic 500 when it rejects. *)
Theorem turn_reaches_the_model
    (toISOString : nat -> string)
    (generateText : list Route.ChatMessage -> option Route.GenerateTextResult)
    (env : State) (input : string) (w : World) :
  JsString.trim input <> "" ->
  exists req,
    fetches (exec (handleUserInput env input) w) = (fetches w ++ [req])%list
    /\ Route.POST generateText (Request.parsed toISOString req)
       = match generateText
                 (Route.mkChatMessage Route.system (JString Route.SYSTEM_PROMPT)
                  :: map Request.pushed (messages env)
                  ++ [Route.mkChatMessage Route.user (JString input)])%list with
         | Some r => Route.mkResponse 200 (Route.successBody r)
         | None => serverError
         end.
Proof.
  intros H. exists (mkChatRequest input (messages env) "normal").
  split.
  { rewrite (handleUserInput_submits env input w H). unfold fetches. cbn.
    apply flat_fetch_snoc. }
  assert (Hin : JsString.truthy input = true).
  { destruct input; [exfalso; apply H; reflexivity | reflexivity]. }
  rewrite parsed_request. unfold Route.POST.
  cbn [Js.getProp Js.assoc String.eqb Ascii.eqb Bool.eqb message conversationHistory
         requestType Js.truthy Js.strictEqString].
  rewrite Hin. cbn [negb andb Route.historyMessages].
  rewrite pushHistory_of_log. reflexivity.
Qed.

Lemma turn_reaches_the_model_witness :
  JsString.trim "hello" <> ""
  /\ exists req,
      fetches (exec (handleUserInput initialState "hello") (mount true true)) = [req]
      /\ Route.status (Route.POST cannedText (Request.parsed (fun _ => "") req)) = 200.
Proof.
  assert (H : JsString.trim "hello" <> "") by (vm_compute; discriminate).
  split; [exact H|].
  destruct (turn_reaches_the_model (fun _ => "") cannedText initialState "hello"
              (mount true true) H) as (req & Hf & Hp).
  exists req. split; [rewrite Hf; reflexivity | rewrite Hp; reflexivity].
Defined.

(** X18.  The score request that [requestIELTSScore] sends has an empty
    message, yet the route does not refuse it: the type [ielts_score] passes
    the message check, and the model is called with the system prompt, the
    captured log and the fixed scoring prompt as the last user message. *)
Theorem score_request_reaches_the_model
    (toISOString : nat -> string)
    (generateText : list Route.ChatMessage -> option Route.GenerateTextResult)
    (env : State) (w : World) :
  messages env <> [] ->
  exists req,
    fetches (exec (requestIELTSScore env) w) = (fetches w ++ [req])%list
    /\ message req = ""
    /\ Route.POST generateText (Request.parsed toISOString req)
       = match generateText
                 (Route.mkChatMessage Route.system (JString Route.SYSTEM_PROMPT)
                  :: map Request.pushed (messages env)
                  ++ [Route.mkChatMessage Route.user (JString Route.IELTS_PROMPT)])%list with
         | Some r => Route.mkResponse 200 (Route.successBody r)
         | None => serverError
         end.
Proof.
  intros H. exists (mkChatRequest "" (messages env) "ielts_score").
  split.
  { unfold requestIELTSScore, exec. destruct (messages env) eqn:E; [congruence|].
    unfold fetches. cbn. apply flat_fetch_snoc. }
  split; [reflexivity|].
  rewrite parsed_request. unfold Route.POST.
  cbn [Js.getProp Js.assoc String.eqb Ascii.eqb Bool.eqb message conversationHistory
         requestType Js.truthy Js.strictEqString JsString.truthy].
  cbn [negb andb Route.historyMessages].
  rewrite pushHistory_of_log. reflexivity.
Qed.

Lemma score_request_reaches_the_model_witness :
  messages (st secondTurnBegun) <> []
  /\ exists req,
      fetches (exec (requestIELTSScore (st secondTurnBegun)) secondTurnBegun)
      = (fetches secondTurnBegun ++ [req])%list
      /\ Route.status (Route.POST cannedText (Request.parsed (fun _ => "") req)) = 200.
Proof.
  assert (H : messages (st secondTurnBegun) <> []) by (vm_compute; discriminate).
  split; [exact H|].
  destruct (score_request_reaches_the_model (fun _ => "") cannedText
              (st secondTurnBegun) secondTurnBegun H) as (req & Hf & _ & Hp).
  exists req. split; [exact Hf | rewrite Hp; reflexivity].
Defined.

(* ===================================================================== *)
(** ** Utterance playback *)
(* ===================================================================== *)

Lemma updateNth_snoc {A : Type} (f : A -> A) (l : list A) (u : A) :
  Speech.updateNth (length l) f (l ++ [u])%list = (l ++ [f u])%list.
Proof. induction l as [|x l IH]; cbn; [reflexivity | rewrite IH; reflexivity]. Qed.

Lemma nth_error_snoc {A : Type} (l : list A) (u : A) :
  nth_error (l ++ [u])%list (length l) = Some u.
Proof. induction l as [|x l IH]; cbn; [reflexivity | exact IH]. Qed.

Lemma find_split {A : Type} (p : A -> bool) (l : list A) (v : A) :
  find p l = Some v ->
  exists before after,
    l = (before ++ v :: after)%list /\ Forall (fun u => p u = false) before /\ p v = true.
Proof.
  induction l as [|x l IH]; cbn; [discriminate|].
  destruct (p x) eqn:E.
  - intros H. injection H as <-. exists [], l. repeat split; [constructor | exact E].
  - intros H. destruct (IH H) as (b & a & -> & Hb & Hv).
    exists (x :: b), a. repeat split; [constructor; assumption | exact Hv].
Qed.

Lemma find_none_all {A : Type} (p : A -> bool) (l : list A) :
  find p l = None -> Forall (fun u => p u = false) l.
Proof.
  induction l as [|x l IH]; cbn; [constructor|].
  destruct (p x) eqn:E; [discriminate|]. intros H. constructor; [exact E | exact (IH H)].
Qed.

(** X19.  The two clauses of the voice predicate that ask for "female" in
    the voice's name have no effect: each is followed by the same language
    test without it.  A voice is preferred exactly when its name contains
    one of the five listed names, or its language tag contains en-US or
    en-GB, or starts with en. *)
Theorem female_clauses_are_absorbed (v : Speech.Voice) :
  Speech.preferred v
  = (JsText.includes (Speech.name v) "Samantha"
     || JsText.includes (Speech.name v) "Alex"
     || JsText.includes (Speech.name v) "Karen"
     || JsText.includes (Speech.name v) "Daniel"
     || JsText.includes (Speech.name v) "Fiona"
     || JsText.includes (Speech.lang v) "en-US"
     || JsText.includes (Speech.lang v) "en-GB"
     || JsText.startsWith (Speech.lang v) "en").
Proof.
  unfold Speech.preferred.
  destruct (JsText.includes (Speech.name v) "Samantha"),
           (JsText.includes (Speech.name v) "Alex"),
           (JsText.includes (Speech.name v) "Karen"),
           (JsText.includes (Speech.name v) "Daniel"),
           (JsText.includes (Speech.name v) "Fiona"),
           (JsText.includes (Speech.lang v) "en-US"),
           (JsText.includes (Speech.lang v) "en-GB"),
           (JsText.includes (JsText.toLowerCase (Speech.name v)) "female"),
           (JsText.startsWith (Speech.lang v) "en"); reflexivity.
Qed.

(** X20.  The voice assigned to an utterance: none exactly when the catalog
    is empty; otherwise a voice of the catalog, namely the first preferred
    one in catalog order (the order of the clauses of the predicate gives no
    priority: a voice whose tag merely starts with en wins over a later
    Samantha), or the first voice of the catalog when none is preferred. *)
Theorem chooseVoice_first_match (catalog : list Speech.Voice) :
  match Speech.chooseVoice catalog with
  | None => catalog = []
  | Some v =>
      exists before after,
        catalog = (before ++ v :: after)%list
        /\ Forall (fun u => Speech.preferred u = false) before
        /\ (Speech.preferred v = true
            \/ (before = [] /\ Forall (fun u => Speech.preferred u = false) after))
  end.
Proof.
  unfold Speech.chooseVoice. destruct catalog as [|first rest]; [reflexivity|].
  destruct (find Speech.preferred (first :: rest)) as [v|] eqn:E.
  - destruct (find_split _ _ _ E) as (b & a & Hl & Hb & Hv).
    exists b, a. repeat split; [exact Hl | exact Hb | left; exact Hv].
  - apply find_none_all in E. exists [], rest. repeat split; [constructor|].
    right. split; [reflexivity|]. inversion E; assumption.
Qed.

(** X21.  [speakText] of a string returns without any call to the engine
    exactly when the string is empty or white space only, or the engine is
    missing; in every other case the engine state changes.  A value that is
    falsy (the undefined content of a response without the field) is
    skipped in the same way. *)
Theorem speakText_is_silent (t : string) (s : Speech.Synth) :
  (Speech.speakText (JString t) s = Some s
   <-> JsString.trim t = "" \/ Speech.available s = false)
  /\ (forall text, Js.truthy text = false -> Speech.speakText text s = Some s).
Proof.
  split.
  - unfold Speech.speakText. cbn [Js.truthy].
    destruct (JsString.truthy t) eqn:Et; cbn [negb].
    2:{ split; [|reflexivity]. intros _. left.
        apply truthy_false_iff in Et. subst t. reflexivity. }
    destruct (JsString.truthy (JsString.trim t)) eqn:Ett; cbn [negb].
    2:{ split; [|reflexivity]. intros _. left. apply truthy_false_iff. exact Ett. }
    destruct (Speech.available s) eqn:Ea; cbn [negb].
    2:{ split; [|reflexivity]. intros _. right. reflexivity. }
    split.
    + intros H. exfalso.
      assert (Hc : exists s', Some s' = Some s
                              /\ length (Speech.utterances s')
                                 = S (length (Speech.utterances s))).
      { rewrite <- H. cbn [Speech.voices].
        destruct (Speech.voices s) as [|v vs].
        - eexists. split; [reflexivity|]. cbn. rewrite length_app. cbn. lia.
        - eexists. split; [reflexivity|].
          unfold Speech.setVoiceAndSpeak. cbn [Speech.available Speech.utterances Speech.voices].
          cbn [negb]. rewrite updateNth_snoc, nth_error_snoc.
          cbn. rewrite length_app. cbn. lia. }
      destruct Hc as (s' & Hs & Hl). injection Hs as ->. lia.
    + apply truthy_true_iff in Ett. intros [H | H]; [contradiction | discriminate].
  - intros text H. unfold Speech.speakText. rewrite H. reflexivity.
Qed.

(** X22.  With a catalog at hand, [speakText] of a string that is not blank
    cancels the ongoing speech and then speaks once: the text as given (not
    trimmed), at rate 0.85, pitch 1 and volume 1, with the voice chosen from
    the catalog.  Nothing is left waiting for the catalog. *)
Theorem speakText_speaks_at_once (t : string) (s : Speech.Synth) :
  JsString.trim t <> "" ->
  Speech.available s = true ->
  Speech.voices s <> [] ->
  exists s',
    Speech.speakText (JString t) s = Some s'
    /\ Speech.calls s'
       = (Speech.calls s
          ++ [Speech.Cancel;
              Speech.Speak (length (Speech.utterances s))
                (Speech.mkUtterance t 0x1.b333333333333p-1 1 1
                   (Speech.chooseVoice (Speech.voices s)))])%list
    /\ Speech.chooseVoice (Speech.voices s) <> None
    /\ Speech.listeners s' = Speech.listeners s
    /\ Speech.fallbacks s' = Speech.fallbacks s.
Proof.
  intros Ht Ha Hv.
  assert (Hne : JsString.truthy t = true).
  { destruct t; [exfalso; apply Ht; reflexivity | reflexivity]. }
  apply truthy_true_iff in Ht.
  unfold Speech.speakText. cbn [Js.truthy]. rewrite Hne, Ht, Ha. cbn [negb Speech.voices].
  destruct (Speech.voices s) as [|v vs] eqn:Ev; [congruence|].
  eexists. split; [reflexivity|].
  unfold Speech.setVoiceAndSpeak. cbn [Speech.available Speech.utterances Speech.voices].
  cbn [negb]. rewrite updateNth_snoc, nth_error_snoc.
  cbn [Speech.calls Speech.listeners Speech.fallbacks].
  assert (Hc : Speech.chooseVoice (v :: vs) <> None).
  { unfold Speech.chooseVoice. destruct (find Speech.preferred (v :: vs)); discriminate. }
  split.
  { rewrite <- app_assoc. cbn [app]. unfold Speech.withVoice.
    destruct (Speech.chooseVoice (v :: vs)); [reflexivity | congruence]. }
  split; [exact Hc|]. split; reflexivity.
Qed.

Lemma speakText_speaks_at_once_witness :
  (JsString.trim "Good morning." <> ""
   /\ Speech.available (synthWith plainBeforeNamed) = true
   /\ Speech.voices (synthWith plainBeforeNamed) <> [])
  /\ exists s',
      Speech.speakText (JString "Good morning.") (synthWith plainBeforeNamed) = Some s'
      /\ Speech.calls s'
         = [Speech.Cancel;
            Speech.Speak 0
              (Speech.mkUtterance "Good morning." 0x1.b333333333333p-1 1 1
                 (Some (Speech.mkVoice "Zarvox" "en-scotland")))].
Proof.
  assert (H1 : JsString.trim "Good morning." <> "") by (vm_compute; discriminate).
  assert (H3 : Speech.voices (synthWith plainBeforeNamed) <> []) by discriminate.
  split; [exact (conj H1 (conj eq_refl H3))|].
  destruct (speakText_speaks_at_once "Good morning." (synthWith plainBeforeNamed)
              H1 eq_refl H3) as (s' & Hs & Hc & _).
  exists s'. split; [exact Hs|]. rewrite Hc. vm_compute. reflexivity.
Defined.

(** *** Waiting for the catalog *)

Lemma setVoiceAndSpeak_last id s :
  Speech.available s = true ->
  length (Speech.utterances s) = S id ->
  exists u store,
    Speech.setVoiceAndSpeak id s
    = Speech.mkSynth true (Speech.voices s) store
        (Speech.calls s ++ [Speech.Speak id u])%list (Speech.listeners s) (Speech.fallbacks s)
    /\ length store = S id.
Proof.
  intros Ha Hl. unfold Speech.setVoiceAndSpeak. rewrite Ha. cbn [negb].
  destruct (Speech.utterances s) as [|x l] eqn:E using rev_ind; [discriminate|].
  clear IHl. rewrite length_app in Hl. cbn in Hl.
  assert (Hid : id = length l) by lia. subst id.
  rewrite updateNth_snoc, nth_error_snoc.
  eexists. eexists. split; [reflexivity|]. rewrite length_app. cbn. lia.
Qed.

Lemma waiting_handle id e heard fired s :
  waiting id heard fired s ->
  waiting id (heard || Speech.isVoicesChanged e)
    (fired || negb (Speech.isVoicesChanged e)) (Speech.handle e s).
Proof.
  intros (Ha & Hl & Hls & Hfs & Hc).
  destruct e as [catalog|]; cbn [Speech.isVoicesChanged negb Speech.handle];
    rewrite ?orb_false_r, ?orb_true_r.
  - set (s0 := Speech.mkSynth (Speech.available s) catalog (Speech.utterances s)
                 (Speech.calls s) (Speech.listeners s) (Speech.fallbacks s)).
    unfold Speech.handleVoicesChanged. cbv zeta.
    change (Speech.listeners s0) with (Speech.listeners s). rewrite Hls.
    destruct heard; cbn [fold_left].
    + change (Speech.available s0) with (Speech.available s). rewrite Ha.
      unfold waiting. cbn [Speech.available Speech.utterances Speech.listeners
                             Speech.fallbacks].
      repeat split; assumption.
    + destruct (setVoiceAndSpeak_last id s0 Ha Hl) as (u & store & Hs & Hst).
      rewrite Hs. unfold waiting.
      cbn [Speech.available Speech.utterances Speech.listeners Speech.fallbacks
             Speech.calls].
      split; [reflexivity|]. split; [exact Hst|]. split; [reflexivity|].
      split; [exact Hfs|].
      unfold Speech.spoken in *. subst s0. cbn [Speech.calls].
      rewrite flat_map_app, length_app.
      cbn [flat_map]. rewrite Nat.eqb_refl. cbn [app length]. rewrite Hc. cbn [count]. lia.
  - rewrite Hfs. destruct fired.
    + unfold waiting. repeat split; assumption.
    + set (s0 := Speech.mkSynth (Speech.available s) (Speech.voices s) (Speech.utterances s)
                   (Speech.calls s) (Speech.listeners s) []).
      change (Speech.available s0) with (Speech.available s). rewrite Ha.
      destruct (setVoiceAndSpeak_last id s0 Ha Hl) as (u & store & Hs & Hst).
      rewrite Hs. unfold waiting.
      cbn [Speech.available Speech.utterances Speech.listeners Speech.fallbacks
             Speech.calls].
      split; [reflexivity|]. split; [exact Hst|]. split; [exact Hls|].
      split; [reflexivity|].
      unfold Speech.spoken in *. subst s0. cbn [Speech.calls].
      rewrite flat_map_app, length_app.
      cbn [flat_map]. rewrite Nat.eqb_refl. cbn [app length]. rewrite Hc. cbn [count]. lia.
Qed.

Lemma waiting_handleAll id es : forall heard fired s,
  waiting id heard fired s ->
  waiting id (heard || existsb Speech.isVoicesChanged es)
    (fired || existsb (fun e => negb (Speech.isVoicesChanged e)) es)
    (Speech.handleAll es s).
Proof.
  induction es as [|e es IH]; intros heard fired s H.
  - cbn. rewrite !orb_false_r. exact H.
  - cbn [existsb]. rewrite !orb_assoc.
    change (Speech.handleAll (e :: es) s) with (Speech.handleAll es (Speech.handle e s)).
    apply IH. apply waiting_handle. exact H.
Qed.

(** X23.  Without a catalog, [speakText] speaks nothing at once: it leaves a
    [voiceschanged] listener and a 1000 ms timer, and neither cancels the
    other.  Whatever follows, the utterance is spoken once by the timer when
    it fires, and once more by the listener when the catalog arrives, before
    or after the timer: twice in all when both happen. *)
Theorem deferred_speech_may_repeat (t : string) (s s1 : Speech.Synth)
    (es : list Speech.SynthEvent) :
  JsString.trim t <> "" ->
  Speech.available s = true ->
  Speech.voices s = [] ->
  Speech.listeners s = [] ->
  Speech.fallbacks s = [] ->
  Speech.spoken (length (Speech.utterances s)) s = [] ->
  Speech.speakText (JString t) s = Some s1 ->
  Speech.calls s1 = (Speech.calls s ++ [Speech.Cancel])%list
  /\ Speech.spoken (length (Speech.utterances s)) s1 = []
  /\ length (Speech.spoken (length (Speech.utterances s)) (Speech.handleAll es s1))
     = count (existsb Speech.isVoicesChanged es)
       + count (existsb (fun e => negb (Speech.isVoicesChanged e)) es).
Proof.
  intros Ht Ha Hv Hls Hfs Hsp.
  assert (Hne : JsString.truthy t = true).
  { destruct t; [exfalso; apply Ht; reflexivity | reflexivity]. }
  apply truthy_true_iff in Ht.
  unfold Speech.speakText. cbn [Js.truthy]. rewrite Hne, Ht, Ha. cbn [negb Speech.voices].
  rewrite Hv. cbn [Speech.available Speech.voices Speech.utterances Speech.calls
                     Speech.listeners Speech.fallbacks].
  rewrite Hls, Hfs. cbn [app]. intros H. injection H as <-.
  assert (Hsp1 : forall a v us ls fs,
             Speech.spoken (length (Speech.utterances s))
               (Speech.mkSynth a v us (Speech.calls s ++ [Speech.Cancel])%list ls fs) = []).
  { intros. unfold Speech.spoken in *. cbn [Speech.calls]. rewrite flat_map_app, Hsp.
    reflexivity. }
  split; [reflexivity|]. split; [apply Hsp1|].
  apply (waiting_handleAll (length (Speech.utterances s)) es false false).
  unfold waiting.
  cbn [Speech.available Speech.utterances Speech.listeners Speech.fallbacks].
  rewrite Hsp1, length_app. cbn. repeat split. lia.
Qed.

Lemma deferred_speech_may_repeat_witness :
  JsString.trim "Good morning." <> ""
  /\ exists s1,
      Speech.speakText (JString "Good morning.") (synthWith []) = Some s1
      /\ length (Speech.spoken 0
                   (Speech.handleAll [Speech.VoicesChanged plainBeforeNamed;
                                      Speech.FallbackFires] s1)) = 2.
Proof.
  assert (H : JsString.trim "Good morning." <> "") by (vm_compute; discriminate).
  split; [exact H|].
  eexists. split; [vm_compute; reflexivity|].
  exact (proj2 (proj2 (deferred_speech_may_repeat "Good morning." (synthWith []) _
                         [Speech.VoicesChanged plainBeforeNamed; Speech.FallbackFires]
                         H eq_refl eq_refl eq_refl eq_refl eq_refl eq_refl))).
Defined.

(** X24.  [stopSpeaking] does not stop an utterance that waits for the
    catalog: it cancels what the engine is speaking and leaves the listener
    and the timer in place, so the utterance is spoken after the stop. *)
Theorem stop_leaves_deferred_speech (id : nat) (heard fired : bool) (s : Speech.Synth)
    (es : list Speech.SynthEvent) :
  waiting id heard fired s ->
  Speech.calls (Speech.stopSpeaking s) = (Speech.calls s ++ [Speech.Cancel])%list
  /\ Speech.listeners (Speech.stopSpeaking s) = Speech.listeners s
  /\ Speech.fallbacks (Speech.stopSpeaking s) = Speech.fallbacks s
  /\ length (Speech.spoken id (Speech.handleAll es (Speech.stopSpeaking s)))
     = count (heard || existsb Speech.isVoicesChanged es)
       + count (fired || existsb (fun e => negb (Speech.isVoicesChanged e)) es).
Proof.
  intros H. pose proof H as (Ha & Hl & Hls & Hfs & Hc).
  unfold Speech.stopSpeaking. rewrite Ha.
  cbn [Speech.calls Speech.listeners Speech.fallbacks].
  split; [reflexivity|]. split; [reflexivity|]. split; [reflexivity|].
  apply (waiting_handleAll id es heard fired).
  unfold waiting. cbn [Speech.available Speech.utterances Speech.listeners Speech.fallbacks].
  split; [reflexivity|]. split; [exact Hl|]. split; [exact Hls|]. split; [exact Hfs|].
  unfold Speech.spoken in *. cbn [Speech.calls]. rewrite flat_map_app. cbn.
  rewrite app_nil_r. exact Hc.
Qed.

Lemma stop_leaves_deferred_speech_witness :
  waiting 0 false false waitingForCatalog
  /\ Speech.speakText (JString "Good morning.") (synthWith []) = Some waitingForCatalog
  /\ length (Speech.spoken 0
               (Speech.handleAll [Speech.FallbackFires] (Speech.stopSpeaking waitingForCatalog)))
     = 1.
Proof.
  assert (H : waiting 0 false false waitingForCatalog).
  { unfold waiting. cbn. repeat split. }
  split; [exact H|]. split; [vm_compute; reflexivity|].
  destruct (stop_leaves_deferred_speech 0 false false waitingForCatalog
              [Speech.FallbackFires] H) as (_ & _ & _ & Hc).
  exact Hc.
Defined.

(* ===================================================================== *)
(** ** Clear Chat while a request is pending *)
(* ===================================================================== *)

(** The commit of a render touches neither the log, the totals, the
    processing flag, the clock nor the pending requests. *)
Lemma rerender_keeps w :
  messages (st (exec rerender w)) = messages (st w)
  /\ costs (st (exec rerender w)) = costs (st w)
  /\ isProcessing (st (exec rerender w)) = isProcessing (st w)
  /\ inflight (exec rerender w) = inflight w
  /\ now (exec rerender w) = now w.
Proof.
  unfold rerender, effectCleanup, effectBody, recognition_stop, emit, clearTimeout,
    setError.
  handler. cases; repeat split.
Qed.

Lemma resume_success r w :
  handleUserInput_resume (Responded 200 (Some (Route.wire (Route.successBody r)))) w
  = Some (answeredWorld (JString (Route.text r))
            (Cost.calculateCost (Route.receivedUsage (Route.usage r)) (costs (st w))) w).
Proof.
  rewrite wire_successBody.
  unfold handleUserInput_resume, afterFetch.
  change (ok 200) with true. cbn [negb].
  cbn [Js.getProp Js.assoc String.eqb Ascii.eqb Bool.eqb Js.truthy].
  unfold readUsage.
  cbn [Js.getProp Js.assoc String.eqb Ascii.eqb Bool.eqb].
  rewrite !toNumber_wire. reflexivity.
Qed.

(** X25.  Clear Chat does not abort a request that is pending: the request
    stays in flight and the processing flag stays as it is.  When the
    route's answer arrives, it is appended to the emptied log, which then
    holds the reply alone, and its usage is the first entry of the new
    totals. *)
Theorem clear_chat_keeps_pending_request
    (w : World) (n : nat) (req : ChatRequest) (r : Route.GenerateTextResult) :
  messages (st w) <> [] ->
  nth_error (inflight w) n = Some (InHandleUserInput, req) ->
  exists wc w',
    step EvClickClear w = Some wc
    /\ messages (st wc) = []
    /\ inflight wc = inflight w
    /\ isProcessing (st wc) = isProcessing (st w)
    /\ step (EvSettle n (Responded 200 (Some (Route.wire (Route.successBody r))))) wc
       = Some w'
    /\ messages (st w') = [mkMessage assistant (JString (Route.text r)) (now w)]
    /\ costs (st w')
       = Cost.calculateCost (Route.receivedUsage (Route.usage r)) Cost.zero
    /\ isProcessing (st w') = false.
Proof.
  intros Hne Hn.
  set (wc0 := exec (setMessages [] ;; setCostsFn (fun _ => Cost.resetCosts)) w).
  destruct (rerender_keeps wc0) as (Hm & Hc & Hp & Hi & Hnow).
  set (wc := exec rerender wc0) in *.
  assert (Hstep : step EvClickClear w = Some wc).
  { unfold step, dispatch. destruct (messages (st w)); [congruence | reflexivity]. }
  set (w1 := answeredWorld (JString (Route.text r))
               (Cost.calculateCost (Route.receivedUsage (Route.usage r)) (costs (st wc)))
               (with_inflight (removeNth n (inflight wc)) wc)).
  destruct (rerender_keeps w1) as (Hm1 & Hc1 & Hp1 & _ & _).
  exists wc, (exec rerender w1).
  split; [exact Hstep|]. split; [rewrite Hm; reflexivity|].
  split; [rewrite Hi; reflexivity|]. split; [rewrite Hp; reflexivity|].
  split.
  { assert (Hn' : nth_error (inflight wc) n = Some (InHandleUserInput, req))
      by (rewrite Hi; exact Hn).
    unfold step, dispatch. rewrite Hn', resume_success. reflexivity. }
  split.
  { rewrite Hm1. unfold w1, answeredWorld. cbn [st messages set_isProcessing set_costs
                                                   set_messages with_inflight now].
    rewrite Hm, Hnow. reflexivity. }
  split.
  { rewrite Hc1. unfold w1, answeredWorld. cbn [st costs set_isProcessing set_costs
                                                   set_messages with_inflight].
    rewrite Hc. reflexivity. }
  rewrite Hp1. reflexivity.
Qed.

Lemma clear_chat_keeps_pending_request_witness :
  (messages (st busy) <> []
   /\ nth_error (inflight busy) 0
      = Some (InHandleUserInput, mkChatRequest "how are you" [] "normal"))
  /\ exists wc w',
      step EvClickClear busy = Some wc
      /\ messages (st wc) = []
      /\ step (EvSettle 0 (Responded 200
                 (Some (Route.wire
                          (Route.successBody
                             (Route.mkGenerated "I'm doing well, thanks!"
                                (mkTokenUsage 50 20 70))))))) wc = Some w'
      /\ map content (messages (st w')) = [JString "I'm doing well, thanks!"].
Proof.
  assert (H1 : messages (st busy) <> []) by (vm_compute; discriminate).
  assert (H2 : nth_error (inflight busy) 0
               = Some (InHandleUserInput, mkChatRequest "how are you" [] "normal"))
    by (vm_compute; reflexivity).
  split; [exact (conj H1 H2)|].
  destruct (clear_chat_keeps_pending_request busy 0 _
              (Route.mkGenerated "I'm doing well, thanks!" (mkTokenUsage 50 20 70)) H1 H2)
    as (wc & w' & Hs1 & Hm & _ & _ & Hs2 & Hm2 & _).
  exists wc, w'. split; [exact Hs1|]. split; [exact Hm|]. split; [exact Hs2|].
  rewrite Hm2. reflexivity.
Defined.

(* ===================================================================== *)
(** ** The handlers that the engine's events reach *)
(* ===================================================================== *)

Lemma forallb_incl {A : Type} (p : A -> bool) (l l' : list A) :
  (forall t, In t l' -> In t l \/ p t = true) ->
  forallb p l = true -> forallb p l' = true.
Proof.
  intros H Hl. apply forallb_forall. intros t Hin.
  destruct (H t Hin) as [Hin' | Hp]; [|exact Hp].
  rewrite forallb_forall in Hl. apply Hl. exact Hin'.
Qed.

Lemma noNew_refl l : noNewRestart l l.
Proof. intros t H. left. exact H. Qed.

Lemma noNew_filter f l l' : noNewRestart l l' -> noNewRestart l (filter f l').
Proof. intros H t Hin. apply filter_In in Hin as [Hin _]. apply H. exact Hin. Qed.

Lemma noNew_cleared o l l' : noNewRestart l l' -> noNewRestart l (cleared o l').
Proof. destruct o; cbn; [apply noNew_filter | trivial]. Qed.

Lemma noNew_snoc l l' t :
  isRestart t = false -> noNewRestart l l' -> noNewRestart l (l' ++ [t]).
Proof.
  intros Ht H t' Hin. apply in_app_or in Hin as [Hin | [<- | []]].
  - apply H. exact Hin.
  - right. rewrite Ht. reflexivity.
Qed.

Lemma stale_parts w :
  stale w = true ->
  recognitionRef w = true
  /\ isListening (active w) = false
  /\ depsChanged (installed w) (st w) = false
  /\ forallb (fun t => negb (isRestart t)) (timers w) = true
  /\ (isListening (st w) = true -> recognizing w = false).
Proof.
  unfold stale. intros H.
  apply andb_prop in H as [H H5]. apply andb_prop in H as [H H4].
  apply andb_prop in H as [H H3]. apply andb_prop in H as [H1 H2].
  apply negb_true_iff in H2, H3.
  repeat split; try assumption.
  intros Hl. rewrite Hl in H5. cbn in H5. apply negb_true_iff in H5. exact H5.
Qed.

Lemma deps_isListening a b :
  depsChanged a b = false -> isListening a = isListening b.
Proof.
  unfold depsChanged. intros H. apply negb_false_iff in H.
  apply andb_prop in H as [H _]. apply andb_prop in H as [H _].
  apply andb_prop in H as [H _]. apply Bool.eqb_prop. exact H.
Qed.

Lemma commit_stale w w1 :
  stale w = true -> beforeCommit w w1 -> stale (exec rerender w1) = true.
Proof.
  intros Hs (Hr & Ha & Hn & Hd).
  destruct (stale_parts w Hs) as (_ & _ & _ & Ht & _).
  assert (Ht1 : forallb (fun t => negb (isRestart t)) (timers w1) = true)
    by (apply (forallb_incl _ (timers w)); assumption).
  destruct (depsChanged (installed w1) (st w1)) eqn:E.
  - rewrite (rerender_changed w1 E Hr). unfold stale.
    cbn [recognitionRef active installed st timers recognizing].
    rewrite Ha, depsChanged_same by reflexivity. cbn [negb andb].
    rewrite implb_true_r, andb_true_r.
    apply (forallb_incl _ (timers w1)); [|exact Ht1].
    apply noNew_cleared, noNew_refl.
  - rewrite (rerender_unchanged w1 E). unfold stale.
    rewrite Hr, Ha, E, Ht1. cbn [negb andb].
    destruct (isListening (st w1)) eqn:El; [|reflexivity].
    rewrite (Hd eq_refl eq_refl). reflexivity.
Qed.

Lemma before_same w :
  stale w = true -> beforeCommit w w.
Proof.
  intros Hs. destruct (stale_parts w Hs) as (Hr & Ha & Hd & Ht & Hl).
  split; [exact Hr|]. split; [exact Ha|]. split; [apply noNew_refl|].
  intros _. exact Hl.
Qed.

(** A task that leaves the started object, the listening flag and the
    recognition object alone. *)
Lemma before_frame w w1 :
  stale w = true ->
  recognitionRef w1 = recognitionRef w ->
  active w1 = active w ->
  installed w1 = installed w ->
  recognizing w1 = recognizing w ->
  isListening (st w1) = isListening (st w) ->
  noNewRestart (timers w) (timers w1) ->
  beforeCommit w w1.
Proof.
  intros Hs H1 H2 H3 H4 H5 H6.
  destruct (stale_parts w Hs) as (Hr & Ha & Hd & Ht & Hl).
  split; [rewrite H1; exact Hr|]. split; [rewrite H2; exact Ha|].
  split; [exact H6|].
  intros _ Hl1. rewrite H4. apply Hl. rewrite <- H5. exact Hl1.
Qed.

Lemma onresult_frame env event w :
  let w1 := exec (onresult env event) w in
  recognitionRef w1 = recognitionRef w
  /\ active w1 = active w
  /\ installed w1 = installed w
  /\ recognizing w1 = recognizing w
  /\ isListening (st w1) = isListening (st w)
  /\ noNewRestart (timers w) (timers w1).
Proof.
  unfold onresult, clearTimeout, setSilenceTimer, setTranscript, setHasSpokenContent,
    setFinalTranscriptRef, setTimeout.
  handler.
  destruct (JsString.truthy (finalText event)), (JsString.truthy (interimText event)),
    (silenceTimer env); cbn; repeat (split; [reflexivity|]);
    repeat first [apply noNew_filter | apply noNew_snoc; [reflexivity|] | apply noNew_refl].
Qed.

Lemma onerror_frame env code w :
  let w1 := exec (onerror env code) w in
  recognitionRef w1 = recognitionRef w
  /\ active w1 = active w
  /\ installed w1 = installed w
  /\ recognizing w1 = recognizing w
  /\ isListening (st w1) = isListening (st w)
  /\ noNewRestart (timers w) (timers w1).
Proof.
  unfold onerror, setError, setTimeout. handler.
  destruct (String.eqb code "network" || String.eqb code "no-speech"),
    (String.eqb code "aborted"); cbn; repeat (split; [reflexivity|]);
    repeat first [apply noNew_snoc; [reflexivity|] | apply noNew_refl].
Qed.

Lemma silenceCallback_frame env w :
  let w1 := exec (silenceCallback env) w in
  recognitionRef w1 = recognitionRef w
  /\ active w1 = active w
  /\ installed w1 = installed w
  /\ recognizing w1 = recognizing w
  /\ isListening (st w1) = isListening (st w)
  /\ timers w1 = timers w.
Proof.
  cbv zeta.
  destruct (JsString.truthy (JsString.trim (finalTranscriptRef w)) && hasSpokenContent env)
    eqn:E.
  - apply andb_prop in E as [E1 E2]. apply truthy_true_iff in E1.
    rewrite (silenceCallback_submits env w E2 E1). repeat split.
  - assert (Hw : exec (silenceCallback env) w = w).
    { unfold silenceCallback. handler. rewrite E. reflexivity. }
    rewrite Hw. repeat split.
Qed.

Lemma stopListening_frame env w :
  let w1 := exec (stopListening env) w in
  recognitionRef w1 = recognitionRef w
  /\ active w1 = active w
  /\ installed w1 = installed w
  /\ isListening (st w1) = false
  /\ noNewRestart (timers w) (timers w1).
Proof.
  cbv zeta.
  destruct (JsString.truthy (JsString.trim (finalTranscriptRef w))) eqn:E.
  - apply truthy_true_iff in E. rewrite (stopListening_flush env w E).
    cbn [recognitionRef active installed st timers].
    split; [reflexivity|]. split; [reflexivity|]. split; [reflexivity|].
    split; [destruct (silenceTimer env); reflexivity|].
    apply noNew_cleared, noNew_refl.
  - apply truthy_false_iff in E. rewrite (stopListening_blank env w E).
    cbn [recognitionRef active installed st timers].
    split; [reflexivity|]. split; [reflexivity|]. split; [reflexivity|].
    split; [destruct (silenceTimer env); reflexivity|].
    apply noNew_cleared, noNew_refl.
Qed.

Lemma startListening_frame env w :
  let w1 := exec (startListening env) w in
  recognitionRef w1 = recognitionRef w
  /\ (active w1 = active w \/ active w1 = installed w)
  /\ installed w1 = installed w
  /\ isListening (st w1) = isListening (st w)
  /\ timers w1 = timers w.
Proof.
  unfold startListening, recognition_start, emit, setTranscript, setError,
    setFinalTranscriptRef, setHasSpokenContent.
  handler.
  destruct (recognitionRef w) eqn:Hr, (isListening env), (recognizing w) eqn:Hg;
    cbn; rewrite ?Hr, ?Hg; cbn;
    (split; [first [reflexivity | exact Hr]|]);
    (split; [first [left; reflexivity | right; reflexivity]|]);
    repeat split.
Qed.

Lemma find_In {A : Type} (p : A -> bool) (l : list A) (x : A) :
  find p l = Some x -> In x l.
Proof. intros H. apply find_some in H. tauto. Qed.

(** What a task leaves to the commit, event by event. *)
Lemma dispatch_before e w w1 :
  stale w = true -> dispatch e w = Some w1 -> beforeCommit w w1.
Proof.
  intros Hs. pose proof (stale_parts w Hs) as (Hr & Ha & Hd & Ht & Hl).
  destruct e as [ms| |event|code| |id|n o| |]; cbn [dispatch]; rewrite ?Hr.
  - intros H. injection H as <-. apply before_frame; try reflexivity; [exact Hs|].
    apply noNew_refl.
  - intros H. injection H as <-.
    split; [exact Hr|]. split; [exact Ha|]. split; [apply noNew_refl|].
    intros Hd1 _. apply Hl.
    rewrite <- (deps_isListening _ _ Hd).
    change (installed w) with (installed (exec onstart w)).
    rewrite (deps_isListening _ _ Hd1). reflexivity.
  - intros H. injection H as <-.
    destruct (onresult_frame (active w) event w) as (H1 & H2 & H3 & H4 & H5 & H6).
    apply before_frame; assumption.
  - intros H. injection H as <-.
    destruct (onerror_frame (active w) code w) as (H1 & H2 & H3 & H4 & H5 & H6).
    apply before_frame; assumption.
  - intros H. injection H as <-.
    destruct (onend_by_captured_flags (active w) w) as [_ E].
    rewrite (E (or_intror Ha)). apply before_same. exact Hs.
  - destruct (find (fun t => Pos.eqb (tid t) id) (timers w)) as [t|] eqn:Ef;
      [|intros H; injection H as <-; apply before_same; exact Hs].
    destruct (due t <=? now w)%nat;
      [|intros H; injection H as <-; apply before_same; exact Hs].
    intros H. injection H as <-.
    assert (Hnr : isRestart t = false).
    { apply find_In in Ef. rewrite forallb_forall in Ht.
      apply negb_true_iff. apply Ht. exact Ef. }
    set (w0 := exec (clearTimeout id) w).
    assert (Hw0 : exec (clearTimeout id ;; runCallback (callback t))%handler w
                  = exec (runCallback (callback t)) w0) by reflexivity.
    rewrite Hw0.
    assert (Hn0 : noNewRestart (timers w) (timers w0))
      by (apply noNew_filter, noNew_refl).
    unfold isRestart in Hnr.
    destruct (callback t) as [env|env|env|text]; [| | discriminate |]; cbn [runCallback].
    + destruct (silenceCallback_frame env w0) as (H1 & H2 & H3 & H4 & H5 & H6).
      apply before_frame; try assumption. rewrite H6. exact Hn0.
    + rewrite errorRestartCallback_noop.
      apply before_frame; try reflexivity; assumption.
    + apply before_frame; try reflexivity; assumption.
  - destruct (nth_error (inflight w) n) as [[c req]|] eqn:En;
      [|intros H; injection H as <-; apply before_same; exact Hs].
    set (w0 := with_inflight (removeNth n (inflight w)) w).
    intros H.
    assert (Hc : exists failure, settle failure (afterFetch o w0) w0 = Some w1)
      by (destruct c; eexists; exact H).
    destruct Hc as (failure & Hset).
    destruct (settle_cases failure o w0 w1 Hset)
      as [-> | (response & usage & _ & [[_ ->] | (u & _ & _ & ->)])];
      apply before_frame; try reflexivity; try exact Hs;
      first [apply noNew_refl | apply noNew_snoc; [reflexivity | apply noNew_refl]].
  - intros H. injection H as <-.
    destruct (isProcessing (st w)); [apply before_same; exact Hs|].
    destruct (isListening (st w)) eqn:El.
    + destruct (stopListening_frame (st w) w) as (H1 & H2 & H3 & H4 & H5).
      split; [rewrite H1; exact Hr|]. split; [rewrite H2; exact Ha|].
      split; [exact H5|]. intros _ Hl1. rewrite H4 in Hl1. discriminate.
    + destruct (startListening_frame (st w) w) as (H1 & H2 & H3 & H4 & H5).
      split; [rewrite H1; exact Hr|].
      split.
      { destruct H2 as [-> | ->]; [exact Ha|].
        rewrite (deps_isListening _ _ Hd). exact El. }
      split; [rewrite H5; apply noNew_refl|].
      intros _ Hl1. rewrite H4, El in Hl1. discriminate.
  - intros H. injection H as <-.
    destruct (messages (st w)); [apply before_same; exact Hs|].
    apply before_frame; try reflexivity; [exact Hs | apply noNew_refl].
Qed.

Lemma stale_step e w w' : stale w = true -> step e w = Some w' -> stale w' = true.
Proof.
  intros Hs. unfold step. destruct (dispatch e w) as [w1|] eqn:E; [|discriminate].
  intros H. injection H as <-. apply (commit_stale w); [exact Hs|].
  apply (dispatch_before e); assumption.
Qed.

Lemma stale_run es : forall w w',
  stale w = true -> run es w = Some w' -> stale w' = true.
Proof.
  induction es as [|e es IH]; intros w w' Hs; cbn [run].
  - intros H. injection H as <-. exact Hs.
  - destruct (step e w) as [w1|] eqn:E; [|discriminate].
    intros H. apply (IH w1); [|exact H]. apply (stale_step e w); assumption.
Qed.

(** X26.  In a browser with speech recognition, whatever the user, the
    engine, the timers and the network do after the component is mounted
    (no response carrying a usage that is left undefined), the handlers
    that the engine's events reach captured
    [isListening = false]: the only [start()] that is ever called is the one
    of [startListening], on an object created by a render that was not
    listening, and the render that follows its start event replaces and
    stops that object.  So no end event ever schedules a restart: no restart
    timer is pending, an end event changes nothing, and while the state says
    listening the object in [recognitionRef.current] is not started. *)
Theorem engine_handlers_never_listening
    (hasSynthesis : bool) (es : list Event) (w : World) :
  run es (mount true hasSynthesis) = Some w ->
  isListening (active w) = false
  /\ forallb (fun t => negb (isRestart t)) (timers w) = true
  /\ step EvEnd w = Some w
  /\ (isListening (st w) = true -> recognizing w = false).
Proof.
  intros H.
  assert (Hs : stale w = true).
  { apply (stale_run es (mount true hasSynthesis)); [|exact H].
    destruct hasSynthesis; reflexivity. }
  destruct (stale_parts w Hs) as (Hr & Ha & Hd & Ht & Hl).
  split; [exact Ha|]. split; [exact Ht|]. split; [|exact Hl].
  unfold step, dispatch. rewrite Hr.
  destruct (onend_by_captured_flags (active w) w) as [_ E].
  rewrite (E (or_intror Ha)), (rerender_unchanged w Hd). reflexivity.
Qed.

Lemma engine_handlers_never_listening_witness :
  exists w,
    run [EvClickMic; EvStart; EvResult (mkEvent [mkResult true "hello"] 0); EvEnd]
      (mount true true) = Some w
    /\ isListening (st w) = true
    /\ isListening (active w) = false
    /\ step EvEnd w = Some w.
Proof.
  eexists. split; [vm_compute; reflexivity|].
  split; [vm_compute; reflexivity|].
  match goal with
  | |- isListening (active ?w) = false /\ _ =>
      destruct (engine_handlers_never_listening true
                  [EvClickMic; EvStart; EvResult (mkEvent [mkResult true "hello"] 0); EvEnd]
                  w ltac:(vm_compute; reflexivity)) as (H1 & _ & H3 & _)
  end.
  split; [exact H1 | exact H3].
Defined.

(** X27.  A session is stopped as soon as it has started.  Take a component
    with speech recognition between two tasks that is not listening, not
    processing and holds no spoken content, with an idle recognition
    object.  A click on the microphone button calls [start()] on that
    object; the start event sets [isListening], a dependency of the effect,
    and the commit of that render calls [stop()] on the object that was
    started and replaces it by a new one that nothing starts.  The handlers
    that the engine's events reach from then on are those of the render
    before the click. *)
Theorem session_is_stopped_at_its_start (w : World) :
  recognitionRef w = true ->
  depsChanged (installed w) (st w) = false ->
  isListening (st w) = false ->
  isProcessing (st w) = false ->
  hasSpokenContent (st w) = false ->
  recognizing w = false ->
  exists w1 w2,
    step EvClickMic w = Some w1
    /\ log w1 = (log w ++ [RecognitionStart])%list
    /\ recognizing w1 = true
    /\ step EvStart w1 = Some w2
    /\ log w2 = (log w ++ [RecognitionStart; RecognitionStop]
                 ++ (if synthRef w then [SynthCancel] else []))%list
    /\ recognizing w2 = false
    /\ isListening (st w2) = true
    /\ active w2 = installed w
    /\ isListening (active w2) = false.
Proof.
  intros Hr Hd Hl Hp Hs Hg.
  set (w1 := exec (startListening (st w)) w).
  assert (E1 : w1 = with_active (installed w)
                      (with_recognizing true
                         (with_log (log w ++ [RecognitionStart])
                            (with_ref ""
                               (with_st (fun s => set_hasSpokenContent false
                                                    (set_error "" (set_transcript "" s)))
                                  w))))).
  { unfold w1, startListening, recognition_start, emit, setTranscript, setError,
      setFinalTranscriptRef, setHasSpokenContent.
    handler. rewrite Hr, Hl. cbn. rewrite Hg. reflexivity. }
  assert (Hd1 : depsChanged (installed w1) (st w1) = false).
  { rewrite E1. cbn [installed st with_active with_recognizing with_log with_ref with_st].
    apply depsChanged_same; cbn;
      [apply (deps_isListening _ _ Hd) | apply (deps_isProcessing _ _ Hd)
      | | rewrite (deps_hasSpokenContent _ _ Hd); exact Hs].
    unfold depsChanged in Hd. apply negb_false_iff in Hd.
    apply andb_prop in Hd as [Hd _]. apply andb_prop in Hd as [_ Hd].
    unfold eqb_timer in Hd.
    destruct (silenceTimer (installed w)), (silenceTimer (st w)); try discriminate;
      [apply Pos.eqb_eq in Hd; subst|]; reflexivity. }
  set (w2 := exec onstart w1).
  assert (Hc2 : depsChanged (installed w2) (st w2) = true).
  { unfold depsChanged. unfold w2. rewrite E1. cbn.
    rewrite (deps_isListening _ _ Hd), Hl. reflexivity. }
  assert (Hr2 : recognitionRef w2 = true) by (unfold w2; rewrite E1; exact Hr).
  exists w1, (exec rerender w2).
  split.
  { unfold step, dispatch. rewrite Hp, Hl. fold w1.
    rewrite (rerender_unchanged w1 Hd1). reflexivity. }
  split; [rewrite E1; reflexivity|]. split; [rewrite E1; reflexivity|].
  split.
  { unfold step, dispatch. assert (Hr1 : recognitionRef w1 = true) by (rewrite E1; exact Hr).
    rewrite Hr1. reflexivity. }
  rewrite (rerender_changed w2 Hc2 Hr2). unfold w2. rewrite E1.
  cbn [log recognizing st active installed synthRef].
  split.
  { cbn. rewrite <- !app_assoc. reflexivity. }
  split; [reflexivity|]. split; [reflexivity|]. split; [reflexivity|].
  cbn. rewrite (deps_isListening _ _ Hd). exact Hl.
Qed.

Lemma session_is_stopped_at_its_start_witness :
  exists w1 w2,
    step EvClickMic (mount true true) = Some w1
    /\ step EvStart w1 = Some w2
    /\ log w2 = [RecognitionStart; RecognitionStop; SynthCancel]
    /\ isListening (st w2) = true
    /\ isListening (active w2) = false.
Proof.
  destruct (session_is_stopped_at_its_start (mount true true)
              eq_refl eq_refl eq_refl eq_refl eq_refl eq_refl)
    as (w1 & w2 & H1 & _ & _ & H2 & H3 & _ & H4 & _ & H5).
  exists w1, w2. split; [exact H1|]. split; [exact H2|].
  split; [rewrite H3; reflexivity|]. split; [exact H4 | exact H5].
Defined.
